(** * Citation and bibliography resolution ([src/scripts/citations.py])

    A shallow embedding of the citation pipeline of the digital-monography
    tool chain: the document tree of [bs4], the decoded citation groups,
    the calls into the [citeproc] style engine, and the in-place rewrite
    of the document.  The Python functions are written in a small
    state-and-exception monad whose state holds the one mutable object the
    code shares between its functions, the soup. *)

From Stdlib Require Import String Ascii List Arith ZArith Lia Bool.
From Stdlib Require Import Floats.SpecFloat DecimalString.
Import ListNotations.
Open Scope string_scope.
Open Scope list_scope.

Set Implicit Arguments.
#[local] Set Warnings "-register-all".

(** ** Python exceptions and results *)

Inductive exn : Type :=
| KeyError (key : string)
| IndexError
| TypeError
| AttributeError (attr : string)
| ValueError (msg : string)
| OtherError (cls msg : string).

Inductive result (A : Type) : Type :=
| Ok (a : A)
| Raise (e : exn).
Arguments Ok {A} a.
Arguments Raise {A} e.

Definition is_ok {A} (r : result A) : bool :=
  match r with Ok _ => true | Raise _ => false end.

(** [d[k]] on a dict with string keys *)
Fixpoint dict_get {V} (k : string) (d : list (string * V)) : result V :=
  match d with
  | [] => Raise (KeyError k)
  | (k', v) :: r => if String.eqb k k' then Ok v else dict_get k r
  end.

(** [l[i]] for an index that is not negative *)
Definition list_get {V} (l : list V) (i : nat) : result V :=
  match nth_error l i with
  | Some v => Ok v
  | None => Raise IndexError
  end.

Definition rbind {A B} (r : result A) (k : A -> result B) : result B :=
  match r with
  | Ok a => k a
  | Raise e => Raise e
  end.

Notation "x <~ c ;; k" := (rbind c (fun x => k))
  (at level 61, c at next level, right associativity).

(** A loop that builds a list with [append], one fallible step per element. *)
Fixpoint for_append {A B} (f : A -> result B) (l : list A) (acc : list B)
  : result (list B) :=
  match l with
  | [] => Ok acc
  | x :: r => y <~ f x ;; for_append f r (acc ++ [y])
  end.

(** ** Strings *)

Module Str.

(** [s[n:]] *)
Fixpoint drop (n : nat) (s : string) : string :=
  match n, s with
  | O, _ => s
  | S _, EmptyString => EmptyString
  | S n', String _ s' => drop n' s'
  end.

(** [s.startswith(p)] *)
Definition startswith (s p : string) : bool := String.prefix p s.

End Str.

(** ** The document tree of bs4 *)

Module Bs4.

(** An attribute value: a string, or a list of strings for the
    multi-valued attributes ([class]) of the HTML tree builders. *)
Inductive attr_value : Type :=
| AttrStr (s : string)
| AttrList (l : list string).

Definition attrs_t := list (string * attr_value).

(** What a caller may hand to a parameter that bs4 stores as it is. *)
Inductive pyarg : Type :=
| PyStr (s : string)
| PyDict (d : attrs_t).

Inductive node : Type :=
| NavigableString (text : string)
| Tag (name : string) (namespace : option pyarg) (attrs : attrs_t)
      (contents : list node).

(** The [BeautifulSoup] object, given by the contents of its root. *)
Definition BeautifulSoup := list node.

(** The position of an element: child indices from the root. *)
Definition path := list nat.

Section NodeInd.
Variable P : node -> Prop.
Hypothesis HStr : forall s, P (NavigableString s).
Hypothesis HTag : forall name ns attrs cs,
      Forall P cs -> P (Tag name ns attrs cs).

Fixpoint node_ind' (n : node) : P n :=
    match n with
    | NavigableString s => HStr s
    | Tag name ns attrs cs =>
        HTag name ns attrs
             ((fix all (l : list node) : Forall P l :=
                 match l with
                 | [] => Forall_nil P
                 | c :: r => Forall_cons c (node_ind' c) (all r)
                 end) cs)
    end.
End NodeInd.

Definition under (i : nat) (e : path * node) : path * node :=
  (i :: fst e, snd e).

(** All elements below a node, in document order (depth first, parents
    before children), each with its position relative to the node. *)
Fixpoint descendants (n : node) : list (path * node) :=
  match n with
  | NavigableString _ => []
  | Tag _ _ _ cs =>
      (fix go (i : nat) (l : list node) {struct l} : list (path * node) :=
         match l with
         | [] => []
         | c :: r => ([i], c) :: map (under i) (descendants c) ++ go (S i) r
         end) 0 cs
  end.

Fixpoint descendants_from (i : nat) (l : list node) : list (path * node) :=
  match l with
  | [] => []
  | c :: r =>
      ([i], c) :: map (under i) (descendants c) ++ descendants_from (S i) r
  end.

Definition contents_of (n : node) : list node :=
  match n with
  | NavigableString _ => []
  | Tag _ _ _ cs => cs
  end.

Definition attrs_of (n : node) : attrs_t :=
  match n with
  | NavigableString _ => []
  | Tag _ _ attrs _ => attrs
  end.

(** How [find_all] matches one attribute against a string: a string
    value must be equal to it, a list value must hold it. *)
Definition attr_matches (v : attr_value) (want : string) : bool :=
  match v with
  | AttrStr s => String.eqb s want
  | AttrList l => existsb (fun s => String.eqb s want) l
  end.

Definition tag_matches (name : string) (filter : list (string * string))
           (n : node) : bool :=
  match n with
  | NavigableString _ => false
  | Tag name' _ attrs _ =>
      String.eqb name' name
      && forallb (fun kv => match dict_get (fst kv) attrs with
                            | Ok v => attr_matches v (snd kv)
                            | Raise _ => false
                            end) filter
  end.

(** [soup.find_all(name, attrs)]: the matching elements in document
    order.  A result keeps the element's position; the attributes of an
    element are never changed by this code, so the element as found
    stands for the live object when its attributes are read. *)
Definition find_all (soup : BeautifulSoup) (name : string)
           (filter : list (string * string)) : list (path * node) :=
  List.filter (fun e => tag_matches name filter (snd e))
              (descendants_from 0 soup).

(** [soup.new_tag(name, namespace=None, nsprefix=None, attrs={})]: the
    second positional parameter is the namespace. *)
Definition new_tag (name : string) (namespace : option pyarg)
           (attrs : attrs_t) : node :=
  Tag name namespace attrs [].

(** [tag.string = s] *)
Definition set_string (n : node) (s : string) : node :=
  match n with
  | NavigableString _ => NavigableString s
  | Tag name ns attrs _ => Tag name ns attrs [NavigableString s]
  end.

(** [tag.append(child)] *)
Definition append (n child : node) : node :=
  match n with
  | NavigableString _ => n
  | Tag name ns attrs cs => Tag name ns attrs (cs ++ [child])
  end.

Fixpoint list_update {A} (i : nat) (f : A -> A) (l : list A) : list A :=
  match l, i with
  | [], _ => []
  | x :: r, O => f x :: r
  | x :: r, S i' => x :: list_update i' f r
  end.

Definition with_contents (f : list node -> list node) (n : node) : node :=
  match n with
  | NavigableString _ => n
  | Tag name ns attrs cs => Tag name ns attrs (f cs)
  end.

Fixpoint get_at (p : path) (l : list node) : option node :=
  match p with
  | [] => None
  | i :: p' =>
      match nth_error l i with
      | None => None
      | Some n =>
          match p' with
          | [] => Some n
          | _ :: _ => get_at p' (contents_of n)
          end
      end
  end.

(** The tree with the element at position [p] exchanged for [new]. *)
Fixpoint replace_at (p : path) (new : node) (l : list node) : list node :=
  match p with
  | [] => l
  | i :: p' =>
      match p' with
      | [] => list_update i (fun _ => new) l
      | _ :: _ => list_update i (with_contents (replace_at p' new)) l
      end
  end.

(** [strict_prefix p q]: [p] is a proper ancestor position of [q]. *)
Fixpoint strict_prefix (p q : path) : bool :=
  match p, q with
  | [], [] => false
  | [], _ :: _ => true
  | _ :: _, [] => false
  | i :: p', j :: q' => Nat.eqb i j && strict_prefix p' q'
  end.

End Bs4.

Import Bs4.

(** ** The Python values the pipeline handles *)

(** What [json.loads] returns.  The classes [CitationItem],
    [CitationItemProps] and [Citation] of the source are [TypedDict]
    annotations: nothing checks them when the code runs, so a decoded
    citation group is whatever value its payload holds.  A dict is given
    by its items in their order; its keys differ from one another. *)
Inductive json : Type :=
| JNull
| JBool (b : bool)
| JInt (z : Z)
| JFloat (f : spec_float)
| JStr (s : string)
| JList (l : list json)
| JDict (d : list (string * json)).

(** [v[k]] for a string [k]: a dict has the key or raises [KeyError], and
    no other value takes a string as an index. *)
Definition getitem (v : json) (k : string) : result json :=
  match v with
  | JDict d => dict_get k d
  | _ => Raise TypeError
  end.

(** What [for x in v] goes through: the elements of a list, the keys of a
    dict, the characters of a string; no other value is iterable. *)
Definition iterate (v : json) : result (list json) :=
  match v with
  | JList l => Ok l
  | JDict d => Ok (map (fun kv => JStr (fst kv)) d)
  | JStr s => Ok (map (fun c => JStr (String c "")) (list_ascii_of_string s))
  | _ => Raise TypeError
  end.

(** What the model takes from Python and from bs4 as it finds them. *)
Class PyRuntime : Type := {
  (** [str(v)] for a value that is no [str] *)
  repr : json -> string;
  (** [s.lower()] *)
  lower : string -> string;
  (** what [tag.string = v] makes of a value that is no [str]: the text
      that the tag then holds, or what bs4 raises.  The releases of bs4
      differ in this: the setter of 4.12 appends [v.__class__(v)] to the
      tag, which raises for every value of JSON that is no string, where
      later ones append [NavigableString(v)]. *)
  string_setter : json -> result string
}.

(** [str(v)] *)
Definition str {R : PyRuntime} (v : json) : string :=
  match v with
  | JStr s => s
  | _ => repr v
  end.

(** The objects of [citeproc.CitationItem] and [citeproc.Citation], by
    the attributes [key] and [cites]. *)
Record CpCitationItem : Type := MkCpCitationItem { key : string }.
Record CpCitation : Type := MkCpCitation { cites : list CpCitationItem }.

Section Model.
Context {R : PyRuntime}.

(** [citeproc.CitationItem(key)]: the object keeps [key.lower()]. *)
Definition CitationItem (key : string) : CpCitationItem :=
  MkCpCitationItem (lower key).

(** [citeproc.Citation(cites)] *)
Definition Citation (cites : list CpCitationItem) : CpCitation :=
  MkCpCitation cites.

(** The text that a tag holds after [tag.string = v]: a [str] is taken
    as it is. *)
Definition tag_string (v : json) : result string :=
  match v with
  | JStr s => Ok s
  | _ => string_setter v
  end.

(** [tag.string = v]: the text becomes the one [NavigableString] that the
    tag holds.  When the setter raises, the tag has not been put anywhere
    yet. *)
Definition assign_string (tag : node) (v : json) : result node :=
  s <~ tag_string v ;;
  Ok (set_string tag s).

(** [json.loads(base64.b64decode(payload), strict=False)]: the standard
    library decodes or raises. *)
Class Codec : Type := {
  loads_b64decode : string -> result json
}.

(** The surface of [citeproc] the pipeline calls.  A bibliography object
    is changed by [register]; the changed object is the result. *)
Class Citeproc : Type := {
  Source : Type;
  Style : Type;
  Bibliography : Type;
  CiteProcJSON : list json -> result Source;
  CitationStylesStyle : string -> result Style;
  CitationStylesBibliography : Style -> Source -> result Bibliography;
  register : Bibliography -> CpCitation -> result Bibliography;
  (** [bib.cite(citation, callback)]: the text, and the items the callback
      is called with (those whose key is not in the source). *)
  cite : Bibliography -> CpCitation -> result (string * list CpCitationItem);
  (** [bib.bibliography()], each entry through [str()]. *)
  bibliography : Bibliography -> result (list string)
}.

Context {C : Codec} {E : Citeproc}.

(** ** The state of a run *)

(** What a run does to the world outside its local variables: calls into
    the style engine and changes of the tree, in the order they happen. *)
Inductive event : Type :=
| CallCiteProcJSON (json_data : list json)
| CallCitationStylesStyle (style : string)
| CallCitationStylesBibliography
| CallRegister (citation : CpCitation)
| CallCite (citation : CpCitation)
| CallBibliography
| ReplaceWith (p : path) (new_tag : node)
| Append (child : node).

Record state : Type := MkState {
  html_soup : BeautifulSoup;  (** the tree, changed in place *)
  detached : list path;       (** elements taken out of the tree *)
  stdout : list string;       (** lines written by [print] *)
  trace : list event
}.

Definition M (A : Type) : Type := state -> result A * state.

Definition ret {A} (a : A) : M A := fun s => (Ok a, s).

Definition bind {A B} (m : M A) (k : A -> M B) : M B :=
  fun s => match m s with
           | (Ok a, s') => k a s'
           | (Raise e, s') => (Raise e, s')
           end.

Notation "x <- c ;; k" := (bind c (fun x => k))
  (at level 61, c at next level, right associativity).
Notation "c ;;; k" := (bind c (fun _ => k))
  (at level 61, right associativity).

Definition lift {A} (r : result A) : M A := fun s => (r, s).

Definition get_soup : M BeautifulSoup := fun s => (Ok (html_soup s), s).

Definition log (ev : event) (s : state) : state :=
  MkState (html_soup s) (detached s) (stdout s) (trace s ++ [ev]).

(** A call into the style engine. *)
Definition call {A} (ev : event) (r : result A) : M A :=
  fun s => (r, log ev s).

Definition print (line : string) : M unit :=
  fun s => (Ok tt,
            MkState (html_soup s) (detached s) (stdout s ++ [line]) (trace s)).

(** [element.replace_with(new)] for the element found at position [p].
    An element below one that was replaced before hangs in the part that
    was taken out: exchanging it there leaves the tree as it is. *)
Definition replace_with (p : path) (new : node) : M unit :=
  fun s =>
    let soup :=
      if existsb (fun d => strict_prefix d p) (detached s)
      then html_soup s
      else replace_at p new (html_soup s) in
    (Ok tt, log (ReplaceWith p new)
                (MkState soup (p :: detached s) (stdout s) (trace s))).

(** [html_soup.append(child)] *)
Definition soup_append (child : node) : M unit :=
  fun s =>
    (Ok tt, log (Append child)
                (MkState (html_soup s ++ [child]) (detached s) (stdout s)
                         (trace s))).

(** ** [citations.py] *)

Definition json_prefix : string := "data:application/json;base64,".

Definition _find_all_citation_spans (html_soup : BeautifulSoup)
  : list (path * node) :=
  find_all html_soup "span" [("class", "citation")].

Definition _has_inner_json_data (span : node) : result bool :=
  data_src <~ dict_get "data-src" (attrs_of span) ;;
  match data_src with
  | AttrStr s => Ok (Str.startswith s json_prefix)
  | AttrList _ => Raise (AttributeError "startswith")
  end.

(** One turn of the loop of [extract_citations]: the group of a span whose
    payload qualifies. *)
Definition extract_one (span : node) : result (option json) :=
  has <~ _has_inner_json_data span ;;
  if has : bool then
    data_src <~ dict_get "data-src" (attrs_of span) ;;
    match data_src with
    | AttrStr s =>
        citation <~ loads_b64decode (Str.drop (String.length json_prefix) s) ;;
        Ok (Some citation)
    | AttrList _ => Raise (AttributeError "startswith")
    end
  else Ok None.

Fixpoint extract_loop (spans : list (path * node)) (citations : list json)
  : result (list json) :=
  match spans with
  | [] => Ok citations
  | span :: rest =>
      found <~ extract_one (snd span) ;;
      match found with
      | Some citation => extract_loop rest (citations ++ [citation])
      | None => extract_loop rest citations
      end
  end.

Definition extract_citations : M (list json) :=
  html_soup <- get_soup ;;
  lift (extract_loop (_find_all_citation_spans html_soup) []).

(** The two loops of [prepare_citations_for_citeproc], the inner one
    appending to the list that the outer one goes on with. *)
Fixpoint prepare_loop (citations : list json) (citeproc_input : list json)
  : result (list json) :=
  match citations with
  | [] => Ok citeproc_input
  | citation_group :: rest =>
      citation_items <~ getitem citation_group "citationItems" ;;
      citation_items <~ iterate citation_items ;;
      citeproc_input <~
        for_append (fun citation_item => getitem citation_item "itemData")
                   citation_items citeproc_input ;;
      prepare_loop rest citeproc_input
  end.

Definition prepare_citations_for_citeproc (citations : list json)
  : result (list json) :=
  prepare_loop citations [].

Definition create_citations_to_register (citations : list json)
  : result (list CpCitation) :=
  for_append
    (fun citation_group =>
       citation_items_in <~ getitem citation_group "citationItems" ;;
       citation_items_in <~ iterate citation_items_in ;;
       citation_items <~
         for_append
           (fun citation_item =>
              item_data <~ getitem citation_item "itemData" ;;
              cit_id <~ getitem item_data "id" ;;
              Ok (CitationItem (str cit_id)))
           citation_items_in [] ;;
       Ok (Citation citation_items))
    citations [].

(** The local function [_warn] of [add_citations]. *)
Definition _warn (citation_item : CpCitationItem) : M unit :=
  print ("WARNING: Reference with key '" ++ key citation_item
         ++ "' not found in the bibliography.")%string.

(** The tuple of two strings that [add_citations] binds and never reads:
    the two statements that would take the text from the style engine. *)
Definition GENERATE_CITATION_USING_CITEPROC : string * string :=
  ("citation = citeproc_citations[i]",
   "citation_str = bib.cite(citation, _warn)").

Fixpoint add_citations_loop (spans : list (path * node))
         (citations : list json) (i : nat) : M unit :=
  match spans with
  | [] => ret tt
  | span :: rest =>
      has <- lift (_has_inner_json_data (snd span)) ;;
      if has : bool then
        citation <- lift (list_get citations i) ;;
        citation_str <- lift (properties <~ getitem citation "properties" ;;
                              getitem properties "plainCitation") ;;
        let _ := GENERATE_CITATION_USING_CITEPROC in
        let new_tag := new_tag "cite" None [] in
        new_tag <- lift (assign_string new_tag citation_str) ;;
        replace_with (fst span) new_tag ;;;
        add_citations_loop rest citations (i + 1)
      else add_citations_loop rest citations i
  end.

Definition add_citations (citeproc_citations : list CpCitation)
           (citations : list json) (bib : Bibliography)
  : M BeautifulSoup :=
  html_soup <- get_soup ;;
  add_citations_loop (_find_all_citation_spans html_soup) citations 0 ;;;
  get_soup.

Definition bibliography_item (citation : string) : node :=
  set_string (new_tag "li" None []) ("<small>" ++ citation ++ "</small>")%string.

Definition add_bibliography (bib : Bibliography) : M BeautifulSoup :=
  entries <- call CallBibliography (bibliography bib) ;;
  match entries with
  | [] => get_soup
  | _ :: _ =>
      let div :=
        new_tag "div" (Some (PyDict [("class", AttrStr "dgtmon-bibliography")]))
                [] in
      let h1 := set_string (new_tag "h1" None []) "Bibliography" in
      let ol := new_tag "ol" None [] in
      entries <- call CallBibliography (bibliography bib) ;;
      let ol :=
        fold_left (fun ol citation => append ol (bibliography_item citation))
                  entries ol in
      let div := append div h1 in
      let div := append div ol in
      soup_append div ;;;
      get_soup
  end.

Fixpoint register_all (citeproc_citations : list CpCitation)
         (bib : Bibliography) : M Bibliography :=
  match citeproc_citations with
  | [] => ret bib
  | citation :: rest =>
      bib <- call (CallRegister citation) (register bib citation) ;;
      register_all rest bib
  end.

Definition default_citation_style : string := "harvard1".

Definition add_citations_and_bibliography (citation_style : string)
  : M BeautifulSoup :=
  citations <- extract_citations ;;
  json_data <- lift (prepare_citations_for_citeproc citations) ;;
  bib_source <- call (CallCiteProcJSON json_data) (CiteProcJSON json_data) ;;
  bib_style <- call (CallCitationStylesStyle citation_style)
                    (CitationStylesStyle citation_style) ;;
  bib <- call CallCitationStylesBibliography
              (CitationStylesBibliography bib_style bib_source) ;;
  citeproc_citations <- lift (create_citations_to_register citations) ;;
  bib <- register_all citeproc_citations bib ;;
  add_citations citeproc_citations citations bib ;;;
  add_bibliography bib.

(** A run on a soup nobody has touched yet. *)
Definition fresh (html_soup : BeautifulSoup) : state :=
  MkState html_soup [] [] [].

Definition run (html_soup : BeautifulSoup) (citation_style : string)
  : result BeautifulSoup * state :=
  add_citations_and_bibliography citation_style (fresh html_soup).

End Model.

(** ** What is observed of a run *)

Section Observations.
Context {R : PyRuntime} {C : Codec} {E : Citeproc}.

(** A marker qualifies when [_has_inner_json_data] returns [True] on it. *)
Definition qualifies (span : node) : bool :=
  match _has_inner_json_data span with
  | Ok true => true
  | _ => false
  end.

Definition qualifying_markers (html_soup : BeautifulSoup)
  : list (path * node) :=
  List.filter (fun e => qualifies (snd e)) (_find_all_citation_spans html_soup).

(** A span on which [_has_inner_json_data] returns. *)
Definition has_data (e : path * node) : Prop :=
  is_ok (_has_inner_json_data (snd e)) = true.

(** A marker that lies in no other qualifying marker. *)
Definition top_level (html_soup : BeautifulSoup) (p : path) : bool :=
  forallb (fun e => negb (strict_prefix (fst e) p))
          (qualifying_markers html_soup).

(** The groups of a soup, as [extract_citations] returns them. *)
Definition extracted (html_soup : BeautifulSoup) : result (list json) :=
  extract_loop (_find_all_citation_spans html_soup) [].

Definition cite_tag (text : string) : node :=
  Tag "cite" None [] [NavigableString text].

(** [citation["properties"]["plainCitation"]] *)
Definition plain_citation (citation : json) : result json :=
  properties <~ getitem citation "properties" ;;
  getitem properties "plainCitation".

(** A group that is cited as [text]: the group has a [plainCitation],
    and [text] is what a tag holds that is assigned it, the
    [plainCitation] itself when it is a string. *)
Definition cited_as (citation : json) (text : string) : Prop :=
  (citation_str <~ plain_citation citation ;; tag_string citation_str)
  = Ok text.

(** The element that [add_citations] makes of a group. *)
Definition plain_cite (citation : json) : result node :=
  citation_str <~ plain_citation citation ;;
  assign_string (new_tag "cite" None []) citation_str.

Fixpoint registrations (t : list event) : list CpCitation :=
  match t with
  | [] => []
  | CallRegister c :: r => c :: registrations r
  | _ :: r => registrations r
  end.

Fixpoint cite_calls (t : list event) : list CpCitation :=
  match t with
  | [] => []
  | CallCite c :: r => c :: cite_calls r
  | _ :: r => cite_calls r
  end.

Fixpoint replacements (t : list event) : list (path * node) :=
  match t with
  | [] => []
  | ReplaceWith p n :: r => (p, n) :: replacements r
  | _ :: r => replacements r
  end.

Fixpoint appended (t : list event) : list node :=
  match t with
  | [] => []
  | Append n :: r => n :: appended r
  | _ :: r => appended r
  end.

Definition replace_event (r : path * node) : event :=
  ReplaceWith (fst r) (snd r).

(** The state after [replace_with] on each of [reps] in turn. *)
Definition replace_step (s : state) (rep : path * node) : state :=
  snd (replace_with (fst rep) (snd rep) s).

Definition replace_steps (reps : list (path * node)) (s : state) : state :=
  fold_left replace_step reps s.

(** The loop of [add_citations] without the tree: the replacements it
    makes on the spans, given the groups that are left, up to the span on
    which it raises, and how it ends. *)
Fixpoint rewrite_plan (spans : list (path * node)) (citations : list json)
  : list (path * node) * result unit :=
  match spans with
  | [] => ([], Ok tt)
  | span :: rest =>
      match _has_inner_json_data (snd span) with
      | Raise e => ([], Raise e)
      | Ok false => rewrite_plan rest citations
      | Ok true =>
          match citations with
          | [] => ([], Raise IndexError)
          | citation :: more =>
              match plain_cite citation with
              | Raise e => ([], Raise e)
              | Ok new =>
                  ((fst span, new) :: fst (rewrite_plan rest more),
                   snd (rewrite_plan rest more))
              end
          end
      end
  end.

(** The replacements that put the texts, as [cite] elements, in the
    places of the qualifying markers, in document order. *)
Definition cite_replacements (soup : BeautifulSoup) (texts : list string)
  : list (path * node) :=
  combine (map fst (qualifying_markers soup)) (map cite_tag texts).

(** The texts that [bib.cite] returns for the groups, in order. *)
Definition cite_texts (bib : Bibliography) (cps : list CpCitation)
  : result (list string) :=
  for_append (fun cp => r <~ cite bib cp ;; Ok (fst r)) cps [].

(** The bibliography object once every group of the soup is registered,
    with the registered groups. *)
Definition registered (html_soup : BeautifulSoup) (citation_style : string)
  : result (Bibliography * list CpCitation) :=
  citations <~ extracted html_soup ;;
  json_data <~ prepare_citations_for_citeproc citations ;;
  bib_source <~ CiteProcJSON json_data ;;
  bib_style <~ CitationStylesStyle citation_style ;;
  bib <~ CitationStylesBibliography bib_style bib_source ;;
  cps <~ create_citations_to_register citations ;;
  bib <~ fold_left (fun b cp => b <~ b ;; register b cp) cps (Ok bib) ;;
  Ok (bib, cps).

(** The element that [add_bibliography] builds for the entries. *)
Definition bibliography_container (entries : list string) : node :=
  Tag "div" (Some (PyDict [("class", AttrStr "dgtmon-bibliography")])) []
      [ Tag "h1" None [] [NavigableString "Bibliography"];
        Tag "ol" None [] (map bibliography_item entries) ].

(** The first three calls of a run into the style engine. *)
Definition setup_calls (json_data : list json) (citation_style : string)
  : list event :=
  [ CallCiteProcJSON json_data;
    CallCitationStylesStyle citation_style;
    CallCitationStylesBibliography ].

(** The state in which a run calls [add_citations]: the soup as it was,
    and the log of the setup and of the registrations. *)
Definition ready (soup : BeautifulSoup) (json_data : list json)
           (citation_style : string) (cps : list CpCitation) : state :=
  MkState soup [] [] (setup_calls json_data citation_style ++ map CallRegister cps).

(** What [add_bibliography] logs when the bibliography has these entries. *)
Definition bibliography_events (entries : list string) : list event :=
  match entries with
  | [] => [CallBibliography]
  | _ :: _ => [CallBibliography; CallBibliography;
               Append (bibliography_container entries)]
  end.

(** What [add_bibliography] appends to the soup for these entries. *)
Definition bibliography_nodes (entries : list string) : list node :=
  match entries with
  | [] => []
  | _ :: _ => [bibliography_container entries]
  end.

(** A citation span without the payload attribute. *)
Definition payload_absent (span : node) : Prop :=
  dict_get "data-src" (attrs_of span) = Raise (KeyError "data-src").

(** A citation span whose payload has the prefix and does not decode. *)
Definition payload_undecodable (span : node) : Prop :=
  exists s e,
    dict_get "data-src" (attrs_of span) = Ok (AttrStr s)
    /\ Str.startswith s json_prefix = true
    /\ loads_b64decode (Str.drop (String.length json_prefix) s) = Raise e.

(** A citation span whose payload is some other string. *)
Definition payload_foreign (span : node) : Prop :=
  exists s,
    dict_get "data-src" (attrs_of span) = Ok (AttrStr s)
    /\ Str.startswith s json_prefix = false.

(** *** The statements of the specification that the code departs from *)

(** Order preservation as the specification words it: the markers are
    replaced, in order, by the texts that [cite] returns for the
    registered groups. *)
Definition replaced_by_cite (soup : BeautifulSoup) (citation_style : string)
  : Prop :=
  forall out s' bib cps texts,
    run soup citation_style = (Ok out, s') ->
    registered soup citation_style = Ok (bib, cps) ->
    cite_texts bib cps = Ok texts ->
    map snd (replacements (trace s')) = map cite_tag texts.

(** The line that [_warn] prints for an item. *)
Definition warning_line (citation_item : CpCitationItem) : string :=
  ("WARNING: Reference with key '" ++ key citation_item
   ++ "' not found in the bibliography.")%string.

(** The fallback as the specification words it: a group with one key that
    the source does not hold has its warning printed once. *)
Definition warns_on_missing_key (soup : BeautifulSoup)
           (citations : list json) (cps : list CpCitation)
           (bib : Bibliography) : Prop :=
  forall out s' cp text item,
    add_citations cps citations bib (fresh soup) = (Ok out, s') ->
    In cp cps ->
    cite bib cp = Ok (text, [item]) ->
    count_occ string_dec (stdout s') (warning_line item) = 1.

(** Markers and groups as the specification words it: on an untouched
    soup as many markers are rewritten as groups were extracted. *)
Definition rewrites_every_group (soup : BeautifulSoup)
           (cps : list CpCitation) (bib : Bibliography) : Prop :=
  forall citations,
    extracted soup = Ok citations ->
    length (replacements
              (trace (snd (add_citations cps citations bib (fresh soup)))))
    = length citations.

(** A failure to decode the payload of a marker as the specification
    words it: the run goes on. *)
Definition survives_undecodable (soup : BeautifulSoup)
           (citation_style : string) : Prop :=
  forall p span,
    In (p, span) (_find_all_citation_spans soup) ->
    payload_undecodable span ->
    is_ok (fst (run soup citation_style)) = true.

(** What the loops over [citation_group["citationItems"]] go through. *)
Definition items_of (citation_group : json) : result (list json) :=
  citation_items <~ getitem citation_group "citationItems" ;;
  iterate citation_items.

(** The records of a group, as [prepare_citations_for_citeproc] collects
    them: the [itemData] of its items, in their order. *)
Definition records_of (citation_group : json) : result (list json) :=
  citation_items <~ items_of citation_group ;;
  for_append (fun citation_item => getitem citation_item "itemData")
             citation_items [].

(** One turn of the inner loop of [create_citations_to_register], and one
    of the outer loop. *)
Definition item_to_register (citation_item : json) : result CpCitationItem :=
  item_data <~ getitem citation_item "itemData" ;;
  cit_id <~ getitem item_data "id" ;;
  Ok (CitationItem (str cit_id)).

Definition group_to_register (citation_group : json) : result CpCitation :=
  citation_items_in <~ getitem citation_group "citationItems" ;;
  citation_items_in <~ iterate citation_items_in ;;
  citation_items <~ for_append item_to_register citation_items_in [] ;;
  Ok (Citation citation_items).

(** An item whose record is a dict without an [id]. *)
Definition lacks_id (citation_item : json) : Prop :=
  exists d,
    getitem citation_item "itemData" = Ok (JDict d)
    /\ dict_get "id" d = Raise (KeyError "id").

(** A group one of whose items lacks its [id]. *)
Definition group_lacks_id (citation_group : json) : Prop :=
  exists items,
    items_of citation_group = Ok items /\ Exists lacks_id items.

Definition is_dict (v : json) : bool :=
  match v with
  | JDict _ => true
  | _ => false
  end.

(** A style engine whose bibliography object renders no entry as long as
    nothing was registered with it. *)
Definition renders_nothing_unregistered : Prop :=
  forall bib_source bib_style bib,
    CiteProcJSON [] = Ok bib_source ->
    CitationStylesBibliography bib_style bib_source = Ok bib ->
    bibliography bib = Ok [].

End Observations.

(** ** A runtime, a codec and a style engine to run the model on

    The codec knows six payloads and the values they decode to, and
    raises on every other string; the engine indexes a record under its
    [id] in lower case, knows one style, and renders a citation from the
    keys it is given. *)

Module Sample.

Definition lower_ascii (c : ascii) : ascii :=
  let n := nat_of_ascii c in
  if Nat.leb 65 n && Nat.leb n 90 then ascii_of_nat (n + 32) else c.

Fixpoint lower_string (s : string) : string :=
  match s with
  | EmptyString => EmptyString
  | String c r => String (lower_ascii c) (lower_string r)
  end.

(** [str()] of [None], of a truth value and of an integer as Python has
    them; no sample applies it to a float, a list or a dict.  The setter
    of [tag.string] is that of bs4 4.12. *)
Definition runtime : PyRuntime :=
  {| repr := fun v =>
       match v with
       | JNull => "None"
       | JBool true => "True"
       | JBool false => "False"
       | JInt z => NilZero.string_of_int (Z.to_int z)
       | _ => "..."
       end;
     lower := lower_string;
     string_setter := fun v =>
       match v with
       | JNull => Raise TypeError
       | _ => Raise (AttributeError "parent")
       end |}.

#[local] Existing Instance runtime.

Definition record (fields : list (string * string)) : json :=
  JDict (map (fun kv => (fst kv, JStr (snd kv))) fields).

Definition group (cid : string) (n : Z) (data : json)
           (properties : list (string * json)) : json :=
  JDict [ ("citationID", JStr cid);
          ("citationItems",
           JList [ JDict [("id", JInt n); ("itemData", data);
                          ("uris", JList [])] ]);
          ("properties", JDict properties);
          ("schema", JStr "csl-citation") ].

Definition props (formatted plain : string) : list (string * json) :=
  [ ("formattedCitation", JStr formatted); ("noteIndex", JInt 0);
    ("plainCitation", JStr plain) ].

Definition smith : json :=
  group "g1" 1
        (record [("id", "Smith2020"); ("type", "book"); ("title", "On Trees")])
        (props "(Smith 2020)" "Smith 2020").
Definition jones : json :=
  group "g2" 2
        (record [("id", "Jones1999"); ("type", "book"); ("title", "On Lists")])
        (props "(Jones 1999)" "Jones 1999").
(** A group whose record has no [id]. *)
Definition anon : json :=
  group "g3" 3 (record [("type", "book"); ("title", "No key")])
        (props "(Anon.)" "Anon.").
(** A group without [properties]. *)
Definition bare : json :=
  JDict [ ("citationID", JStr "g4");
          ("citationItems",
           JList [ JDict [("id", JInt 4);
                          ("itemData",
                           record [("id", "Bare2001"); ("type", "book")]);
                          ("uris", JList [])] ]);
          ("schema", JStr "csl-citation") ].
(** A group whose [plainCitation] is a number. *)
Definition numbered : json :=
  group "g5" 5 (record [("id", "Num5"); ("type", "book")])
        [("noteIndex", JInt 0); ("plainCitation", JInt 5)].

Definition smith_b64 : string :=
  "eyJjaXRhdGlvbklEIjoiZzEiLCJjaXRhdGlvbkl0ZW1zIjpbeyJpZCI6MSwiaXRlbURhdGEiOnsiaWQiOiJTbWl0aDIwMjAiLCJ0eXBlIjoiYm9vayIsInRpdGxlIjoiT24gVHJlZXMifSwidXJpcyI6W119XSwicHJvcGVydGllcyI6eyJmb3JtYXR0ZWRDaXRhdGlvbiI6IihTbWl0aCAyMDIwKSIsIm5vdGVJbmRleCI6MCwicGxhaW5DaXRhdGlvbiI6IlNtaXRoIDIwMjAifSwic2NoZW1hIjoiY3NsLWNpdGF0aW9uIn0=".
Definition jones_b64 : string :=
  "eyJjaXRhdGlvbklEIjoiZzIiLCJjaXRhdGlvbkl0ZW1zIjpbeyJpZCI6MiwiaXRlbURhdGEiOnsiaWQiOiJKb25lczE5OTkiLCJ0eXBlIjoiYm9vayIsInRpdGxlIjoiT24gTGlzdHMifSwidXJpcyI6W119XSwicHJvcGVydGllcyI6eyJmb3JtYXR0ZWRDaXRhdGlvbiI6IihKb25lcyAxOTk5KSIsIm5vdGVJbmRleCI6MCwicGxhaW5DaXRhdGlvbiI6IkpvbmVzIDE5OTkifSwic2NoZW1hIjoiY3NsLWNpdGF0aW9uIn0=".
Definition anon_b64 : string :=
  "eyJjaXRhdGlvbklEIjoiZzMiLCJjaXRhdGlvbkl0ZW1zIjpbeyJpZCI6MywiaXRlbURhdGEiOnsidHlwZSI6ImJvb2siLCJ0aXRsZSI6Ik5vIGtleSJ9LCJ1cmlzIjpbXX1dLCJwcm9wZXJ0aWVzIjp7ImZvcm1hdHRlZENpdGF0aW9uIjoiKEFub24uKSIsIm5vdGVJbmRleCI6MCwicGxhaW5DaXRhdGlvbiI6IkFub24uIn0sInNjaGVtYSI6ImNzbC1jaXRhdGlvbiJ9".
Definition bare_b64 : string :=
  "eyJjaXRhdGlvbklEIjoiZzQiLCJjaXRhdGlvbkl0ZW1zIjpbeyJpZCI6NCwiaXRlbURhdGEiOnsiaWQiOiJCYXJlMjAwMSIsInR5cGUiOiJib29rIn0sInVyaXMiOltdfV0sInNjaGVtYSI6ImNzbC1jaXRhdGlvbiJ9".
Definition numbered_b64 : string :=
  "eyJjaXRhdGlvbklEIjoiZzUiLCJjaXRhdGlvbkl0ZW1zIjpbeyJpZCI6NSwiaXRlbURhdGEiOnsiaWQiOiJOdW01IiwidHlwZSI6ImJvb2sifSwidXJpcyI6W119XSwicHJvcGVydGllcyI6eyJub3RlSW5kZXgiOjAsInBsYWluQ2l0YXRpb24iOjV9LCJzY2hlbWEiOiJjc2wtY2l0YXRpb24ifQ==".
(** The payload of the JSON text of one string, "Smith 2020". *)
Definition text_b64 : string := "IlNtaXRoIDIwMjAi".

Definition codec : Codec :=
  {| loads_b64decode := fun payload =>
       if String.eqb payload smith_b64 then Ok smith
       else if String.eqb payload jones_b64 then Ok jones
       else if String.eqb payload anon_b64 then Ok anon
       else if String.eqb payload bare_b64 then Ok bare
       else if String.eqb payload numbered_b64 then Ok numbered
       else if String.eqb payload text_b64 then Ok (JStr "Smith 2020")
       else Raise (ValueError "Expecting value") |}.

Definition mem (k : string) (l : list string) : bool :=
  existsb (String.eqb k) l.

Record bib : Type := MkBib {
  known : list string;      (** keys of the source *)
  cited : list string       (** registered keys, first citation first *)
}.

Definition source_keys (json_data : list json) : list string :=
  flat_map (fun d => match getitem d "id" with
                     | Ok k => [lower_string (str k)]
                     | Raise _ => []
                     end) json_data.

Definition register_keys (b : bib) (c : CpCitation) : bib :=
  fold_left (fun b item =>
               if mem (key item) (known b) && negb (mem (key item) (cited b))
               then MkBib (known b) (cited b ++ [key item])
               else b)
            (cites c) b.

Definition cite_text (c : CpCitation) : string :=
  ("(" ++ String.concat "; " (map key (cites c)) ++ ")")%string.

Definition engine : Citeproc :=
  {| Source := list string;
     Style := string;
     Bibliography := bib;
     CiteProcJSON := fun json_data => Ok (source_keys json_data);
     CitationStylesStyle := fun style =>
       if String.eqb style "harvard1" then Ok style
       else Raise (ValueError "not a known style");
     CitationStylesBibliography := fun _ source => Ok (MkBib source []);
     register := fun b c => Ok (register_keys b c);
     cite := fun b c =>
       Ok (cite_text c,
           List.filter (fun item => negb (mem (key item) (known b))) (cites c));
     bibliography := fun b => Ok (cited b) |}.

Definition marker (payload : string) (inner : list node) : node :=
  Tag "span" None
      [("class", AttrList ["citation"]);
       ("data-src", AttrStr (json_prefix ++ payload)%string)]
      inner.

Definition p (inner : list node) : node := Tag "p" None [] inner.

(** Two markers in two paragraphs. *)
Definition two_markers : BeautifulSoup :=
  [ p [NavigableString "See "; marker smith_b64 [NavigableString "[1]"]];
    p [marker jones_b64 [NavigableString "[2]"]; NavigableString "."] ].

(** A marker inside a marker. *)
Definition nested_markers : BeautifulSoup :=
  [ p [marker smith_b64 [marker jones_b64 []]; marker jones_b64 []] ].

Definition bare_span : node :=
  Tag "span" None [("class", AttrList ["citation"])] [].

(** A citation span with no [data-src] attribute. *)
Definition no_payload : BeautifulSoup := [ p [bare_span] ].

(** A citation span whose payload does not decode. *)
Definition bad_payload : BeautifulSoup :=
  [ p [marker smith_b64 []; marker "%%%" []] ].

(** The same two markers, the one that does not decode first. *)
Definition bad_payload_first : BeautifulSoup :=
  [ p [marker "%%%" []; marker smith_b64 []] ].

(** A citation span whose [data-src] is not a base64 JSON data URI. *)
Definition foreign_span : node :=
  Tag "span" None
      [("class", AttrList ["citation"]); ("data-src", AttrStr "refs.bib")]
      [NavigableString "x"].

Definition other_payload : BeautifulSoup :=
  [ p [foreign_span; marker smith_b64 []] ].

(** A marker whose only record has no [id]. *)
Definition no_key : BeautifulSoup :=
  [ p [marker smith_b64 []; marker anon_b64 []] ].

(** A marker whose group has no [properties], after one whose group is
    complete. *)
Definition no_properties : BeautifulSoup :=
  [ p [marker smith_b64 []; marker bare_b64 []; marker jones_b64 []] ].

(** A marker whose group has a number for its [plainCitation]. *)
Definition number_for_text : BeautifulSoup :=
  [ p [marker numbered_b64 []] ].

(** A marker whose payload is no dict at all. *)
Definition text_for_group : BeautifulSoup :=
  [ p [marker text_b64 []] ].

Definition no_markers : BeautifulSoup :=
  [ p [NavigableString "Nothing is cited here."] ].

(** What a run with the style [harvard1] returns on [two_markers]. *)
Definition two_markers_out : BeautifulSoup :=
  [ p [NavigableString "See "; cite_tag "Smith 2020"];
    p [cite_tag "Jones 1999"; NavigableString "."];
    bibliography_container ["smith2020"; "jones1999"] ].

Definition one_marker : BeautifulSoup := [ p [marker smith_b64 []] ].

(** The groups of [smith] and [jones] as [create_citations_to_register]
    builds them, and a bibliography object whose source holds no
    record. *)
Definition smith_cp : CpCitation :=
  MkCpCitation [MkCpCitationItem "smith2020"].
Definition jones_cp : CpCitation :=
  MkCpCitation [MkCpCitationItem "jones1999"].
Definition no_records : bib := MkBib [] [].

End Sample.

(** ** More of what is observed *)

Section MoreObservations.
Context {R : PyRuntime} {C : Codec} {E : Citeproc}.

(** The key under which the code cites a record:
    [str(itemData["id"]).lower()]. *)
Definition keyed (data : json) (item : CpCitationItem) : Prop :=
  exists v, getitem data "id" = Ok v /\ key item = lower (str v).

(** A group and the [citeproc.Citation] built for it: one item for each
    record, in the order of the records. *)
Definition registers_as (citation_group : json) (cp : CpCitation) : Prop :=
  exists records,
    records_of citation_group = Ok records
    /\ Forall2 keyed records (cites cp).

(** A marker and the group that its payload decodes to. *)
Definition decodes_to (e : path * node) (citation : json) : Prop :=
  exists payload,
    dict_get "data-src" (attrs_of (snd e))
    = Ok (AttrStr (json_prefix ++ payload))
    /\ loads_b64decode payload = Ok citation.

(** Two positions of which neither is the other nor above the other. *)
Definition apart (p q : path) : Prop :=
  p <> q /\ strict_prefix p q = false /\ strict_prefix q p = false.

(** A span of the class [citation], as [_find_all_citation_spans] picks
    them. *)
Definition is_citation_span (n : node) : bool :=
  tag_matches "span" [("class", "citation")] n.

(** Two nodes that differ at most in what they contain. *)
Definition same_head (n n0 : node) : Prop :=
  match n, n0 with
  | NavigableString s, NavigableString s0 => s = s0
  | Tag name ns attrs _, Tag name0 ns0 attrs0 _ =>
      name = name0 /\ ns = ns0 /\ attrs = attrs0
  | _, _ => False
  end.

(** An element that is no citation span and holds none. *)
Definition inert (new : node) : Prop :=
  is_citation_span new = false
  /\ forall rest n,
      get_at rest (contents_of new) = Some n -> is_citation_span n = false.

(** The tree [tree] seen from the soup [soup] it came from by replacing
    the elements at [done]: an element of [tree] is a citation span only
    where [soup] has one with the same name and attributes, and there
    only at a position that was not replaced and lies below none that
    was. *)
Definition spans_from (soup : BeautifulSoup) (done : list path)
           (tree : BeautifulSoup) : Prop :=
  forall q n,
    get_at q tree = Some n ->
    is_citation_span n = true ->
    exists n0,
      get_at q soup = Some n0
      /\ same_head n n0
      /\ forall d, In d done -> d <> q /\ strict_prefix d q = false.

End MoreObservations.

(** * Collecting the input files ([src/docx2md.py]) *)

Module Docx2md.

(** [sub in s] *)
Fixpoint contains (sub s : string) : bool :=
  String.prefix sub s
  || match s with
     | EmptyString => false
     | String _ s' => contains sub s'
     end.

Definition github_api : string := "https://api.github.com/".

Definition invalid_link : exn :=
  OtherError "Exception"
    "Invalid github link. The source should point to a '.zip' file.Example of a valid link is 'https://api.github.com/repos/OWNER/REPO/zipball/REF'.".

Definition is_on_github (source : string) : result bool :=
  let is_githubapi := Str.startswith source github_api in
  if is_githubapi && negb (contains "zipball" source)
  then Raise invalid_link
  else Ok is_githubapi.

(** The link that the message of [is_on_github] gives as valid. *)
Definition zipball_link (owner repo ref : string) : string :=
  (github_api ++ "repos/" ++ owner ++ "/" ++ repo ++ "/zipball/" ++ ref)%string.

(** An entry of a zip archive, with what its [is_dir()] returns. *)
Record ZipInfo : Type := { filename : string; is_dir : bool }.

Definition no_directory : exn :=
  OtherError "Exception" "No directory found in the input zip archive.".

Definition no_directory_logged : string :=
  "Zip archive seems to be invalid. The system expects to find a dir at the repo's root. No such directory was found.".

(** [next(zi for zi in filelist if zi.is_dir())] *)
Fixpoint next_dir (filelist : list ZipInfo) : option ZipInfo :=
  match filelist with
  | [] => None
  | zi :: rest => if is_dir zi then Some zi else next_dir rest
  end.

(** [_get_repo_name]: what it returns or raises, and the errors it logs. *)
Definition _get_repo_name (filelist : list ZipInfo)
  : result string * list string :=
  match next_dir filelist with
  | Some zipinfo => (Ok (filename zipinfo), [])
  | None => (Raise no_directory, [no_directory_logged])
  end.

(** What the copying of the content files takes from outside this file:
    paths and the file system ([pathlib], [shutil]), the constant
    [DATA_DIR] of [src.constants], and the two helpers of [src.utils]
    that decide the numbering. *)
Class Files : Type := {
  Path : Type;
  path_of : string -> Path;              (** [pathlib.Path(s)] *)
  joinpath : Path -> string -> Path;     (** [p / s] *)
  path_name : Path -> string;            (** [p.name] *)
  path_suffix : Path -> string;          (** [p.suffix] *)
  path_str : Path -> string;             (** [str(p)], as an f-string has it *)
  FS : Type;
  path_exists : FS -> Path -> bool;      (** [p.exists()] *)
  shutil_copy : FS -> Path -> Path -> result FS;
  DATA_DIR : string
}.

(** The table of contents of a book, by the keys that this file reads:
    [jb_toc["root"]], [jb_toc.get("chapters", [])] and [ch["file"]]. *)
Record Chapter : Type := { file : string }.
Record TableOfContents : Type := {
  root : string;
  chapters : option (list Chapter)
}.

Class Utils {F : Files} : Type := {
  is_root_in_chapters : TableOfContents -> bool;
  get_ordered_filename : Z -> Path -> Z -> string
}.

Section Copying.
Context {F : Files} {U : Utils}.

(** What a run does that is seen from outside, in the order it happens. *)
Inductive action : Type :=
| LogError (msg : string)
| LogInfo (msg : string)
| OrderedFilename (idx : Z) (src : Path) (total_files : Z)
| ShutilCopy (src dst : Path).

Record world : Type := MkWorld {
  files : FS;
  actions : list action
}.

Definition W (A : Type) : Type := world -> result A * world.

Definition wret {A} (a : A) : W A := fun w => (Ok a, w).

Definition wbind {A B} (m : W A) (k : A -> W B) : W B :=
  fun w => match m w with
           | (Ok a, w') => k a w'
           | (Raise e, w') => (Raise e, w')
           end.

Definition act (a : action) : W unit :=
  fun w => (Ok tt, MkWorld (files w) (actions w ++ [a])).

(** [jb_toc.get("chapters", [])] *)
Definition get_chapters (jb_toc : TableOfContents) : list Chapter :=
  match chapters jb_toc with
  | Some l => l
  | None => []
  end.

Definition is_file_not_found (e : exn) : bool :=
  match e with
  | OtherError cls _ => String.eqb cls "FileNotFoundError"
  | _ => false
  end.

Definition source_not_found (src dst : Path) : string :=
  ("Copy source not found. " ++ path_str src ++ " does not exist. Cannot copy to "
   ++ path_str dst)%string.

Definition _copy (src dst : Path) : W unit :=
  fun w =>
    let w :=
      if path_exists (files w) src then w
      else snd (act (LogError (source_not_found src dst)) w) in
    let w := snd (act (ShutilCopy src dst) w) in
    match shutil_copy (files w) src dst with
    | Ok files' => (Ok tt, MkWorld files' (actions w))
    | Raise e =>
        if is_file_not_found e
        then (Raise e,
              snd (act (LogError (source_not_found src dst ++ ".")%string) w))
        else (Raise e, w)
    end.

Definition _count_files_to_copy (jb_toc : TableOfContents) : Z :=
  let additional_files :=
    if is_root_in_chapters jb_toc then 0%Z else 1%Z in
  (Z.of_nat (length (get_chapters jb_toc)) + additional_files)%Z.

(** The file under [DATA_DIR/md/slug] that a source is copied to, given
    its number. *)
Definition destination (idx : Z) (src : Path) (total_files : Z)
           (slug : string) : Path :=
  let new_fn :=
    (get_ordered_filename idx src total_files ++ path_suffix src)%string in
  joinpath (joinpath (joinpath (path_of DATA_DIR) "md") slug) new_fn.

(** The three lines that [_copy_root_file] and [_copy_chapters] share:
    the new name is asked for, and the source is copied to it. *)
Definition ordered_copy (idx : Z) (src : Path) (total_files : Z)
           (slug : string) : W unit :=
  wbind (act (OrderedFilename idx src total_files)) (fun _ =>
  let dst := destination idx src total_files slug in
  _copy src dst).

Definition _copy_root_file (jb_toc : TableOfContents) (project_path : Path)
           (total_files : Z) (slug : string) : W unit :=
  if negb (is_root_in_chapters jb_toc)
  then ordered_copy 0%Z (joinpath project_path (root jb_toc))
                    total_files slug
  else wret tt.

(** The loop of [_copy_chapters] over [enumerate(chapters, idx)]. *)
Fixpoint copy_chapters_loop (chs : list Chapter) (idx : Z)
         (project_path : Path) (total_files : Z) (slug : string) : W unit :=
  match chs with
  | [] => wret tt
  | ch :: rest =>
      wbind (ordered_copy idx (joinpath project_path (file ch))
                          total_files slug)
            (fun _ => copy_chapters_loop rest (idx + 1)%Z project_path
                                         total_files slug)
  end.

Definition _copy_chapters (jb_toc : TableOfContents) (project_path : Path)
           (total_files : Z) (slug : string) : W unit :=
  let additional_files :=
    (total_files - Z.of_nat (length (get_chapters jb_toc)))%Z in
  copy_chapters_loop (get_chapters jb_toc) additional_files project_path
                     total_files slug.

Definition no_errors : string :=
  "Found no errors while copying input files to 'md' subdirectory.".

Definition _copy_content_files (project_path : Path)
           (jb_toc : TableOfContents) : W unit :=
  let slug := path_name project_path in
  let total_files := _count_files_to_copy jb_toc in
  wbind (_copy_root_file jb_toc project_path total_files slug) (fun _ =>
  wbind (_copy_chapters jb_toc project_path total_files slug) (fun _ =>
  act (LogInfo no_errors))).

(** The files that are to be copied, in the order of the copying: the
    root file unless it is among the chapters, then the chapters. *)
Definition sources (project_path : Path) (jb_toc : TableOfContents)
  : list Path :=
  (if is_root_in_chapters jb_toc then []
   else [joinpath project_path (root jb_toc)])
  ++ map (fun ch => joinpath project_path (file ch)) (get_chapters jb_toc).

(** The numbers handed to [get_ordered_filename], with their files. *)
Fixpoint numbering (l : list action) : list (Z * Path * Z) :=
  match l with
  | [] => []
  | OrderedFilename idx src total :: r => (idx, src, total) :: numbering r
  | _ :: r => numbering r
  end.

Fixpoint copied (l : list action) : list Path :=
  match l with
  | [] => []
  | ShutilCopy src _ :: r => src :: copied r
  | _ :: r => copied r
  end.

Fixpoint infos (l : list action) : list string :=
  match l with
  | [] => []
  | LogInfo msg :: r => msg :: infos r
  | _ :: r => infos r
  end.

(** The files numbered from [idx] on, out of [total_files]. *)
Fixpoint numbered_from (idx : Z) (total_files : Z) (srcs : list Path)
  : list (Z * Path * Z) :=
  match srcs with
  | [] => []
  | src :: r => (idx, src, total_files) :: numbered_from (idx + 1) total_files r
  end.

(** The file system after [shutil.copy] has copied the numbered files to
    their destinations one after the other, or what the first copy that
    fails raises. *)
Fixpoint copy_all (numbered : list (Z * Path * Z)) (slug : string) (fs : FS)
  : result FS :=
  match numbered with
  | [] => Ok fs
  | (idx, src, total_files) :: rest =>
      fs' <~ shutil_copy fs src (destination idx src total_files slug) ;;
      copy_all rest slug fs'
  end.

(** One numbered copy after the other. *)
Fixpoint copy_numbered (numbered : list (Z * Path * Z)) (slug : string)
  : W unit :=
  match numbered with
  | [] => wret tt
  | (idx, src, total_files) :: rest =>
      wbind (ordered_copy idx src total_files slug)
            (fun _ => copy_numbered rest slug)
  end.

End Copying.

End Docx2md.

(** ** A style engine that fails, and files to copy *)

Module Faulty.

#[local] Existing Instance Sample.runtime.

(** The engine of [Sample], except that its bibliography is never
    rendered. *)
Definition engine : Citeproc :=
  {| Source := list string;
     Style := string;
     Bibliography := Sample.bib;
     CiteProcJSON := fun json_data => Ok (Sample.source_keys json_data);
     CitationStylesStyle := fun style =>
       if String.eqb style "harvard1" then Ok style
       else Raise (ValueError "not a known style");
     CitationStylesBibliography := fun _ source => Ok (Sample.MkBib source []);
     register := fun b c => Ok (Sample.register_keys b c);
     cite := fun b c => Ok (Sample.cite_text c, []);
     bibliography := fun _ => Raise (OtherError "RuntimeError" "no layout") |}.

End Faulty.

Module Docx2mdSample.
Import Docx2md.

(** Paths as lists of names, and a file system that holds the paths of
    its files. *)
Definition files : Files :=
  {| Path := list string;
     path_of := fun s => [s];
     joinpath := fun p s => p ++ [s];
     path_name := fun p => last p "";
     path_suffix := fun _ => ".md";
     path_str := fun p => String.concat "/" p;
     FS := list (list string);
     path_exists := fun fs p =>
       if in_dec (list_eq_dec string_dec) p fs then true else false;
     shutil_copy := fun fs src dst =>
       if in_dec (list_eq_dec string_dec) src fs then Ok (dst :: fs)
       else Raise (OtherError "FileNotFoundError" "No such file or directory");
     DATA_DIR := "data" |}.

#[local] Existing Instance files.

Definition utils : Utils :=
  {| is_root_in_chapters := fun jb_toc =>
       existsb (fun ch => String.eqb (file ch) (root jb_toc))
               (get_chapters jb_toc);
     get_ordered_filename := fun idx src _ =>
       (if Z.eqb idx 0 then "0_" else "n_") ++ path_name src |}%string.

Definition book : Path := ["input"; "book"].

Definition toc : TableOfContents :=
  {| root := "intro";
     chapters := Some [ {| file := "one" |}; {| file := "two" |} ] |}.

(** Every file of the book is there. *)
Definition complete : world (F := files) :=
  MkWorld (F := files)
          [ ["input"; "book"; "intro"]; ["input"; "book"; "one"];
            ["input"; "book"; "two"] ] [].

(** The second chapter is missing. *)
Definition incomplete : world (F := files) :=
  MkWorld (F := files)
          [ ["input"; "book"; "intro"]; ["input"; "book"; "one"] ] [].

End Docx2mdSample.
(** * Properties *)

(** ** Strings, results and lists *)

Lemma drop_append (p s : string) :
  Str.drop (String.length p) (p ++ s)%string = s.
Proof. induction p as [|c p IH]; simpl; auto. Qed.

Lemma startswith_append (p s : string) :
  Str.startswith (p ++ s)%string p = true.
Proof.
  unfold Str.startswith. induction p as [|c p IH]; simpl.
  - destruct s; reflexivity.
  - destruct (ascii_dec c c) as [_|n]; [exact IH | now destruct n].
Qed.

Lemma dict_get_raises {V} (k : string) (d : list (string * V)) e :
  dict_get k d = Raise e -> e = KeyError k.
Proof.
  induction d as [|[k' v] d IH]; cbn [dict_get].
  - now intros [= <-].
  - destruct (String.eqb k k'); [discriminate | exact IH].
Qed.

Lemma for_append_acc {A B} (f : A -> result B) (l : list A) (acc : list B) :
  for_append f l acc =
  match for_append f l [] with
  | Ok new => Ok (acc ++ new)
  | Raise e => Raise e
  end.
Proof.
  revert acc. induction l as [|x r IH]; intros acc; simpl.
  - now rewrite app_nil_r.
  - destruct (f x) as [y|e]; simpl; [|reflexivity].
    rewrite (IH (acc ++ [y])), (IH [y]).
    destruct (for_append f r []); [|reflexivity].
    now rewrite <- app_assoc.
Qed.

Lemma for_append_length {A B} (f : A -> result B) (l : list A) out :
  for_append f l [] = Ok out -> length out = length l.
Proof.
  revert out. induction l as [|x r IH]; intros out; simpl.
  - now intros [= <-].
  - destruct (f x) as [y|e]; simpl; [|discriminate].
    rewrite for_append_acc.
    destruct (for_append f r []) as [new|]; [|discriminate].
    intros [= <-]. simpl. f_equal. now apply IH.
Qed.

(** A loop of fallible steps raises as soon as one step does, and what it
    raises is what that step raises. *)
Lemma for_append_raises {A B} (f : A -> result B) (l : list A) e :
  Exists (fun x => is_ok (f x) = false) l ->
  Forall (fun x => is_ok (f x) = false -> f x = Raise e) l ->
  for_append f l [] = Raise e.
Proof.
  induction l as [|x r IH]; intros Hex Hall; [inversion Hex|].
  simpl. inversion Hall as [|? ? Hx Hr]; subst.
  destruct (f x) as [y|e'] eqn:Hfx; simpl.
  - rewrite for_append_acc, IH; auto.
    inversion Hex as [? ? H|]; subst; auto.
    rewrite Hfx in H. discriminate.
  - specialize (Hx eq_refl). now injection Hx as ->.
Qed.

Lemma NoDup_map_filter {A B} (f : A -> B) (g : A -> bool) (l : list A) :
  NoDup (map f l) -> NoDup (map f (List.filter g l)).
Proof.
  induction l as [|x r IH]; simpl; intros H; [constructor|].
  inversion H as [|? ? Hnot Hr]; subst.
  destruct (g x); simpl; auto.
  constructor; auto.
  intros Hin. apply Hnot.
  apply in_map_iff in Hin as (y & <- & Hy).
  apply filter_In in Hy as [Hy _]. now apply in_map.
Qed.

Lemma NoDup_cons_map (i : nat) (l : list path) :
  NoDup l -> NoDup (map (cons i) l).
Proof.
  induction 1 as [|p l Hnot _ IH]; simpl; constructor; auto.
  intros Hin. apply in_map_iff in Hin as (q & [= ->] & Hq). contradiction.
Qed.

(** ** The tree *)

Module Bs4Facts.

Lemma descendants_unfold name ns attrs cs :
  descendants (Tag name ns attrs cs) = descendants_from 0 cs.
Proof.
  simpl. generalize 0.
  induction cs as [|c r IH]; intros i; simpl; [reflexivity|].
  now rewrite IH.
Qed.

Lemma nth_error_update_same {A} (f : A -> A) (l : list A) (i : nat) :
  nth_error (list_update i f l) i = option_map f (nth_error l i).
Proof. revert i. induction l as [|x r IH]; intros [|i]; simpl; auto. Qed.

Lemma nth_error_update_other {A} (f : A -> A) (l : list A) (i j : nat) :
  i <> j -> nth_error (list_update i f l) j = nth_error l j.
Proof.
  revert i j.
  induction l as [|x r IH]; intros [|i] [|j] H; simpl; auto;
    try contradiction.
Qed.

Lemma get_at_cons i j p' (l : list node) :
  get_at (i :: j :: p') l =
  match nth_error l i with
  | Some n => get_at (j :: p') (contents_of n)
  | None => None
  end.
Proof. reflexivity. Qed.

Lemma contents_with_contents f n :
  contents_of (with_contents f n) =
  match n with
  | NavigableString _ => []
  | Tag _ _ _ cs => f cs
  end.
Proof. destruct n; reflexivity. Qed.

Lemma get_at_nil_contents p : get_at p [] = None.
Proof. destruct p as [|[|i] p]; reflexivity. Qed.

Lemma get_at_replace_same (p : path) (new : node) :
  forall l, get_at p l <> None -> get_at p (replace_at p new l) = Some new.
Proof.
  induction p as [|i p IH]; intros l H; [now destruct H|].
  destruct p as [|j p'].
  - simpl in *. rewrite nth_error_update_same.
    destruct (nth_error l i); [reflexivity | now destruct H].
  - rewrite get_at_cons in H.
    change (replace_at (i :: j :: p') new l)
      with (list_update i (with_contents (replace_at (j :: p') new)) l).
    rewrite get_at_cons, nth_error_update_same.
    destruct (nth_error l i) as [n|]; [|now destruct H].
    simpl option_map. cbv iota. rewrite contents_with_contents.
    destruct n as [s|name ns attrs cs].
    + exfalso. apply H. apply get_at_nil_contents.
    + exact (IH cs H).
Qed.

Lemma get_at_replace_other (p : path) (new : node) :
  forall q l,
    strict_prefix q p = false -> strict_prefix p q = false -> p <> q ->
    get_at p (replace_at q new l) = get_at p l.
Proof.
  induction p as [|i p IH]; intros q l Hqp Hpq Hne; [reflexivity|].
  destruct q as [|j q]; [discriminate|].
  simpl in Hqp, Hpq.
  destruct (Nat.eq_dec j i) as [->|Hji].
  - rewrite Nat.eqb_refl in Hqp, Hpq. simpl in Hqp, Hpq.
    assert (Hne' : p <> q) by congruence.
    destruct p as [|a p'], q as [|b q']; try discriminate;
      [now destruct Hne'|].
    change (replace_at (i :: b :: q') new l)
      with (list_update i (with_contents (replace_at (b :: q') new)) l).
    rewrite !get_at_cons, nth_error_update_same.
    destruct (nth_error l i) as [n|]; [|reflexivity].
    simpl option_map. cbv iota. rewrite contents_with_contents.
    destruct n as [s|name ns attrs cs]; [reflexivity|].
    now apply (IH (b :: q') cs).
  - assert (Hnth : forall f, nth_error (list_update j f l) i = nth_error l i)
      by (intros f; now apply nth_error_update_other).
    destruct q as [|b q']; simpl; rewrite Hnth; reflexivity.
Qed.

Lemma get_at_replace_valid (p : path) (new : node) :
  forall q l,
    strict_prefix q p = false -> get_at p l <> None ->
    get_at p (replace_at q new l) <> None.
Proof.
  induction p as [|i p IH]; intros q l Hqp H; [now destruct H|].
  destruct q as [|j q]; [exact H|].
  simpl in Hqp.
  destruct (Nat.eq_dec j i) as [->|Hji].
  - rewrite Nat.eqb_refl in Hqp. simpl in Hqp.
    destruct q as [|b q'].
    + destruct p; [|discriminate].
      simpl in *. rewrite nth_error_update_same.
      destruct (nth_error l i); [discriminate | exact H].
    + change (replace_at (i :: b :: q') new l)
        with (list_update i (with_contents (replace_at (b :: q') new)) l).
      destruct p as [|a p'].
      * simpl in *. rewrite nth_error_update_same.
        destruct (nth_error l i); [discriminate | exact H].
      * rewrite get_at_cons in *. rewrite nth_error_update_same.
        destruct (nth_error l i) as [n|]; [|exact H].
        simpl option_map. cbv iota. rewrite contents_with_contents.
        destruct n as [s|name ns attrs cs]; [exact H|].
        now apply (IH (b :: q') cs).
  - assert (Hnth : forall f, nth_error (list_update j f l) i = nth_error l i)
      by (intros f; now apply nth_error_update_other).
    destruct q as [|b q']; simpl in *; rewrite Hnth; exact H.
Qed.

Lemma get_at_app (p : path) (l l' : list node) :
  get_at p l <> None -> get_at p (l ++ l') = get_at p l.
Proof.
  destruct p as [|i p]; [reflexivity|]. simpl.
  destruct (nth_error l i) as [n|] eqn:Hn; [|now intros []].
  intros _. rewrite nth_error_app1, Hn; [reflexivity|].
  apply nth_error_Some. congruence.
Qed.

End Bs4Facts.

(** ** Positions of the elements that [find_all] returns *)

Module FindAll.
Import Bs4Facts.

Lemma descendants_from_head (l : list node) :
  forall i p,
    In p (map fst (descendants_from i l)) -> exists j rest, p = (i + j) :: rest.
Proof.
  induction l as [|c r IH]; intros i p Hin; [destruct Hin|].
  simpl in Hin. destruct Hin as [<-|Hin].
  - exists 0, []. now rewrite Nat.add_0_r.
  - rewrite map_app, map_map in Hin.
    apply in_app_or in Hin as [Hin|Hin].
    + apply in_map_iff in Hin as (e & <- & _).
      exists 0, (fst e). simpl. now rewrite Nat.add_0_r.
    + destruct (IH _ _ Hin) as (j & rest & ->).
      exists (S j), rest. f_equal. lia.
Qed.

Lemma descendants_from_get (l : list node) :
  Forall (fun c => forall p n,
              In (p, n) (descendants c) -> get_at p (contents_of c) = Some n) l ->
  forall i p n,
    In (p, n) (descendants_from i l) ->
    exists j rest, p = (i + j) :: rest /\ get_at (j :: rest) l = Some n.
Proof.
  induction 1 as [|c r Hc _ IH]; intros i p n Hin; [destruct Hin|].
  simpl in Hin. destruct Hin as [[= <- <-]|Hin].
  - exists 0, []. now rewrite Nat.add_0_r.
  - apply in_app_or in Hin as [Hin|Hin].
    + apply in_map_iff in Hin as ([p' n'] & [= <- <-] & Hin).
      exists 0, p'. rewrite Nat.add_0_r. split; [reflexivity|].
      specialize (Hc _ _ Hin).
      destruct p' as [|a p']; [discriminate Hc | exact Hc].
    + destruct (IH _ _ _ Hin) as (j & rest & -> & Hget).
      exists (S j), rest. split; [f_equal; lia | exact Hget].
Qed.

Lemma descendants_get (c : node) :
  forall p n, In (p, n) (descendants c) -> get_at p (contents_of c) = Some n.
Proof.
  induction c as [s|name ns attrs cs IH] using node_ind';
    intros p n Hin; [destruct Hin|].
  rewrite descendants_unfold in Hin.
  destruct (descendants_from_get IH _ _ _ Hin) as (j & rest & -> & Hget).
  exact Hget.
Qed.

(** An element that [find_all] looks at sits in the soup where its
    position says. *)
Lemma descendants_from_valid (soup : BeautifulSoup) p n :
  In (p, n) (descendants_from 0 soup) -> get_at p soup = Some n.
Proof.
  intros Hin.
  assert (Hall : Forall (fun c => forall p n,
                             In (p, n) (descendants c) ->
                             get_at p (contents_of c) = Some n) soup)
    by (apply Forall_forall; intros c _; apply descendants_get).
  destruct (descendants_from_get Hall _ _ _ Hin) as (j & rest & -> & Hget).
  exact Hget.
Qed.

Lemma descendants_from_NoDup (l : list node) :
  Forall (fun c => NoDup (map fst (descendants c))) l ->
  forall i, NoDup (map fst (descendants_from i l)).
Proof.
  induction 1 as [|c r Hc _ IH]; intros i; simpl; [constructor|].
  rewrite map_app, map_map. simpl.
  assert (Hmap : @map (path * node) path (fun e => i :: fst e) (descendants c)
                 = map (cons i) (map fst (descendants c)))
    by (rewrite map_map; reflexivity).
  rewrite Hmap.
  constructor.
  - intros Hin. apply in_app_or in Hin as [Hin|Hin].
    + apply in_map_iff in Hin as (p' & [= ->] & Hin).
      destruct c as [s|name ns attrs cs]; [destruct Hin|].
      rewrite descendants_unfold in Hin.
      destruct (descendants_from_head _ _ _ Hin) as (j & rest & [=]).
    + destruct (descendants_from_head _ _ _ Hin) as (j & rest & [= Hi]). lia.
  - apply NoDup_app.
    + now apply NoDup_cons_map.
    + apply IH.
    + intros p Hin1 Hin2.
      apply in_map_iff in Hin1 as (p' & <- & _).
      destruct (descendants_from_head _ _ _ Hin2) as (j & rest & [= Hi]). lia.
Qed.

Lemma descendants_NoDup (c : node) : NoDup (map fst (descendants c)).
Proof.
  induction c as [s|name ns attrs cs IH] using node_ind'; [constructor|].
  rewrite descendants_unfold. now apply descendants_from_NoDup.
Qed.

Lemma find_all_NoDup (soup : BeautifulSoup) name filter :
  NoDup (map fst (find_all soup name filter)).
Proof.
  unfold find_all. apply NoDup_map_filter, descendants_from_NoDup.
  apply Forall_forall. intros c _. apply descendants_NoDup.
Qed.

Lemma find_all_valid (soup : BeautifulSoup) name filter p n :
  In (p, n) (find_all soup name filter) -> get_at p soup = Some n.
Proof.
  unfold find_all. intros Hin. apply filter_In in Hin as [Hin _].
  now apply descendants_from_valid.
Qed.

End FindAll.
(** ** The tree after the rewrite *)

Module Bs4More.
Import Bs4Facts.

Lemma replace_at_invalid (p : path) (new : node) :
  forall l, get_at p l = None -> replace_at p new l = l.
Proof.
  assert (Hup : forall (f : node -> node) (l : list node) i,
             (forall n, nth_error l i = Some n -> f n = n) ->
             list_update i f l = l).
  { intros f l. induction l as [|x l IH]; intros [|i] H; simpl; auto.
    - now rewrite (H x eq_refl).
    - now rewrite IH. }
  induction p as [|i p IH]; intros l H; [reflexivity|].
  destruct p as [|j p'].
  - simpl in *. apply Hup. intros n Hn. rewrite Hn in H. discriminate.
  - change (replace_at (i :: j :: p') new l)
      with (list_update i (with_contents (replace_at (j :: p') new)) l).
    apply Hup. intros n Hn. rewrite get_at_cons, Hn in H.
    destruct n as [s|name ns attrs cs]; [reflexivity|].
    simpl. f_equal. now apply IH.
Qed.

(** Below the position of a replacement the tree holds the contents of
    the new element. *)
Lemma get_at_replace_below (p : path) (new : node) :
  forall q l,
    strict_prefix p q = true -> get_at p l <> None ->
    exists rest,
      rest <> [] /\ get_at q (replace_at p new l)
                    = get_at rest (contents_of new).
Proof.
  induction p as [|i p IH]; intros q l Hpq Hvalid; [now destruct Hvalid|].
  destruct q as [|j q]; [discriminate|].
  simpl in Hpq. apply andb_true_iff in Hpq as [Hij Hpq].
  apply Nat.eqb_eq in Hij. subst j.
  destruct p as [|a p'].
  - destruct q as [|b q']; [discriminate|].
    exists (b :: q'). split; [discriminate|].
    simpl in Hvalid. simpl replace_at.
    rewrite get_at_cons, nth_error_update_same.
    destruct (nth_error l i); [reflexivity | now destruct Hvalid].
  - destruct q as [|b q']; [discriminate|].
    change (replace_at (i :: a :: p') new l)
      with (list_update i (with_contents (replace_at (a :: p') new)) l).
    rewrite get_at_cons in Hvalid.
    rewrite get_at_cons, nth_error_update_same.
    destruct (nth_error l i) as [n|]; [|now destruct Hvalid].
    cbn [option_map]. rewrite contents_with_contents.
    destruct n as [s|name ns attrs cs].
    + exfalso. apply Hvalid. apply get_at_nil_contents.
    + apply (IH (b :: q') cs Hpq Hvalid).
Qed.

Lemma same_head_refl n : same_head n n.
Proof. destruct n; simpl; auto. Qed.

(** Above the position of a replacement the elements keep their names
    and attributes. *)
Lemma get_at_replace_above (p : path) (new : node) :
  forall q l n,
    strict_prefix q p = true ->
    get_at q (replace_at p new l) = Some n ->
    exists n0, get_at q l = Some n0 /\ same_head n n0.
Proof.
  induction p as [|i p IH]; intros q l n Hqp Hget;
    [destruct q; discriminate|].
  destruct q as [|j q]; [discriminate|].
  simpl in Hqp. apply andb_true_iff in Hqp as [Hij Hqp].
  apply Nat.eqb_eq in Hij. subst j.
  destruct p as [|a p']; [destruct q; discriminate|].
  change (replace_at (i :: a :: p') new l)
    with (list_update i (with_contents (replace_at (a :: p') new)) l)
    in Hget.
  destruct q as [|b q'].
  - simpl in *. rewrite nth_error_update_same in Hget.
    destruct (nth_error l i) as [n0|]; [|discriminate].
    injection Hget as <-. exists n0. split; [reflexivity|].
    destruct n0; simpl; auto.
  - rewrite get_at_cons in *. rewrite nth_error_update_same in Hget.
    destruct (nth_error l i) as [n0|]; [|discriminate].
    cbn [option_map] in Hget. rewrite contents_with_contents in Hget.
    destruct n0 as [s|name ns attrs cs].
    + rewrite get_at_nil_contents in Hget. discriminate.
    + apply (IH (b :: q') cs n Hqp Hget).
Qed.

Lemma path_cases (p q : path) :
  p = q \/ strict_prefix p q = true \/ strict_prefix q p = true
  \/ (p <> q /\ strict_prefix p q = false /\ strict_prefix q p = false).
Proof.
  destruct (list_eq_dec Nat.eq_dec p q) as [->|Hne]; [now left|].
  destruct (strict_prefix p q); [now right; left|].
  destruct (strict_prefix q p); [now right; right; left|].
  now right; right; right.
Qed.

Lemma strict_prefix_trans (p q r : path) :
  strict_prefix p q = true -> strict_prefix q r = true ->
  strict_prefix p r = true.
Proof.
  revert q r. induction p as [|i p IH]; intros [|j q] [|k r] Hpq Hqr;
    try discriminate; try reflexivity.
  simpl in *. apply andb_true_iff in Hpq as [Hij Hpq].
  apply andb_true_iff in Hqr as [Hjk Hqr].
  apply Nat.eqb_eq in Hij, Hjk. subst.
  rewrite Nat.eqb_refl. simpl. eapply IH; eauto.
Qed.

Lemma strict_prefix_irrefl (p : path) : strict_prefix p p = false.
Proof.
  induction p as [|i p IH]; [reflexivity|].
  simpl. now rewrite Nat.eqb_refl.
Qed.

(** Every element of a tree is among the elements that [find_all] looks
    at. *)
Lemma descendants_from_complete (l : list node) :
  Forall (fun c => forall p n,
              get_at p (contents_of c) = Some n -> In (p, n) (descendants c))
         l ->
  forall i j rest n,
    get_at (j :: rest) l = Some n ->
    In ((i + j) :: rest, n) (descendants_from i l).
Proof.
  induction 1 as [|c r Hc _ IH]; intros i j rest n Hget.
  - rewrite get_at_nil_contents in Hget. discriminate.
  - destruct j as [|j].
    + rewrite Nat.add_0_r. simpl descendants_from.
      destruct rest as [|a rest].
      * simpl in Hget. injection Hget as <-. now left.
      * rewrite get_at_cons in Hget. simpl in Hget.
        right. apply in_or_app. left.
        apply in_map_iff. exists (a :: rest, n). split; [reflexivity|].
        now apply Hc.
    + simpl descendants_from. right. apply in_or_app. right.
      replace (i + S j) with (S i + j) by lia.
      apply IH.
      destruct rest as [|a rest]; simpl in *; exact Hget.
Qed.

Lemma descendants_complete (c : node) :
  forall p n, get_at p (contents_of c) = Some n -> In (p, n) (descendants c).
Proof.
  induction c as [s|name ns attrs cs IH] using node_ind'; intros p n Hget.
  - simpl in Hget. rewrite get_at_nil_contents in Hget. discriminate.
  - rewrite descendants_unfold. simpl in Hget.
    destruct p as [|j rest]; [discriminate|].
    exact (@descendants_from_complete _ IH 0 _ _ _ Hget).
Qed.

Lemma find_all_complete (soup : BeautifulSoup) name filter p n :
  get_at p soup = Some n ->
  tag_matches name filter n = true ->
  In (p, n) (find_all soup name filter).
Proof.
  intros Hget Hmatch. unfold find_all. apply filter_In. split; [|exact Hmatch].
  destruct p as [|j rest]; [discriminate|].
  refine (@descendants_from_complete soup _ 0 _ _ _ Hget).
  apply Forall_forall. intros c _. apply descendants_complete.
Qed.

Lemma descendants_from_app (l l' : list node) : forall i,
  descendants_from i (l ++ l')
  = descendants_from i l ++ descendants_from (i + length l) l'.
Proof.
  induction l as [|c l IH]; intros i; simpl.
  - now rewrite Nat.add_0_r.
  - rewrite IH, <- app_assoc.
    replace (i + S (length l)) with (S i + length l) by lia.
    reflexivity.
Qed.

End Bs4More.

(** ** Lists *)

Lemma skipn_nth_error {A} (l : list A) : forall i x,
  nth_error l i = Some x -> skipn i l = x :: skipn (S i) l.
Proof.
  induction l as [|y l IH]; intros [|i] x H; try discriminate.
  - now injection H as ->.
  - simpl in H. apply (IH _ _ H).
Qed.

Lemma map_fst_combine {A B} (l : list A) (l' : list B) :
  map fst (combine l l') = firstn (length l') l.
Proof.
  revert l'. induction l as [|x l IH]; intros [|y l']; simpl; auto.
  now rewrite IH.
Qed.

Lemma map_snd_combine {A B} (l : list A) (l' : list B) :
  map snd (combine l l') = firstn (length l) l'.
Proof.
  revert l'. induction l as [|x l IH]; intros [|y l']; simpl; auto.
  now rewrite IH.
Qed.

Lemma nth_error_combine {A B} (l : list A) (l' : list B) i x y :
  nth_error l i = Some x -> nth_error l' i = Some y ->
  nth_error (combine l l') i = Some (x, y).
Proof.
  revert l l'. induction i as [|i IH]; intros [|a l] [|b l'] Hx Hy;
    try discriminate; simpl in *.
  - now injection Hx as ->; injection Hy as ->.
  - now apply IH.
Qed.

Lemma combine_firstn {A B} (l : list A) (l' : list B) :
  combine l (firstn (length l) l') = combine l l'.
Proof.
  revert l'. induction l as [|x l IH]; intros [|y l']; simpl; auto.
  now rewrite IH.
Qed.

Lemma in_firstn {A} (l : list A) : forall k x, In x (firstn k l) -> In x l.
Proof.
  induction l as [|y l IH]; intros [|k] x H; simpl in *; try contradiction.
  destruct H as [H|H]; [now left | right; eapply IH; eauto].
Qed.

Lemma NoDup_firstn {A} (l : list A) : forall k, NoDup l -> NoDup (firstn k l).
Proof.
  induction l as [|y l IH]; intros [|k] H; simpl; try constructor.
  - inversion H as [|? ? Hnot Hl]; subst. intros Hin. apply Hnot.
    eapply in_firstn; eauto.
  - inversion H; subst. now apply IH.
Qed.

Lemma for_append_Forall2 {A B} (f : A -> result B) (l : list A) out :
  for_append f l [] = Ok out <-> Forall2 (fun x y => f x = Ok y) l out.
Proof.
  revert out. induction l as [|x l IH]; intros out; simpl.
  - split.
    + intros [= <-]. constructor.
    + intros H. inversion H. reflexivity.
  - destruct (f x) as [y|e] eqn:Hfx; cbn [rbind].
    + rewrite for_append_acc. split.
      * destruct (for_append f l []) as [new|] eqn:Hnew; [|discriminate].
        intros [= <-]. constructor; [exact Hfx|]. now apply IH.
      * intros H. inversion H as [|? y' ? out' Hy Hrest]; subst.
        rewrite Hfx in Hy. injection Hy as <-.
        apply IH in Hrest. now rewrite Hrest.
    + split; [discriminate|].
      intros H. inversion H as [|? y' ? out' Hy Hrest]; subst.
      rewrite Hfx in Hy. discriminate.
Qed.

(** What a loop of fallible steps raises is what one of the steps
    raises. *)
Lemma for_append_raised {A B} (f : A -> result B) (l : list A) e :
  forall acc,
    for_append f l acc = Raise e -> exists x, In x l /\ f x = Raise e.
Proof.
  induction l as [|x l IH]; intros acc; simpl; [discriminate|].
  destruct (f x) as [y|e'] eqn:Hfx; cbn [rbind].
  - intros H. destruct (IH _ H) as (x' & Hin & Hx'). eauto.
  - intros [= <-]. eauto.
Qed.

Lemma for_append_stops {A B} (f : A -> result B) (l : list A) :
  Exists (fun x => is_ok (f x) = false) l ->
  forall acc, is_ok (for_append f l acc) = false.
Proof.
  induction 1 as [x l Hx|x l _ IH]; intros acc; simpl.
  - destruct (f x); [discriminate | reflexivity].
  - destruct (f x); cbn [rbind]; [apply IH | reflexivity].
Qed.

Lemma Forall2_flat_map {A B X Y} (P : X -> Y -> Prop)
      (f : A -> list X) (g : B -> list Y) (l : list A) (l' : list B) :
  Forall2 (fun a b => Forall2 P (f a) (g b)) l l' ->
  Forall2 P (flat_map f l) (flat_map g l').
Proof.
  induction 1 as [|a b l l' Hab _ IH]; simpl; [constructor|].
  now apply Forall2_app.
Qed.

(** An element that the first part of a list does not hold. *)
Lemma split_second {A} (x : A) (pre post front back : list A) :
  pre ++ x :: post = front ++ back ->
  ~ In x front ->
  exists mid, pre = front ++ mid /\ back = mid ++ x :: post.
Proof.
  revert pre. induction front as [|y front IH]; intros pre Heq Hnot.
  - exists pre. auto.
  - destruct pre as [|z pre]; simpl in Heq.
    + injection Heq as -> _. destruct Hnot. now left.
    + injection Heq as -> Heq.
      destruct (IH pre Heq) as (mid & -> & ->).
      * intros Hin. apply Hnot. now right.
      * exists mid. auto.
Qed.

(** ** The functions of [citations.py], one by one *)

Section Stages.
Context {R : PyRuntime} {C : Codec} {E : Citeproc}.

Lemma getitem_raises (v : json) (k : string) e :
  getitem v k = Raise e -> e = KeyError k \/ (is_dict v = false /\ e = TypeError).
Proof.
  destruct v; cbn [getitem is_dict]; try (intros [= <-]; now right).
  intros H. left. exact (dict_get_raises _ _ H).
Qed.

Lemma extract_one_ok (span : node) (found : option json) :
  extract_one span = Ok found ->
  (_has_inner_json_data span = Ok true /\ exists c, found = Some c)
  \/ (_has_inner_json_data span = Ok false /\ found = None).
Proof.
  unfold extract_one.
  destruct (_has_inner_json_data span) as [[|]|e]; simpl; try discriminate.
  - destruct (dict_get "data-src" (attrs_of span)) as [[s|l]|e];
      simpl; try discriminate.
    destruct (loads_b64decode _) as [c|e]; simpl; try discriminate.
    intros [= <-]. left. eauto.
  - intros [= <-]. now right.
Qed.

(** The payload of a marker is what follows the prefix. *)
Lemma extract_one_marker (span : node) (payload : string) :
  dict_get "data-src" (attrs_of span) = Ok (AttrStr (json_prefix ++ payload))
  -> extract_one span
     = (citation <~ loads_b64decode payload ;; Ok (Some citation)).
Proof.
  intros Hsrc. unfold extract_one, _has_inner_json_data.
  rewrite Hsrc. cbn [rbind].
  rewrite startswith_append. cbn [rbind].
  now rewrite drop_append.
Qed.

Lemma extract_loop_acc (spans : list (path * node)) :
  forall acc,
    extract_loop spans acc =
    match extract_loop spans [] with
    | Ok new => Ok (acc ++ new)
    | Raise e => Raise e
    end.
Proof.
  induction spans as [|span rest IH]; intros acc; simpl.
  - now rewrite app_nil_r.
  - destruct (extract_one (snd span)) as [[c|]|e]; simpl.
    + rewrite (IH (acc ++ [c])), (IH [c]).
      destruct (extract_loop rest []); [|reflexivity].
      now rewrite <- app_assoc.
    + apply IH.
    + reflexivity.
Qed.

(** Extraction that returns has read a string [data-src] from every
    citation span, and returns one group for each qualifying one. *)
Lemma extract_loop_ok (spans : list (path * node)) :
  forall citations,
    extract_loop spans [] = Ok citations ->
    Forall has_data spans
    /\ length citations
       = length (List.filter (fun e => qualifies (snd e)) spans).
Proof.
  induction spans as [|span rest IH]; intros citations; simpl.
  - intros [= <-]. split; [constructor | reflexivity].
  - destruct (extract_one (snd span)) as [found|e] eqn:Hone; simpl;
      [|discriminate].
    unfold qualifies at 1. unfold has_data at 1.
    destruct (extract_one_ok _ Hone) as [[Hhas [c ->]]|[Hhas ->]];
      rewrite ?Hhas.
    + rewrite extract_loop_acc.
      destruct (extract_loop rest []) as [new|]; [|discriminate].
      intros [= <-]. destruct (IH _ eq_refl) as [Hall Hlen].
      split; [constructor; [unfold has_data; now rewrite Hhas | exact Hall]|].
      simpl. now f_equal.
    + intros Hrest. destruct (IH _ Hrest) as [Hall Hlen].
      split; [constructor; [unfold has_data; now rewrite Hhas | exact Hall]|].
      exact Hlen.
Qed.

(** *** Replacing *)

Lemma replace_steps_cons rep reps (s : state) :
  replace_steps (rep :: reps) s = replace_steps reps (replace_step s rep).
Proof. reflexivity. Qed.

Lemma replace_steps_trace reps : forall s : state,
  trace (replace_steps reps s)
  = trace s ++ map replace_event reps.
Proof.
  induction reps as [|r reps IH]; intros s.
  - simpl. now rewrite app_nil_r.
  - rewrite replace_steps_cons, IH. simpl. now rewrite <- app_assoc.
Qed.

Lemma replace_steps_stdout reps : forall s : state,
  stdout (replace_steps reps s) = stdout s.
Proof.
  induction reps as [|r reps IH]; intros s; [reflexivity|].
  now rewrite replace_steps_cons, IH.
Qed.

Lemma replace_step_soup (s : state) (rep : path * node) :
  html_soup (replace_step s rep)
  = if existsb (fun d => strict_prefix d (fst rep)) (detached s)
    then html_soup s
    else replace_at (fst rep) (snd rep) (html_soup s).
Proof. reflexivity. Qed.

Lemma replace_step_detached (s : state) (rep : path * node) :
  detached (replace_step s rep) = fst rep :: detached s.
Proof. reflexivity. Qed.

(** The tree that the replacements leave depends on the tree and on the
    elements taken out before, not on what was printed or logged. *)
Lemma replace_steps_tree reps : forall s s0 : state,
  html_soup s = html_soup s0 -> detached s = detached s0 ->
  html_soup (replace_steps reps s) = html_soup (replace_steps reps s0)
  /\ detached (replace_steps reps s) = detached (replace_steps reps s0).
Proof.
  induction reps as [|rep reps IH]; intros s s0 Hsoup Hdet; [now split|].
  rewrite !replace_steps_cons. apply IH.
  - rewrite !replace_step_soup, Hsoup, Hdet. reflexivity.
  - rewrite !replace_step_detached, Hdet. reflexivity.
Qed.

(** What holds at a position that was replaced stays there: a later
    replacement happens at another position, and not above. *)
Lemma replace_steps_keep reps : forall (s : state) p v,
  get_at p (html_soup s) = Some v ->
  In p (detached s) ->
  (forall r, In r (map fst reps) -> r <> p /\ strict_prefix r p = false) ->
  get_at p (html_soup (replace_steps reps s)) = Some v.
Proof.
  induction reps as [|rep reps IH]; intros s p v Hget Hdet Hreps;
    [exact Hget|].
  rewrite replace_steps_cons. apply IH.
  - rewrite replace_step_soup.
    destruct (existsb _ (detached s)) eqn:Hex; [exact Hget|].
    destruct (Hreps (fst rep) (or_introl eq_refl)) as [Hne Hpre].
    rewrite Bs4Facts.get_at_replace_other; auto.
    destruct (strict_prefix p (fst rep)) eqn:Hp; [|reflexivity].
    assert (Habs : existsb (fun d => strict_prefix d (fst rep)) (detached s)
                   = true)
      by (apply existsb_exists; eauto).
    congruence.
  - rewrite replace_step_detached. now right.
  - intros r Hr. apply Hreps. now right.
Qed.

Lemma replace_steps_get reps : forall (s : state) k p new,
  nth_error reps k = Some (p, new) ->
  NoDup (map fst reps) ->
  (forall r, In r (map fst reps) -> strict_prefix r p = false) ->
  (forall d, In d (detached s) -> strict_prefix d p = false) ->
  get_at p (html_soup s) <> None ->
  get_at p (html_soup (replace_steps reps s)) = Some new.
Proof.
  induction reps as [|rep reps IH]; intros s k p new Hk Hnd Hreps Hdet Hget;
    [destruct k; discriminate|].
  simpl in Hnd. inversion Hnd as [|? ? Hnot Hnd']; subst.
  destruct k as [|k]; simpl in Hk.
  - injection Hk as ->. rewrite replace_steps_cons.
    apply replace_steps_keep.
    + rewrite replace_step_soup. simpl.
      destruct (existsb _ (detached s)) eqn:Hex.
      * apply existsb_exists in Hex as (d & Hd & Hpre).
        rewrite (Hdet _ Hd) in Hpre. discriminate.
      * now apply Bs4Facts.get_at_replace_same.
    + rewrite replace_step_detached. now left.
    + intros r Hr. split.
      * intros ->. apply Hnot. exact Hr.
      * apply Hreps. now right.
  - rewrite replace_steps_cons. apply (IH _ k); auto.
    + intros r Hr. apply Hreps. now right.
    + rewrite replace_step_detached. intros d [<-|Hd]; [|now apply Hdet].
      apply Hreps. now left.
    + rewrite replace_step_soup.
      destruct (existsb _ (detached s)); [exact Hget|].
      apply Bs4Facts.get_at_replace_valid; [|exact Hget].
      apply Hreps. now left.
Qed.

Lemma replace_steps_frame reps : forall (s : state) q,
  (forall r, In r (map fst reps) -> apart r q) ->
  get_at q (html_soup (replace_steps reps s)) = get_at q (html_soup s).
Proof.
  induction reps as [|rep reps IH]; intros s q Hreps; [reflexivity|].
  rewrite replace_steps_cons, IH by (intros r Hr; apply Hreps; now right).
  rewrite replace_step_soup.
  destruct (existsb _ (detached s)); [reflexivity|].
  destruct (Hreps (fst rep) (or_introl eq_refl)) as (Hne & Hrq & Hqr).
  apply Bs4Facts.get_at_replace_other; auto.
Qed.

Lemma list_update_length {A} (f : A -> A) (l : list A) :
  forall i, length (list_update i f l) = length l.
Proof.
  induction l as [|x l IH]; intros [|i]; simpl; auto.
Qed.

Lemma replace_at_length p new (l : list node) :
  length (replace_at p new l) = length l.
Proof.
  destruct p as [|i [|j p]]; simpl; auto using list_update_length.
Qed.

Lemma replace_steps_length reps : forall s : state,
  length (html_soup (replace_steps reps s)) = length (html_soup s).
Proof.
  induction reps as [|rep reps IH]; intros s; [reflexivity|].
  rewrite replace_steps_cons, IH, replace_step_soup.
  destruct (existsb _ (detached s)); [reflexivity|].
  apply replace_at_length.
Qed.

Lemma replace_steps_detached reps : forall (s : state) p,
  In p (map fst reps) -> In p (detached (replace_steps reps s)).
Proof.
  assert (Hkeep : forall reps (s : state) p,
             In p (detached s) -> In p (detached (replace_steps reps s))).
  { intros reps'. induction reps' as [|rep reps' IH]; intros s p Hp;
      [exact Hp|].
    rewrite replace_steps_cons. apply IH.
    rewrite replace_step_detached. now right. }
  induction reps as [|rep reps IH]; intros s p Hp; [destruct Hp|].
  rewrite replace_steps_cons. destruct Hp as [<-|Hp].
  - apply Hkeep. rewrite replace_step_detached. now left.
  - now apply IH.
Qed.

(** *** The element made of a group *)

Lemma plain_cite_text (citation : json) (text : string) :
  cited_as citation text ->
  plain_cite citation = Ok (cite_tag text).
Proof.
  unfold cited_as, plain_cite, assign_string.
  destruct (plain_citation citation) as [v|e]; cbn [rbind]; [|discriminate].
  intros ->. reflexivity.
Qed.

Lemma plain_cite_ok (citation : json) (new : node) :
  plain_cite citation = Ok new ->
  exists text, cited_as citation text /\ new = cite_tag text.
Proof.
  unfold cited_as, plain_cite, assign_string.
  destruct (plain_citation citation) as [v|e]; cbn [rbind]; [|discriminate].
  destruct (tag_string v) as [text|e]; cbn [rbind]; [|discriminate].
  intros [= <-]. eauto.
Qed.

(** A [plainCitation] that is a string is the text the group is cited
    as. *)
Lemma cited_as_string (citation : json) (s text : string) :
  plain_citation citation = Ok (JStr s) ->
  cited_as citation text <-> text = s.
Proof.
  unfold cited_as. intros ->. cbn [rbind tag_string].
  split; [now intros [= ->] | now intros ->].
Qed.

(** *** The loop of [add_citations] *)

(** The loop does to the tree what its plan says, one replacement after
    the other, and ends as the plan ends. *)
Lemma add_citations_loop_plan (spans : list (path * node)) citations :
  forall i (s : state),
    add_citations_loop spans citations i s
    = (snd (rewrite_plan spans (skipn i citations)),
       replace_steps (fst (rewrite_plan spans (skipn i citations))) s).
Proof.
  induction spans as [|span rest IH]; intros i s; [reflexivity|].
  cbn [add_citations_loop rewrite_plan]. unfold bind at 1, lift at 1.
  destruct (_has_inner_json_data (snd span)) as [[|]|e];
    [|apply IH | reflexivity].
  unfold bind at 1, lift at 1, list_get.
  destruct (nth_error citations i) as [c|] eqn:Hc.
  - rewrite (skipn_nth_error _ _ Hc).
    unfold plain_cite, plain_citation.
    unfold bind at 1, lift at 1.
    destruct (getitem c "properties") as [props|e]; cbn [rbind];
      [|reflexivity].
    destruct (getitem props "plainCitation") as [v|e]; cbn [rbind];
      [|reflexivity].
    cbv zeta. unfold bind at 1, lift at 1.
    destruct (assign_string (new_tag "cite" None []) v) as [new|e];
      [|reflexivity].
    unfold bind at 1. unfold replace_with at 1. cbv beta iota zeta.
    rewrite IH, Nat.add_1_r. cbn [fst snd].
    rewrite replace_steps_cons. reflexivity.
  - rewrite skipn_all2 by (apply nth_error_None; exact Hc). reflexivity.
Qed.

Lemma add_citations_plan cps citations (bib : Bibliography) (s : state) :
  add_citations cps citations bib s =
  let plan := rewrite_plan (_find_all_citation_spans (html_soup s))
                           citations in
  (match snd plan with
   | Ok _ => Ok (html_soup (replace_steps (fst plan) s))
   | Raise e => Raise e
   end,
   replace_steps (fst plan) s).
Proof.
  unfold add_citations, bind, get_soup.
  rewrite add_citations_loop_plan. cbn [skipn].
  destruct (snd (rewrite_plan _ citations)) as [[]|e]; reflexivity.
Qed.

(** The replacements of a plan are made at the first qualifying markers,
    in their order, each with the element of the group at its index. *)
Lemma plan_shape (spans : list (path * node)) : forall citations,
  let reps := fst (rewrite_plan spans citations) in
  map fst reps
  = firstn (length reps)
           (map fst (List.filter (fun e => qualifies (snd e)) spans))
  /\ Forall2 (fun c new => plain_cite c = Ok new)
             (firstn (length reps) citations) (map snd reps)
  /\ length reps <= length citations.
Proof.
  induction spans as [|span rest IH]; intros citations; cbn zeta.
  - simpl. repeat split; [constructor | lia].
  - cbn [rewrite_plan List.filter].
    assert (Hq : qualifies (snd span)
                 = match _has_inner_json_data (snd span) with
                   | Ok true => true
                   | _ => false
                   end) by reflexivity.
    destruct (_has_inner_json_data (snd span)) as [[|]|e]; rewrite Hq.
    + destruct citations as [|c more].
      * simpl. repeat split; [constructor | lia].
      * destruct (plain_cite c) as [new|e] eqn:Hc.
        -- destruct (IH more) as (H1 & H2 & H3).
           cbn [fst snd map length firstn]. rewrite H1 at 1.
           repeat split; [constructor; assumption | lia].
        -- simpl. repeat split; [constructor | lia].
    + apply IH.
    + simpl. repeat split; [constructor | lia].
Qed.

(** A plan that ends well has found a string [data-src] on every span and
    a plain citation in the group of every qualifying marker. *)
Lemma plan_full (spans : list (path * node)) : forall citations,
  snd (rewrite_plan spans citations) = Ok tt ->
  let markers := List.filter (fun e => qualifies (snd e)) spans in
  Forall has_data spans
  /\ length markers <= length citations
  /\ exists texts,
      Forall2 cited_as (firstn (length markers) citations) texts
      /\ fst (rewrite_plan spans citations)
         = combine (map fst markers) (map cite_tag texts).
Proof.
  induction spans as [|span rest IH]; intros citations; cbn zeta.
  - intros _. split; [constructor|]. split; [simpl; lia|].
    exists []. split; [constructor | reflexivity].
  - cbn [rewrite_plan List.filter].
    assert (Hq : qualifies (snd span)
                 = match _has_inner_json_data (snd span) with
                   | Ok true => true
                   | _ => false
                   end) by reflexivity.
    destruct (_has_inner_json_data (snd span)) as [[|]|e] eqn:Hhas;
      rewrite Hq; [| |discriminate].
    + destruct citations as [|c more]; [discriminate|].
      destruct (plain_cite c) as [new|e] eqn:Hc; [|discriminate].
      cbn [fst snd]. intros Hrest.
      destruct (IH more Hrest) as (Hdata & Hlen & texts & Htexts & Hreps).
      destruct (plain_cite_ok _ Hc) as (text & Htext & ->).
      split; [constructor; [unfold has_data; now rewrite Hhas | exact Hdata]|].
      split; [simpl; lia|].
      exists (text :: texts). split.
      * cbn [length firstn]. now constructor.
      * cbn [map combine]. now rewrite Hreps.
    + intros Hrest.
      destruct (IH citations Hrest) as (Hdata & Hlen & texts & Htexts & Hreps).
      split; [constructor; [unfold has_data; now rewrite Hhas | exact Hdata]|].
      split; [exact Hlen|]. now exists texts.
Qed.

(** A plan that ends with an exception on spans that all have a string
    [data-src] has stopped at a qualifying marker: there is no group left
    for it, or its group makes no element. *)
Lemma plan_raise (spans : list (path * node)) : forall citations e,
  Forall has_data spans ->
  snd (rewrite_plan spans citations) = Raise e ->
  let k := length (fst (rewrite_plan spans citations)) in
  k < length (List.filter (fun e => qualifies (snd e)) spans)
  /\ match nth_error citations k with
     | Some c => plain_cite c = Raise e
     | None => e = IndexError
     end.
Proof.
  induction spans as [|span rest IH]; intros citations e Hall; cbn zeta;
    [discriminate|].
  inversion Hall as [|? ? Hspan Hrest]; subst.
  cbn [rewrite_plan List.filter]. unfold has_data in Hspan.
  assert (Hq : qualifies (snd span)
               = match _has_inner_json_data (snd span) with
                 | Ok true => true
                 | _ => false
                 end) by reflexivity.
  destruct (_has_inner_json_data (snd span)) as [[|]|e0];
    cbn [is_ok] in Hspan; try discriminate; rewrite Hq.
  - destruct citations as [|c more].
    + intros [= <-]. simpl. split; [lia | reflexivity].
    + destruct (plain_cite c) as [new|e1] eqn:Hc.
      * cbn [fst snd length]. intros Hraise.
        destruct (IH more e Hrest Hraise) as [Hk Hnth].
        split; [simpl; lia | exact Hnth].
      * intros [= <-]. simpl. split; [lia | exact Hc].
  - now apply IH.
Qed.

(** With a string [data-src] on every span and a plain citation that a
    [cite] element takes in every group, the plan puts the texts in the places of the markers, and ends
    well when the groups are enough for the markers. *)
Lemma plan_of_texts (spans : list (path * node)) : forall citations texts,
  Forall has_data spans ->
  Forall2 cited_as citations texts ->
  let markers := List.filter (fun e => qualifies (snd e)) spans in
  rewrite_plan spans citations
  = (combine (map fst markers) (map cite_tag texts),
     if Nat.leb (length markers) (length citations)
     then Ok tt else Raise IndexError).
Proof.
  induction spans as [|span rest IH]; intros citations texts Hall Htexts;
    cbn zeta; [reflexivity|].
  inversion Hall as [|? ? Hspan Hrest]; subst.
  cbn [rewrite_plan List.filter]. unfold has_data in Hspan.
  assert (Hq : qualifies (snd span)
               = match _has_inner_json_data (snd span) with
                 | Ok true => true
                 | _ => false
                 end) by reflexivity.
  destruct (_has_inner_json_data (snd span)) as [[|]|e0];
    cbn [is_ok] in Hspan; try discriminate; rewrite Hq.
  - destruct Htexts as [|c text more texts' Hc Hmore]; [reflexivity|].
    rewrite (plain_cite_text Hc), (IH more texts' Hrest Hmore).
    reflexivity.
  - now apply IH.
Qed.

(** The groups beyond the number of qualifying markers are not looked
    at. *)
Lemma plan_firstn (spans : list (path * node)) : forall citations,
  rewrite_plan
    spans
    (firstn (length (List.filter (fun e => qualifies (snd e)) spans))
            citations)
  = rewrite_plan spans citations.
Proof.
  induction spans as [|span rest IH]; intros citations; [reflexivity|].
  cbn [rewrite_plan List.filter].
  assert (Hq : qualifies (snd span)
               = match _has_inner_json_data (snd span) with
                 | Ok true => true
                 | _ => false
                 end) by reflexivity.
  destruct (_has_inner_json_data (snd span)) as [[|]|e0]; rewrite ?Hq;
    [|apply IH | reflexivity].
  destruct citations as [|c more]; [reflexivity|].
  cbn [length firstn]. now rewrite IH.
Qed.

(** *** Registering *)

Lemma register_all_spec cps : forall bib (s : state),
  exists k,
    snd (register_all cps bib s)
    = MkState (html_soup s) (detached s) (stdout s)
              (trace s ++ map CallRegister (firstn k cps))
    /\ (is_ok (fst (register_all cps bib s)) = true -> firstn k cps = cps).
Proof.
  induction cps as [|cp cps IH]; intros bib s; simpl.
  - exists 0. destruct s; simpl. now rewrite app_nil_r.
  - unfold bind, call.
    destruct (register bib cp) as [bib'|e].
    + destruct (IH bib' (log (CallRegister cp) s)) as (k & Hs & Hok).
      exists (S k). rewrite Hs. simpl. rewrite <- app_assoc. simpl.
      split; [reflexivity|]. intros H. now rewrite (Hok H).
    + exists 1. simpl. destruct cps; split; try reflexivity; discriminate.
Qed.

Lemma register_all_result cps : forall (bib : Bibliography) (s : state),
  fst (register_all cps bib s)
  = fold_left (fun b cp => b <~ b ;; register b cp) cps (Ok bib).
Proof.
  induction cps as [|cp cps IH]; intros bib s; [reflexivity|].
  simpl. unfold bind, call.
  destruct (register bib cp) as [bib'|e]; [apply IH|].
  simpl. clear. induction cps as [|cp' cps IH]; [reflexivity | exact IH].
Qed.

(** *** The bibliography *)

Lemma ol_items entries : forall acc,
  fold_left (fun ol citation => append ol (bibliography_item citation))
            entries (Tag "ol" None [] acc)
  = Tag "ol" None [] (acc ++ map bibliography_item entries).
Proof.
  induction entries as [|e es IH]; intros acc; simpl.
  - now rewrite app_nil_r.
  - rewrite IH. now rewrite <- app_assoc.
Qed.

Lemma add_bibliography_eq (bib : Bibliography) (s : state) :
  add_bibliography bib s =
  match bibliography bib with
  | Raise e => (Raise e, log CallBibliography s)
  | Ok [] => (Ok (html_soup s), log CallBibliography s)
  | Ok (e :: es) =>
      let div := bibliography_container (e :: es) in
      (Ok (html_soup s ++ [div]),
       MkState (html_soup s ++ [div]) (detached s) (stdout s)
               (trace s ++ [CallBibliography; CallBibliography; Append div]))
  end.
Proof.
  unfold add_bibliography, bind, call.
  destruct (bibliography bib) as [[|e es]|err]; try reflexivity.
  unfold soup_append, get_soup, new_tag. cbn [log html_soup detached stdout trace].
  unfold bibliography_container. rewrite ol_items. simpl.
  unfold log. cbn [html_soup detached stdout trace].
  rewrite <- !app_assoc. reflexivity.
Qed.

(** What [add_bibliography] does to the state, whatever the engine
    answers. *)
Lemma add_bibliography_state (bib : Bibliography) (s : state) :
  exists tail,
    trace (snd (add_bibliography bib s)) = trace s ++ tail
    /\ html_soup (snd (add_bibliography bib s)) = html_soup s ++ appended tail
    /\ stdout (snd (add_bibliography bib s)) = stdout s
    /\ registrations tail = []
    /\ replacements tail = []
    /\ cite_calls tail = []
    /\ forall out, fst (add_bibliography bib s) = Ok out ->
                   out = html_soup s ++ appended tail.
Proof.
  rewrite add_bibliography_eq.
  destruct (bibliography bib) as [[|e es]|err].
  - exists [CallBibliography]. cbn. rewrite app_nil_r.
    repeat split. now intros out [= <-].
  - exists [CallBibliography; CallBibliography;
            Append (bibliography_container (e :: es))].
    cbn. repeat split. now intros out [= <-].
  - exists [CallBibliography]. cbn. rewrite app_nil_r.
    repeat split. discriminate.
Qed.

End Stages.

(** ** Traces *)

Section Traces.

Lemma registrations_app (t t' : list event) :
  registrations (t ++ t') = registrations t ++ registrations t'.
Proof.
  induction t as [|ev t IH]; [reflexivity|].
  destruct ev; simpl; now rewrite ?IH.
Qed.

Lemma replacements_app (t t' : list event) :
  replacements (t ++ t') = replacements t ++ replacements t'.
Proof.
  induction t as [|ev t IH]; [reflexivity|].
  destruct ev; simpl; now rewrite ?IH.
Qed.

Lemma cite_calls_app (t t' : list event) :
  cite_calls (t ++ t') = cite_calls t ++ cite_calls t'.
Proof.
  induction t as [|ev t IH]; [reflexivity|].
  destruct ev; simpl; now rewrite ?IH.
Qed.

Lemma appended_app (t t' : list event) :
  appended (t ++ t') = appended t ++ appended t'.
Proof.
  induction t as [|ev t IH]; [reflexivity|].
  destruct ev; simpl; now rewrite ?IH.
Qed.

Lemma register_events cps :
  registrations (map CallRegister cps) = cps
  /\ replacements (map CallRegister cps) = []
  /\ cite_calls (map CallRegister cps) = []
  /\ appended (map CallRegister cps) = [].
Proof.
  induction cps as [|cp cps (H1 & H2 & H3 & H4)]; simpl; auto.
  now rewrite H1.
Qed.

Lemma replace_events reps :
  registrations (map replace_event reps) = []
  /\ replacements (map replace_event reps) = reps
  /\ cite_calls (map replace_event reps) = []
  /\ appended (map replace_event reps) = [].
Proof.
  induction reps as [|[p n] reps (H1 & H2 & H3 & H4)]; simpl; auto.
  now rewrite H2.
Qed.

Lemma replacements_In (t : list event) p n :
  In (ReplaceWith p n) t -> replacements t <> [].
Proof.
  induction t as [|ev t IH]; intros Hin; [destruct Hin|].
  destruct Hin as [->|Hin]; [discriminate|].
  destruct ev; simpl; auto; discriminate.
Qed.

Lemma setup_events json_data style :
  registrations (setup_calls json_data style) = []
  /\ replacements (setup_calls json_data style) = []
  /\ cite_calls (setup_calls json_data style) = []
  /\ appended (setup_calls json_data style) = [].
Proof. repeat split. Qed.

(** What the log holds of each kind once the setup, the registrations,
    the replacements and a rest without any of the three are through. *)
Lemma run_log json_data style cps reps (tail : list event) :
  registrations tail = [] -> replacements tail = [] -> cite_calls tail = [] ->
  let t := setup_calls json_data style ++ map CallRegister cps
           ++ map replace_event reps ++ tail in
  registrations t = cps
  /\ replacements t = reps
  /\ cite_calls t = []
  /\ appended t = appended tail.
Proof.
  intros T1 T2 T3 t. subst t.
  destruct (setup_events json_data style) as (S1 & S2 & S3 & S4).
  destruct (register_events cps) as (G1 & G2 & G3 & G4).
  destruct (replace_events reps) as (P1 & P2 & P3 & P4).
  rewrite !registrations_app, !replacements_app, !cite_calls_app,
    !appended_app.
  rewrite S1, S2, S3, S4, G1, G2, G3, G4, P1, P2, P3, P4, T1, T2, T3.
  cbn [app]. rewrite !app_nil_r. auto.
Qed.

End Traces.

(** ** The run as a whole *)

Section Pipeline.
Context {R : PyRuntime} {C : Codec} {E : Citeproc}.

Lemma extract_citations_eq (s : state) :
  extract_citations s = (extracted (html_soup s), s).
Proof. reflexivity. Qed.

Lemma pipeline_stages (citation_style : string) (s : state) :
  add_citations_and_bibliography citation_style s =
  match extracted (html_soup s) with
  | Raise e => (Raise e, s)
  | Ok citations =>
    match prepare_citations_for_citeproc citations with
    | Raise e => (Raise e, s)
    | Ok json_data =>
      let s1 := log (CallCiteProcJSON json_data) s in
      match CiteProcJSON json_data with
      | Raise e => (Raise e, s1)
      | Ok bib_source =>
        let s2 := log (CallCitationStylesStyle citation_style) s1 in
        match CitationStylesStyle citation_style with
        | Raise e => (Raise e, s2)
        | Ok bib_style =>
          let s3 := log CallCitationStylesBibliography s2 in
          match CitationStylesBibliography bib_style bib_source with
          | Raise e => (Raise e, s3)
          | Ok bib =>
            match create_citations_to_register citations with
            | Raise e => (Raise e, s3)
            | Ok cps =>
              match register_all cps bib s3 with
              | (Raise e, s4) => (Raise e, s4)
              | (Ok bib', s4) =>
                match add_citations cps citations bib' s4 with
                | (Raise e, s5) => (Raise e, s5)
                | (Ok _, s5) => add_bibliography bib' s5
                end
              end
            end
          end
        end
      end
    end
  end.
Proof.
  unfold add_citations_and_bibliography.
  unfold bind at 1. rewrite extract_citations_eq.
  destruct (extracted (html_soup s)) as [citations|e]; [|reflexivity].
  unfold bind at 1, lift at 1.
  destruct (prepare_citations_for_citeproc citations) as [json_data|e];
    [|reflexivity].
  cbv zeta. unfold bind at 1, call at 1.
  destruct (CiteProcJSON _) as [bib_source|e]; [|reflexivity].
  unfold bind at 1, call at 1.
  destruct (CitationStylesStyle _) as [bib_style|e]; [|reflexivity].
  unfold bind at 1, call at 1.
  destruct (CitationStylesBibliography _ _) as [bib|e]; [|reflexivity].
  unfold bind at 1, lift at 1.
  destruct (create_citations_to_register _) as [cps|e]; [|reflexivity].
  unfold bind at 1.
  destruct (register_all cps bib _) as [[bib'|e] s4]; [|reflexivity].
  unfold bind at 1.
  destruct (add_citations cps citations bib' s4) as [[out|e] s5]; reflexivity.
Qed.

Lemma registered_ok soup style (bib : Bibliography) cps :
  registered soup style = Ok (bib, cps) ->
  exists citations json_data,
    extracted soup = Ok citations
    /\ prepare_citations_for_citeproc citations = Ok json_data
    /\ create_citations_to_register citations = Ok cps.
Proof.
  unfold registered.
  destruct (extracted soup) as [citations|]; cbn [rbind]; [|discriminate].
  destruct (prepare_citations_for_citeproc citations) as [json_data|] eqn:Hp;
    cbn [rbind]; [|discriminate].
  destruct (CiteProcJSON _) as [src|]; cbn [rbind]; [|discriminate].
  destruct (CitationStylesStyle _) as [st|]; cbn [rbind]; [|discriminate].
  destruct (CitationStylesBibliography _ _) as [bib0|]; cbn [rbind];
    [|discriminate].
  destruct (create_citations_to_register citations) as [cps0|] eqn:Hc;
    cbn [rbind]; [|discriminate].
  destruct (fold_left _ cps0 (Ok bib0)) as [bib'|]; cbn [rbind];
    [|discriminate].
  intros [= <- <-]. exists citations, json_data. auto.
Qed.

(** A run that has registered every group goes on with [add_citations]
    on the soup as it was, and with [add_bibliography] if that returns. *)
Lemma run_registered soup style citations json_data (bib : Bibliography) cps :
  extracted soup = Ok citations ->
  prepare_citations_for_citeproc citations = Ok json_data ->
  registered soup style = Ok (bib, cps) ->
  run soup style
  = match add_citations cps citations bib (ready soup json_data style cps) with
    | (Raise e, s5) => (Raise e, s5)
    | (Ok _, s5) => add_bibliography bib s5
    end.
Proof.
  intros Hex Hprep. unfold registered, run. rewrite pipeline_stages.
  cbn [fresh html_soup]. rewrite Hex. cbn [rbind]. rewrite Hprep.
  cbn [rbind]. cbv zeta.
  destruct (CiteProcJSON _) as [src|e1]; cbn [rbind]; [|discriminate].
  destruct (CitationStylesStyle _) as [st|e2]; cbn [rbind]; [|discriminate].
  destruct (CitationStylesBibliography _ _) as [bib0|e3]; cbn [rbind];
    [|discriminate].
  destruct (create_citations_to_register citations) as [cps0|e4];
    cbn [rbind]; [|discriminate].
  match goal with |- context [register_all cps0 bib0 ?s] => set (s3 := s) end.
  pose proof (register_all_result cps0 bib0 s3) as Hres.
  destruct (register_all_spec cps0 bib0 s3) as (k & Hs4 & Hk).
  destruct (register_all cps0 bib0 s3) as [[bib'|e5] s4];
    cbn [fst snd is_ok] in *; rewrite <- Hres; cbn [rbind]; [|discriminate].
  intros [= <- <-]. rewrite (Hk eq_refl) in Hs4. subst s4 s3.
  reflexivity.
Qed.

(** A run in which something raises before every group is registered
    raises the same, and has left the tree alone. *)
Lemma run_unregistered soup style e :
  registered soup style = Raise e ->
  fst (run soup style) = Raise e
  /\ html_soup (snd (run soup style)) = soup
  /\ stdout (snd (run soup style)) = []
  /\ replacements (trace (snd (run soup style))) = []
  /\ appended (trace (snd (run soup style))) = []
  /\ cite_calls (trace (snd (run soup style))) = [].
Proof.
  unfold registered, run. rewrite pipeline_stages. cbn [fresh html_soup].
  destruct (extracted soup) as [citations|e0]; cbn [rbind];
    [|intros [= <-]; repeat split].
  destruct (prepare_citations_for_citeproc citations) as [json_data|e0];
    cbn [rbind]; [|intros [= <-]; repeat split].
  cbv zeta.
  destruct (CiteProcJSON _) as [src|e1]; cbn [rbind];
    [|intros [= <-]; repeat split].
  destruct (CitationStylesStyle _) as [st|e2]; cbn [rbind];
    [|intros [= <-]; repeat split].
  destruct (CitationStylesBibliography _ _) as [bib|e3]; cbn [rbind];
    [|intros [= <-]; repeat split].
  destruct (create_citations_to_register citations) as [cps|e4];
    cbn [rbind]; [|intros [= <-]; repeat split].
  match goal with |- context [register_all cps bib ?s] => set (s3 := s) end.
  pose proof (register_all_result cps bib s3) as Hres.
  destruct (register_all_spec cps bib s3) as (k & Hs4 & _).
  destruct (register_all cps bib s3) as [[bib'|e5] s4];
    cbn [fst snd] in *; rewrite <- Hres; cbn [rbind]; [discriminate|].
  intros [= <-]. subst s4.
  destruct (register_events (firstn k cps)) as (_ & G2 & G3 & G4).
  subst s3. cbn [log html_soup detached stdout trace].
  rewrite !replacements_app, !appended_app, !cite_calls_app, G2, G3, G4.
  repeat split.
Qed.

(** The state that [add_citations] leaves when it is called in a run. *)
Lemma add_citations_ready soup json_data style cps citations
      (bib : Bibliography) :
  let plan := rewrite_plan (_find_all_citation_spans soup) citations in
  let tree := replace_steps (fst plan) (fresh soup) in
  add_citations cps citations bib (ready soup json_data style cps)
  = (match snd plan with
     | Ok _ => Ok (html_soup tree)
     | Raise e => Raise e
     end,
     MkState (html_soup tree) (detached tree) []
             ((setup_calls json_data style ++ map CallRegister cps)
              ++ map replace_event (fst plan))).
Proof.
  cbv zeta. rewrite add_citations_plan. cbv zeta.
  change (html_soup (ready soup json_data style cps)) with soup.
  set (reps := fst (rewrite_plan (_find_all_citation_spans soup) citations)).
  set (s4 := ready soup json_data style cps).
  destruct (replace_steps_tree reps s4 (fresh soup) eq_refl eq_refl)
    as [Hsoup Hdet].
  pose proof (replace_steps_stdout reps s4) as Hout.
  pose proof (replace_steps_trace reps s4) as Htr.
  change (stdout s4) with (@nil string) in Hout.
  change (trace s4)
    with (setup_calls json_data style ++ map CallRegister cps) in Htr.
  destruct (replace_steps reps s4) as [soup' d' out' t'].
  cbn [html_soup detached stdout trace] in *. subst.
  reflexivity.
Qed.

(** Every run prints nothing, and either stops before [add_citations]
    with the tree as it was, or has registered every group before it
    makes the replacements of its plan, which may be followed by the
    calls and the element of the bibliography. *)
Lemma run_shape soup style :
  let s' := snd (run soup style) in
  stdout s' = [] /\
  ((is_ok (fst (run soup style)) = false
    /\ html_soup s' = soup
    /\ replacements (trace s') = []
    /\ appended (trace s') = []
    /\ cite_calls (trace s') = [])
   \/
   exists citations json_data cps (bib : Bibliography) tail,
     extracted soup = Ok citations
     /\ prepare_citations_for_citeproc citations = Ok json_data
     /\ create_citations_to_register citations = Ok cps
     /\ registered soup style = Ok (bib, cps)
     /\ trace s'
        = setup_calls json_data style ++ map CallRegister cps
          ++ map replace_event
                 (fst (rewrite_plan (_find_all_citation_spans soup) citations))
          ++ tail
     /\ html_soup s'
        = html_soup
            (replace_steps
               (fst (rewrite_plan (_find_all_citation_spans soup) citations))
               (fresh soup))
          ++ appended tail
     /\ registrations tail = []
     /\ replacements tail = []
     /\ cite_calls tail = []
     /\ (forall e,
            snd (rewrite_plan (_find_all_citation_spans soup) citations)
            = Raise e ->
            fst (run soup style) = Raise e /\ tail = [])
     /\ (forall out,
            fst (run soup style) = Ok out ->
            snd (rewrite_plan (_find_all_citation_spans soup) citations)
            = Ok tt
            /\ out = html_soup s'
            /\ exists entries,
                bibliography bib = Ok entries
                /\ appended tail = bibliography_nodes entries)).
Proof.
  cbv zeta.
  destruct (registered soup style) as [[bib cps]|e] eqn:Hreg.
  2:{ destruct (@run_unregistered soup style e Hreg) as (H1 & H2 & H3 & H4 & H5 & H6).
      split; [exact H3|]. left. rewrite H1. auto. }
  destruct (@registered_ok soup style bib cps Hreg) as (citations & json_data & Hex & Hprep & Hcps).
  rewrite (@run_registered soup style citations json_data bib cps Hex Hprep Hreg).
  pose proof (add_citations_ready soup json_data style cps citations bib)
    as Hadd.
  cbv zeta in Hadd. rewrite Hadd. clear Hadd.
  destruct (snd (rewrite_plan (_find_all_citation_spans soup) citations))
    as [[]|e] eqn:Hplan.
  - match goal with |- context [add_bibliography bib ?s] => set (s5 := s) end.
    destruct (add_bibliography_state bib s5)
      as (tail & Htr & Hsoup & Hout & T1 & T2 & T3 & Hret).
    pose proof (add_bibliography_eq bib s5) as Heq.
    split; [rewrite Hout; reflexivity|]. right.
    exists citations, json_data, cps, bib, tail.
    do 3 (split; [assumption|]). split; [reflexivity|].
    split; [rewrite Htr; subst s5; cbn [trace]; now rewrite <- !app_assoc|].
    split; [rewrite Hsoup; reflexivity|].
    do 3 (split; [assumption|]).
    split; [intros e0 He0; rewrite Hplan in He0; discriminate He0|].
    intros out Hok. split; [exact Hplan|].
    split; [rewrite Hsoup; now apply Hret|].
    rewrite Heq in Hok, Hsoup.
    destruct (bibliography bib) as [[|entry entries]|err];
      cbn [fst snd html_soup log] in Hok, Hsoup.
    + exists []. split; [reflexivity|].
      apply app_inv_head with (l := html_soup s5).
      rewrite <- Hsoup. cbn [bibliography_nodes]. now rewrite app_nil_r.
    + exists (entry :: entries). split; [reflexivity|].
      apply app_inv_head with (l := html_soup s5).
      now rewrite <- Hsoup.
    + discriminate.
  - cbn [fst snd html_soup stdout trace].
    split; [reflexivity|]. right.
    exists citations, json_data, cps, bib, [].
    do 3 (split; [assumption|]). split; [reflexivity|].
    split; [now rewrite app_nil_r, <- !app_assoc|].
    split; [now rewrite app_nil_r|].
    do 3 (split; [reflexivity|]).
    split; [|intros out Hok; discriminate Hok].
    intros e0 He0. rewrite Hplan in He0. injection He0 as <-. now split.
Qed.

End Pipeline.

(** ** The tree after the replacements *)

Section Rewrite.
Context {R : PyRuntime} {C : Codec} {E : Citeproc}.
Import Bs4Facts Bs4More.

Lemma qualifying_markers_NoDup (soup : BeautifulSoup) :
  NoDup (map fst (qualifying_markers soup)).
Proof. apply NoDup_map_filter, FindAll.find_all_NoDup. Qed.

Lemma qualifying_markers_valid (soup : BeautifulSoup) p :
  In p (map fst (qualifying_markers soup)) -> get_at p soup <> None.
Proof.
  intros Hin. apply in_map_iff in Hin as ([q n] & <- & Hin).
  apply filter_In in Hin as [Hin _].
  apply FindAll.find_all_valid in Hin. simpl. congruence.
Qed.

Lemma find_all_functional (soup : BeautifulSoup) name filter p n n' :
  In (p, n) (find_all soup name filter) ->
  In (p, n') (find_all soup name filter) -> n = n'.
Proof.
  intros H H'. apply FindAll.find_all_valid in H, H'. congruence.
Qed.

(** A span that does not qualify is at the position of no qualifying
    marker. *)
Lemma not_a_marker (soup : BeautifulSoup) p span :
  In (p, span) (_find_all_citation_spans soup) ->
  qualifies span = false ->
  ~ In p (map fst (qualifying_markers soup)).
Proof.
  intros Hin Hq Hp. apply in_map_iff in Hp as ([q n] & Hq' & Hn).
  simpl in Hq'. subst q.
  apply filter_In in Hn as [Hn Hqual]. simpl in Hqual.
  rewrite (find_all_functional _ _ _ _ _ _ Hn Hin) in Hqual. congruence.
Qed.

(** The replacements of a plan on the spans of a soup are made at the
    first of its qualifying markers. *)
Lemma plan_markers (soup : BeautifulSoup) citations :
  let reps := fst (rewrite_plan (_find_all_citation_spans soup) citations) in
  map fst reps = firstn (length reps) (map fst (qualifying_markers soup))
  /\ length reps <= length citations
  /\ length reps <= length (qualifying_markers soup).
Proof.
  cbv zeta.
  destruct (plan_shape (_find_all_citation_spans soup) citations)
    as (Hpaths & _ & Hlen).
  fold (qualifying_markers soup) in Hpaths.
  split; [exact Hpaths|]. split; [exact Hlen|].
  apply (f_equal (@length path)) in Hpaths.
  rewrite length_map, length_firstn, length_map in Hpaths. lia.
Qed.

(** Replacements at first qualifying markers of a soup: where such a
    marker outside every other qualifying marker stood, the tree holds
    what the marker was replaced by. *)
Lemma replaced_get (soup : BeautifulSoup) (reps : list (path * node)) k :
  map fst reps = firstn k (map fst (qualifying_markers soup)) ->
  forall i p new,
    nth_error reps i = Some (p, new) ->
    top_level soup p = true ->
    get_at p (html_soup (replace_steps reps (fresh soup))) = Some new.
Proof.
  intros Hpaths i p new Hi Htop.
  assert (Hin : forall r, In r (map fst reps) ->
                          In r (map fst (qualifying_markers soup))).
  { intros r Hr. rewrite Hpaths in Hr. eapply in_firstn; eauto. }
  apply replace_steps_get with (k := i).
  - exact Hi.
  - rewrite Hpaths. apply NoDup_firstn, qualifying_markers_NoDup.
  - intros r Hr. apply Hin in Hr.
    apply in_map_iff in Hr as (e & <- & He).
    unfold top_level in Htop. rewrite forallb_forall in Htop.
    specialize (Htop e He). now apply negb_true_iff in Htop.
  - intros d [].
  - apply qualifying_markers_valid, Hin.
    apply nth_error_In in Hi. now apply (in_map fst) in Hi.
Qed.

(** Replacements at qualifying markers leave alone what is apart from
    every qualifying marker. *)
Lemma replaced_frame (soup : BeautifulSoup) (reps : list (path * node)) k q :
  map fst reps = firstn k (map fst (qualifying_markers soup)) ->
  (forall e, In e (qualifying_markers soup) -> apart (fst e) q) ->
  get_at q (html_soup (replace_steps reps (fresh soup))) = get_at q soup.
Proof.
  intros Hpaths Hq. rewrite replace_steps_frame; [reflexivity|].
  intros r Hr. rewrite Hpaths in Hr. apply in_firstn in Hr.
  apply in_map_iff in Hr as (e & <- & He). now apply Hq.
Qed.

Lemma cite_replacements_paths soup texts :
  map fst (cite_replacements soup texts)
  = firstn (length texts) (map fst (qualifying_markers soup)).
Proof.
  unfold cite_replacements. now rewrite map_fst_combine, length_map.
Qed.

Lemma cite_replacements_nth soup texts i p text :
  nth_error (map fst (qualifying_markers soup)) i = Some p ->
  nth_error texts i = Some text ->
  nth_error (cite_replacements soup texts) i = Some (p, cite_tag text).
Proof.
  intros Hp Ht. apply nth_error_combine; [exact Hp|].
  now rewrite nth_error_map, Ht.
Qed.

Lemma cite_replacements_length soup texts :
  length (cite_replacements soup texts)
  = Nat.min (length (qualifying_markers soup)) (length texts).
Proof.
  unfold cite_replacements. now rewrite length_combine, !length_map.
Qed.

Lemma get_at_prefix_valid (p : path) :
  forall q (l : list node),
    strict_prefix p q = true -> p <> [] -> get_at q l <> None ->
    get_at p l <> None.
Proof.
  induction p as [|i p IH]; intros q l Hpq Hne Hq; [now destruct Hne|].
  destruct q as [|j q]; [discriminate|].
  simpl in Hpq. apply andb_true_iff in Hpq as [Hij Hpq].
  apply Nat.eqb_eq in Hij. subst j.
  destruct p as [|a p'].
  - simpl in *. destruct (nth_error l i); [discriminate|].
    now destruct Hq.
  - destruct q as [|b q']; [discriminate|].
    rewrite get_at_cons in *.
    destruct (nth_error l i) as [n|]; [|now destruct Hq].
    apply (IH (b :: q')); auto. discriminate.
Qed.

Lemma same_head_span n n0 :
  same_head n n0 ->
  is_citation_span n = is_citation_span n0
  /\ _has_inner_json_data n = _has_inner_json_data n0.
Proof.
  destruct n as [s|name ns attrs cs], n0 as [s0|name0 ns0 attrs0 cs0];
    simpl; try contradiction.
  - intros ->. split; reflexivity.
  - intros (-> & -> & ->). split; reflexivity.
Qed.

Lemma same_head_trans n n1 n0 :
  same_head n n1 -> same_head n1 n0 -> same_head n n0.
Proof.
  destruct n, n1, n0; simpl; try contradiction; try congruence.
  intros (-> & -> & ->) (-> & -> & ->). auto.
Qed.

Lemma cite_tag_inert text : inert (cite_tag text).
Proof.
  split; [reflexivity|]. intros rest n Hget.
  destruct rest as [|k rest]; [discriminate|].
  change (contents_of (cite_tag text)) with [NavigableString text] in Hget.
  destruct k as [|k].
  - destruct rest as [|j rest].
    + simpl in Hget. now injection Hget as <-.
    + rewrite get_at_cons in Hget. cbn [nth_error contents_of] in Hget.
      rewrite get_at_nil_contents in Hget. discriminate.
  - destruct k, rest; simpl in Hget; discriminate.
Qed.

Lemma replace_step_spans_from soup (s : state) (rep : path * node) :
  fst rep <> [] ->
  inert (snd rep) ->
  spans_from soup (detached s) (html_soup s) ->
  spans_from soup (detached (replace_step s rep))
             (html_soup (replace_step s rep)).
Proof.
  destruct rep as [p new]. cbn [fst snd]. intros Hp [Hnew Hin] Hinv.
  rewrite replace_step_detached, replace_step_soup. cbn [fst snd].
  destruct (existsb (fun d => strict_prefix d p) (detached s)) eqn:Hex.
  - apply existsb_exists in Hex as (d0 & Hd0 & Hd0p).
    intros q n Hget Hspan.
    destruct (Hinv q n Hget Hspan) as (n0 & Hn0 & Hhead & Hdone).
    exists n0. split; [exact Hn0|]. split; [exact Hhead|].
    intros d [<-|Hd]; [|now apply Hdone].
    destruct (Hdone d0 Hd0) as [Hne Hpre]. split.
    + intros ->. congruence.
    + destruct (strict_prefix p q) eqn:Hpq; [|reflexivity].
      rewrite (@strict_prefix_trans d0 p q Hd0p Hpq) in Hpre. discriminate.
  - intros q n Hget Hspan.
    destruct (path_cases p q) as [<-|[Hpq|[Hqp|(Hne & Hpq & Hqp)]]].
    + destruct (get_at p (html_soup s)) as [old|] eqn:Hold.
      * rewrite get_at_replace_same in Hget by congruence.
        injection Hget as <-. congruence.
      * rewrite replace_at_invalid in Hget by exact Hold. congruence.
    + assert (Hvalid : get_at p (html_soup s) <> None).
      { destruct (get_at p (html_soup s)) as [old|] eqn:Hold; [discriminate|].
        rewrite replace_at_invalid in Hget by exact Hold.
        exfalso.
        refine (@get_at_prefix_valid p q (html_soup s) Hpq Hp _ Hold).
        congruence. }
      destruct (@get_at_replace_below p new q (html_soup s) Hpq Hvalid)
        as (rest & _ & Hrest).
      rewrite Hrest in Hget. rewrite (Hin _ _ Hget) in Hspan. discriminate.
    + destruct (@get_at_replace_above p new q (html_soup s) n Hqp Hget)
        as (n1 & Hn1 & Hhead1).
      destruct (@same_head_span n n1 Hhead1) as [Hs _].
      rewrite Hs in Hspan.
      destruct (Hinv q n1 Hn1 Hspan) as (n0 & Hn0 & Hhead & Hdone).
      exists n0. split; [exact Hn0|].
      split; [exact (@same_head_trans n n1 n0 Hhead1 Hhead)|].
      intros d [<-|Hd]; [|now apply Hdone]. split.
      * intros ->. rewrite strict_prefix_irrefl in Hqp. discriminate.
      * destruct (strict_prefix p q) eqn:Hdq; [|reflexivity].
        pose proof (@strict_prefix_trans p q p Hdq Hqp) as Habs.
        rewrite strict_prefix_irrefl in Habs. discriminate.
    + rewrite get_at_replace_other in Hget by auto.
      destruct (Hinv q n Hget Hspan) as (n0 & Hn0 & Hhead & Hdone).
      exists n0. split; [exact Hn0|]. split; [exact Hhead|].
      intros d [<-|Hd]; [|now apply Hdone]. now split.
Qed.

Lemma replace_steps_spans_from soup reps : forall s : state,
  Forall (fun rep => fst rep <> [] /\ inert (snd rep)) reps ->
  spans_from soup (detached s) (html_soup s) ->
  spans_from soup (detached (replace_steps reps s))
             (html_soup (replace_steps reps s)).
Proof.
  induction reps as [|rep reps IH]; intros s Hall Hinv; [exact Hinv|].
  inversion Hall as [|? ? [Hp Hnew] Hrest]; subst.
  rewrite replace_steps_cons. apply IH; [exact Hrest|].
  now apply replace_step_spans_from.
Qed.

Lemma spans_from_self soup : spans_from soup [] soup.
Proof.
  intros q n Hget _. exists n. split; [exact Hget|].
  split; [apply same_head_refl|]. intros d [].
Qed.

Lemma cite_replacements_inert soup texts :
  Forall (fun rep => fst rep <> [] /\ inert (snd rep))
         (cite_replacements soup texts).
Proof.
  apply Forall_forall. intros [p new] Hin. cbn [fst snd].
  unfold cite_replacements in Hin.
  pose proof (in_combine_l _ _ _ _ Hin) as Hp.
  pose proof (in_combine_r _ _ _ _ Hin) as Hnew.
  split.
  - pose proof (qualifying_markers_valid soup p Hp) as Hvalid.
    intros ->. now apply Hvalid.
  - apply in_map_iff in Hnew as (c & <- & _). apply cite_tag_inert.
Qed.

(** The citation spans of the tree in which a text stands for every
    qualifying marker: each is a citation span of the soup, with the name
    and the attributes it had, at a position that is not the position of
    a qualifying marker. *)
Lemma rewritten_spans soup texts :
  length texts = length (qualifying_markers soup) ->
  forall q n,
    In (q, n) (_find_all_citation_spans
                 (html_soup (replace_steps (cite_replacements soup texts)
                                           (fresh soup)))) ->
    exists n0,
      In (q, n0) (_find_all_citation_spans soup)
      /\ same_head n n0
      /\ ~ In q (map fst (qualifying_markers soup)).
Proof.
  intros Hlen q n Hin.
  pose proof (FindAll.find_all_valid _ _ _ _ _ Hin) as Hget.
  assert (Hspan : is_citation_span n = true).
  { unfold _find_all_citation_spans, find_all in Hin.
    now apply filter_In in Hin as [_ Hspan]. }
  pose proof (@replace_steps_spans_from
                soup (cite_replacements soup texts) (fresh soup)
                (cite_replacements_inert soup texts)
                (spans_from_self soup)) as Hinv.
  destruct (Hinv q n Hget Hspan) as (n0 & Hn0 & Hhead & Hdone).
  exists n0. split; [|split; [exact Hhead|]].
  - apply find_all_complete; [exact Hn0|].
    destruct (@same_head_span n n0 Hhead) as [Hs _].
    unfold is_citation_span in *. now rewrite <- Hs.
  - intros Hq.
    assert (Hq' : In q (map fst (cite_replacements soup texts))).
    { rewrite cite_replacements_paths, Hlen.
      rewrite <- (length_map fst (qualifying_markers soup)), firstn_all.
      exact Hq. }
    apply (replace_steps_detached _ (fresh soup)) in Hq'.
    now destruct (Hdone q Hq').
Qed.

Lemma extract_loop_nothing (spans : list (path * node)) :
  Forall has_data spans ->
  Forall (fun e => qualifies (snd e) = false) spans ->
  extract_loop spans [] = Ok [].
Proof.
  induction spans as [|span rest IH]; intros Hdata Hnone; [reflexivity|].
  inversion Hdata as [|? ? Hd Hdata']; subst.
  inversion Hnone as [|? ? Hq Hnone']; subst.
  simpl. unfold extract_one. unfold has_data in Hd. unfold qualifies in Hq.
  destruct (_has_inner_json_data (snd span)) as [[|]|e];
    try discriminate. cbn [rbind]. now apply IH.
Qed.

(** Once a text stands for every qualifying marker, the tree holds no
    qualifying marker, and extraction on it returns no group. *)
Lemma no_marker_after soup texts :
  Forall has_data (_find_all_citation_spans soup) ->
  length texts = length (qualifying_markers soup) ->
  let tree := html_soup (replace_steps (cite_replacements soup texts)
                                       (fresh soup)) in
  qualifying_markers tree = []
  /\ Forall has_data (_find_all_citation_spans tree)
  /\ extracted tree = Ok [].
Proof.
  intros Hdata Hlen tree.
  assert (Hspans : forall e,
             In e (_find_all_citation_spans tree) ->
             has_data e /\ qualifies (snd e) = false).
  { intros [q n] Hin.
    destruct (@rewritten_spans soup texts Hlen q n Hin)
      as (n0 & Hin0 & Hhead & Hnot).
    destruct (@same_head_span n n0 Hhead) as [_ Hsame].
    rewrite Forall_forall in Hdata. specialize (Hdata _ Hin0).
    unfold has_data, qualifies in *. cbn [snd] in *. rewrite Hsame.
    split; [exact Hdata|].
    destruct (_has_inner_json_data n0) as [[|]|e] eqn:Hn0; try reflexivity.
    exfalso. apply Hnot. apply in_map_iff. exists (q, n0).
    split; [reflexivity|]. apply filter_In. split; [exact Hin0|].
    unfold qualifies. cbn [snd]. now rewrite Hn0. }
  assert (Hdata' : Forall has_data (_find_all_citation_spans tree))
    by (apply Forall_forall; intros e He; now apply Hspans).
  assert (Hnone : Forall (fun e => qualifies (snd e) = false)
                         (_find_all_citation_spans tree))
    by (apply Forall_forall; intros e He; now apply Hspans).
  split; [|split; [exact Hdata'|]].
  - unfold qualifying_markers.
    clear -Hnone. induction Hnone as [|e l He _ IH]; [reflexivity|].
    simpl. now rewrite He.
  - now apply extract_loop_nothing.
Qed.

(** *** What the bibliography adds to the tree *)

Lemma descendants_from_none (P : node -> bool) (l : list node) :
  (forall c, In c l ->
             P c = false
             /\ forall e, In e (descendants c) -> P (snd e) = false) ->
  forall i e, In e (descendants_from i l) -> P (snd e) = false.
Proof.
  induction l as [|c l IH]; intros Hl i e Hin; [destruct Hin|].
  destruct (Hl c (or_introl eq_refl)) as [Hc Hdesc].
  simpl in Hin. destruct Hin as [<-|Hin]; [exact Hc|].
  apply in_app_or in Hin as [Hin|Hin].
  - apply in_map_iff in Hin as (e' & <- & He').
    unfold under. cbn [snd]. now apply Hdesc.
  - apply (IH (fun c' Hc' => Hl c' (or_intror Hc')) (S i) e Hin).
Qed.

Lemma container_elements name filter entries :
  ~ In name ["div"; "h1"; "ol"; "li"] ->
  forall i e,
    In e (descendants_from i (bibliography_nodes entries)) ->
    tag_matches name filter (snd e) = false.
Proof.
  intros Hname.
  assert (Hneq : forall tag ns attrs cs,
             In tag ["div"; "h1"; "ol"; "li"] ->
             tag_matches name filter (Tag tag ns attrs cs) = false).
  { intros tag ns attrs cs Htag. simpl.
    destruct (String.eqb tag name) eqn:Heq; [|reflexivity].
    apply String.eqb_eq in Heq. subst. contradiction. }
  assert (Hstr : forall s i e,
             In e (descendants_from i [NavigableString s]) ->
             tag_matches name filter (snd e) = false).
  { intros s i e [<-|[]]. reflexivity. }
  assert (Hitems : forall es i e,
             In e (descendants_from i (map bibliography_item es)) ->
             tag_matches name filter (snd e) = false).
  { intros es. apply descendants_from_none. intros c Hc.
    apply in_map_iff in Hc as (entry & <- & _).
    unfold bibliography_item, new_tag, set_string.
    split; [apply Hneq; simpl; auto|].
    rewrite descendants_unfold. apply Hstr. }
  destruct entries as [|entry entries]; [intros i e []|].
  apply descendants_from_none. intros c [<-|[]].
  unfold bibliography_container.
  split; [apply Hneq; simpl; auto|].
  rewrite descendants_unfold. apply descendants_from_none.
  intros c [<-|[<-|[]]].
  - split; [apply Hneq; simpl; auto|].
    rewrite descendants_unfold. apply Hstr.
  - split; [apply Hneq; simpl; auto|].
    rewrite descendants_unfold. apply Hitems.
Qed.

Lemma find_all_with_bibliography (soup : BeautifulSoup) entries
        name filter :
  ~ In name ["div"; "h1"; "ol"; "li"] ->
  find_all (soup ++ bibliography_nodes entries) name filter
  = find_all soup name filter.
Proof.
  intros Hname. unfold find_all.
  rewrite descendants_from_app, filter_app.
  replace (List.filter _ (descendants_from (0 + length soup)
                                           (bibliography_nodes entries)))
    with (@nil (path * node)); [apply app_nil_r|].
  symmetry.
  pose proof (container_elements filter entries Hname (0 + length soup))
    as Hnone.
  induction (descendants_from (0 + length soup) (bibliography_nodes entries))
    as [|e l IH]; [reflexivity|].
  simpl. rewrite (Hnone e (or_introl eq_refl)).
  apply IH. intros e' He'. apply Hnone. now right.
Qed.

Lemma span_is_no_container_tag : ~ In "span" ["div"; "h1"; "ol"; "li"].
Proof. simpl. intros [H|[H|[H|[H|[]]]]]; discriminate H. Qed.

(** The citation spans of a tree are those of the tree without the
    bibliography. *)
Lemma spans_with_bibliography (soup : BeautifulSoup) entries :
  _find_all_citation_spans (soup ++ bibliography_nodes entries)
  = _find_all_citation_spans soup.
Proof.
  unfold _find_all_citation_spans.
  apply find_all_with_bibliography, span_is_no_container_tag.
Qed.

End Rewrite.

(** ** The item pool and the citations to register *)

Lemma Forall2_compose {A B D} (P : A -> B -> Prop) (Q : B -> D -> Prop)
      (l : list A) (l' : list B) (l'' : list D) :
  Forall2 P l l' -> Forall2 Q l' l'' ->
  Forall2 (fun a c => exists b, P a b /\ Q b c) l l''.
Proof.
  intros H. revert l''.
  induction H as [|a b l l' Hab _ IH]; intros l'' H';
    inversion H' as [|? c ? l0 Hbc Hrest]; subst; constructor; eauto.
Qed.

Lemma Forall2_factor {A B D} (P : A -> B -> Prop) (Q : B -> D -> Prop)
      (l : list A) (l'' : list D) :
  Forall2 (fun a c => exists b, P a b /\ Q b c) l l'' ->
  exists l', Forall2 P l l' /\ Forall2 Q l' l''.
Proof.
  induction 1 as [|a c l l'' (b & Hab & Hbc) _ (l' & H1 & H2)].
  - exists []. split; constructor.
  - exists (b :: l'). split; constructor; assumption.
Qed.

Lemma Forall2_Exists {A B} (P : A -> B -> Prop) (Q : A -> Prop)
      (l : list A) (l' : list B) :
  Forall2 P l l' -> Exists Q l -> exists a b, Q a /\ P a b.
Proof.
  induction 1 as [|a b l l' Hab _ IH]; intros Hex;
    inversion Hex as [? ? Ha|? ? Hl]; subst; eauto.
Qed.

Lemma Forall2_In_l {A B} (P : A -> B -> Prop) (l : list A) (l' : list B) a :
  Forall2 P l l' -> In a l -> exists b, In b l' /\ P a b.
Proof.
  induction 1 as [|a0 b l l' Hab _ IH]; intros Hin; [destruct Hin|].
  destruct Hin as [->|Hin].
  - exists b. split; [now left | exact Hab].
  - destruct (IH Hin) as (b' & Hb' & Hab'). exists b'. split; [now right|].
    exact Hab'.
Qed.

Section ItemPool.
Context {R : PyRuntime}.

Lemma items_of_ok (citation_group : json) (items : list json) :
  items_of citation_group = Ok items <->
  exists v, getitem citation_group "citationItems" = Ok v
            /\ iterate v = Ok items.
Proof.
  unfold items_of.
  destruct (getitem citation_group "citationItems") as [v|e]; cbn [rbind].
  - split; [intros H; now exists v | now intros (v' & [= <-] & H)].
  - split; [discriminate | now intros (v' & Habs & _)].
Qed.

(** The records of a group: the [itemData] of each of its items. *)
Lemma records_of_items (citation_group : json) (records : list json) :
  records_of citation_group = Ok records <->
  exists items,
    items_of citation_group = Ok items
    /\ Forall2 (fun item data => getitem item "itemData" = Ok data)
               items records.
Proof.
  unfold records_of.
  destruct (items_of citation_group) as [items|e]; cbn [rbind].
  - rewrite for_append_Forall2. split.
    + intros H. now exists items.
    + now intros (items' & [= <-] & H).
  - split; [discriminate|]. now intros (items' & Habs & _).
Qed.

(** One turn of the outer loop of [prepare_citations_for_citeproc] adds
    the records of the group to the pool. *)
Lemma prepare_step (g : json) (rest acc : list json) :
  prepare_loop (g :: rest) acc
  = (records <~ records_of g ;; prepare_loop rest (acc ++ records)).
Proof.
  cbn [prepare_loop]. unfold records_of, items_of.
  destruct (getitem g "citationItems") as [v|e]; cbn [rbind]; [|reflexivity].
  destruct (iterate v) as [items|e]; cbn [rbind]; [|reflexivity].
  rewrite for_append_acc.
  destruct (for_append _ items []); reflexivity.
Qed.

Lemma prepare_loop_acc (citations : list json) : forall acc,
  prepare_loop citations acc
  = match prepare_loop citations [] with
    | Ok pool => Ok (acc ++ pool)
    | Raise e => Raise e
    end.
Proof.
  induction citations as [|g citations IH]; intros acc.
  - cbn [prepare_loop]. now rewrite app_nil_r.
  - rewrite !prepare_step.
    destruct (records_of g) as [records|e]; cbn [rbind]; [|reflexivity].
    rewrite (IH (acc ++ records)), (IH ([] ++ records)).
    destruct (prepare_loop citations []); [|reflexivity].
    now rewrite <- app_assoc.
Qed.

Lemma prepare_cons (g : json) (rest : list json) :
  prepare_citations_for_citeproc (g :: rest)
  = (records <~ records_of g ;;
     pool <~ prepare_citations_for_citeproc rest ;;
     Ok (records ++ pool)).
Proof.
  unfold prepare_citations_for_citeproc. rewrite prepare_step.
  destruct (records_of g) as [records|e]; cbn [rbind]; [|reflexivity].
  now rewrite prepare_loop_acc.
Qed.

Lemma prepare_pools (citations : list json) : forall pool,
  prepare_citations_for_citeproc citations = Ok pool <->
  exists pools,
    Forall2 (fun g records => records_of g = Ok records) citations pools
    /\ pool = concat pools.
Proof.
  induction citations as [|g citations IH]; intros pool.
  - split.
    + intros [= <-]. exists []. split; [constructor | reflexivity].
    + intros (pools & H & ->). inversion H. reflexivity.
  - rewrite prepare_cons.
    destruct (records_of g) as [records|e] eqn:Hg; cbn [rbind].
    + destruct (prepare_citations_for_citeproc citations) as [rest|e] eqn:Hrest;
        cbn [rbind].
      * split.
        -- intros [= <-]. destruct (proj1 (IH rest) eq_refl) as (pools & H & ->).
           exists (records :: pools). split; [now constructor | reflexivity].
        -- intros (pools & H & ->).
           inversion H as [|? recs ? pools' Hrecs Hpools]; subst.
           rewrite Hg in Hrecs. injection Hrecs as <-.
           assert (Hr : Ok rest = Ok (concat pools'))
             by (apply IH; now exists pools').
           injection Hr as ->. reflexivity.
      * split; [discriminate|].
        intros (pools & H & ->).
        inversion H as [|? recs ? pools' Hrecs Hpools]; subst.
        assert (Hr : Raise e = Ok (concat pools'))
          by (apply IH; now exists pools').
        discriminate Hr.
    + split; [discriminate|].
      intros (pools & H & ->).
      inversion H as [|? recs ? pools' Hrecs Hpools]; subst.
      rewrite Hg in Hrecs. discriminate.
Qed.

Lemma prepare_app (citations more : list json) :
  prepare_citations_for_citeproc (citations ++ more)
  = (pool <~ prepare_citations_for_citeproc citations ;;
     pool' <~ prepare_citations_for_citeproc more ;;
     Ok (pool ++ pool')).
Proof.
  induction citations as [|g citations IH].
  - cbn [app rbind].
    change (prepare_citations_for_citeproc []) with (@Ok (list json) []).
    cbn [rbind app].
    destruct (prepare_citations_for_citeproc more); reflexivity.
  - cbn [app]. rewrite !prepare_cons, IH.
    destruct (records_of g) as [records|e]; cbn [rbind]; [|reflexivity].
    destruct (prepare_citations_for_citeproc citations) as [pool|e];
      cbn [rbind]; [|reflexivity].
    destruct (prepare_citations_for_citeproc more) as [pool'|e];
      cbn [rbind]; [|reflexivity].
    now rewrite app_assoc.
Qed.

(** X1.  When [prepare_citations_for_citeproc] returns, the item pool is
    the concatenation of the records of the groups, group after group and
    record after record: nothing is dropped, reordered or merged, there
    is one record for each item, and the pool of two lists of groups one
    after the other is the pool of the first followed by the pool of the
    second.  It returns exactly when every group has its items and every
    item its record. *)
Theorem item_pool_is_concatenation (citations more : list json) :
  (forall pool,
      prepare_citations_for_citeproc citations = Ok pool <->
      exists pools,
        Forall2 (fun g records => records_of g = Ok records) citations pools
        /\ pool = concat pools)
  /\ prepare_citations_for_citeproc (citations ++ more)
     = (pool <~ prepare_citations_for_citeproc citations ;;
        pool' <~ prepare_citations_for_citeproc more ;;
        Ok (pool ++ pool'))
  /\ (forall pool,
         prepare_citations_for_citeproc citations = Ok pool ->
         exists itemss,
           Forall2 (fun g items => items_of g = Ok items) citations itemss
           /\ length pool = list_sum (map (@length json) itemss)).
Proof.
  split; [apply prepare_pools|]. split; [apply prepare_app|].
  intros pool Hpool. apply prepare_pools in Hpool as (pools & Hpools & ->).
  clear more. induction Hpools as [|g records citations pools Hg _ IH].
  - exists []. split; [constructor | reflexivity].
  - destruct IH as (itemss & Hitems & Hlen).
    apply records_of_items in Hg as (items & Hi & Hrecs).
    exists (items :: itemss). split; [now constructor|].
    cbn [concat map list_sum]. rewrite length_app, Hlen.
    now rewrite (Forall2_length Hrecs).
Qed.

(** *** The citations to register *)

Lemma item_registers (citation_item : json) (item : CpCitationItem) :
  item_to_register citation_item = Ok item <->
  exists data,
    getitem citation_item "itemData" = Ok data /\ keyed data item.
Proof.
  unfold item_to_register, keyed.
  destruct (getitem citation_item "itemData") as [data|e]; cbn [rbind].
  - destruct (getitem data "id") as [v|e] eqn:Hid; cbn [rbind].
    + split.
      * intros [= <-]. exists data. split; [reflexivity|].
        exists v. split; [exact Hid | reflexivity].
      * intros (data' & [= <-] & v' & Hv' & Hkey).
        rewrite Hid in Hv'. injection Hv' as <-.
        destruct item as [k]. cbn [key] in Hkey. now subst.
    + split; [discriminate|].
      intros (data' & [= <-] & v' & Habs & _).
      rewrite Hid in Habs. discriminate.
  - split; [discriminate|]. now intros (data' & Habs & _).
Qed.

Lemma group_registers (g : json) (cp : CpCitation) :
  group_to_register g = Ok cp <-> registers_as g cp.
Proof.
  unfold registers_as. split.
  - unfold group_to_register.
    destruct (getitem g "citationItems") as [v|e] eqn:Hv; cbn [rbind];
      [|discriminate].
    destruct (iterate v) as [items|e] eqn:Hitems; cbn [rbind];
      [|discriminate].
    destruct (for_append item_to_register items []) as [cis|e] eqn:Hfor;
      cbn [rbind]; [|discriminate].
    intros [= <-]. apply for_append_Forall2 in Hfor.
    assert (Hmid : Forall2 (fun item ci =>
                              exists data,
                                getitem item "itemData" = Ok data
                                /\ keyed data ci) items cis).
    { eapply Forall2_impl; [|exact Hfor].
      intros a b Hab. now apply item_registers. }
    apply Forall2_factor in Hmid as (records & H1 & H2).
    exists records. split; [|exact H2].
    apply records_of_items. exists items. split; [|exact H1].
    apply items_of_ok. now exists v.
  - intros (records & Hrecs & Hkeys).
    apply records_of_items in Hrecs as (items & Hitems & Hdata).
    apply items_of_ok in Hitems as (v & Hv & Hiter).
    unfold group_to_register. rewrite Hv. cbn [rbind].
    rewrite Hiter. cbn [rbind].
    assert (Hfor : for_append item_to_register items [] = Ok (cites cp)).
    { apply for_append_Forall2.
      pose proof (Forall2_compose Hdata Hkeys) as Hmid.
      eapply Forall2_impl; [|exact Hmid].
      intros a b Hab. now apply item_registers. }
    rewrite Hfor. cbn [rbind]. now destruct cp.
Qed.

Lemma create_citations_Forall2 (citations : list json)
      (cps : list CpCitation) :
  create_citations_to_register citations = Ok cps
  <-> Forall2 registers_as citations cps.
Proof.
  change (create_citations_to_register citations)
    with (for_append group_to_register citations []).
  rewrite for_append_Forall2.
  split; intros H; (eapply Forall2_impl; [|exact H]);
    intros g cp Hg; now apply group_registers.
Qed.

(** X2.  [create_citations_to_register] returns exactly when every group
    has its items, every item its record, and every record an [id], and
    what it returns has one citation for each group, in the order of the
    groups, with one item for each record of the group, in the order of
    the records, whose key is [str] of the record's [id] in lower case,
    as [citeproc.CitationItem] keeps it. *)
Theorem citations_to_register_spec (citations : list json)
        (cps : list CpCitation) :
  create_citations_to_register citations = Ok cps
  <-> Forall2 registers_as citations cps.
Proof. apply create_citations_Forall2. Qed.

Lemma Forall2_concat_flat_map {A B X} (P : A -> B -> Prop)
      (g : X -> list B) (ls : list (list A)) (l' : list X) :
  Forall2 (fun l x => Forall2 P l (g x)) ls l' ->
  Forall2 P (concat ls) (flat_map g l').
Proof.
  induction 1 as [|l x ls l' Hlx _ IH]; simpl; [constructor|].
  now apply Forall2_app.
Qed.

(** X3.  The keys that are registered and the records that the source is
    built from go together: when the citations to register are built,
    the item pool is built as well, and the k-th key of all the items,
    read group after group, is [str] of the [id] of the k-th record of
    the pool, in lower case. *)
Theorem keys_match_item_pool (citations : list json)
        (cps : list CpCitation) :
  create_citations_to_register citations = Ok cps ->
  exists pool,
    prepare_citations_for_citeproc citations = Ok pool
    /\ Forall2 keyed pool (flat_map cites cps).
Proof.
  intros H. apply create_citations_Forall2 in H.
  unfold registers_as in H.
  apply Forall2_factor in H as (pools & Hpools & Hkeys).
  exists (concat pools). split.
  - apply prepare_pools. now exists pools.
  - now apply Forall2_concat_flat_map.
Qed.

(** *** A record without an identifier *)

Lemma create_stops_on_missing_id (citations : list json) :
  Exists group_lacks_id citations ->
  is_ok (create_citations_to_register citations) = false.
Proof.
  intros Hex.
  destruct (create_citations_to_register citations) as [cps|e] eqn:Hcps;
    [|reflexivity].
  exfalso. apply create_citations_Forall2 in Hcps.
  destruct (Forall2_Exists Hcps Hex)
    as (g & cp & (items & Hitems & Hlacks) & records & Hrecs & Hkeys).
  apply records_of_items in Hrecs as (items' & Hitems' & Hdata).
  rewrite Hitems in Hitems'. injection Hitems' as <-.
  pose proof (Forall2_compose Hdata Hkeys) as Hmid.
  destruct (Forall2_Exists Hmid Hlacks)
    as (item & ci & (d & Hd & Hnone) & data & Hdata' & v & Hv & _).
  rewrite Hd in Hdata'. injection Hdata' as <-.
  cbn [getitem] in Hv. congruence.
Qed.

Lemma create_error_is_missing_id (citations pool : list json) e :
  prepare_citations_for_citeproc citations = Ok pool ->
  Forall (fun data => is_dict data = true) pool ->
  create_citations_to_register citations = Raise e ->
  e = KeyError "id".
Proof.
  intros Hpool Hdicts Hraise.
  apply prepare_pools in Hpool as (pools & Hpools & ->).
  change (create_citations_to_register citations)
    with (for_append group_to_register citations []) in Hraise.
  apply for_append_raised in Hraise as (g & Hg & Hraise).
  destruct (Forall2_In_l _ Hpools Hg) as (records & Hin & Hrecs).
  apply records_of_items in Hrecs as (items & Hitems & Hdata).
  apply items_of_ok in Hitems as (v & Hv & Hiter).
  unfold group_to_register in Hraise. rewrite Hv in Hraise.
  cbn [rbind] in Hraise. rewrite Hiter in Hraise. cbn [rbind] in Hraise.
  destruct (for_append item_to_register items []) as [cis|e'] eqn:Hfor;
    cbn [rbind] in Hraise; [discriminate|].
  injection Hraise as ->.
  apply for_append_raised in Hfor as (item & Hitem & Hfor).
  destruct (Forall2_In_l _ Hdata Hitem) as (data & Hdin & Hget).
  unfold item_to_register in Hfor. rewrite Hget in Hfor.
  cbn [rbind] in Hfor.
  assert (Hdict : is_dict data = true).
  { rewrite Forall_forall in Hdicts. apply Hdicts.
    apply in_concat. eauto. }
  destruct data; try discriminate Hdict. cbn [getitem] in Hfor.
  destruct (dict_get "id" d) as [cit_id|e'] eqn:Hid; cbn [rbind] in Hfor;
    [discriminate|].
  injection Hfor as <-. exact (dict_get_raises _ _ Hid).
Qed.

End ItemPool.

(** ** Runs that return, and runs that stop at the extraction *)

Section Runs.
Context {R : PyRuntime} {C : Codec} {E : Citeproc}.
Import Bs4Facts.

(** A run that returns: what it returns, and what it did on the way. *)
Lemma run_ok soup style out (s' : state) :
  run soup style = (Ok out, s') ->
  exists citations cps (bib : Bibliography) entries texts,
    extracted soup = Ok citations
    /\ registered soup style = Ok (bib, cps)
    /\ bibliography bib = Ok entries
    /\ Forall2 cited_as citations texts
    /\ length citations = length (qualifying_markers soup)
    /\ out = html_soup (replace_steps (cite_replacements soup texts)
                                      (fresh soup))
             ++ bibliography_nodes entries
    /\ html_soup s' = out
    /\ stdout s' = []
    /\ registrations (trace s') = cps
    /\ replacements (trace s') = cite_replacements soup texts
    /\ cite_calls (trace s') = []
    /\ appended (trace s') = bibliography_nodes entries.
Proof.
  intros Hrun.
  destruct (run_shape soup style) as [Hout Hcases]. rewrite Hrun in *.
  cbn [fst snd is_ok] in *.
  destruct Hcases
    as [(Habs & _)|(citations & json_data & cps & bib & tail & Hex & Hprep
                    & Hcps & Hreg & Htr & Hsoup & T1 & T2 & T3 & _ & Hret)];
    [discriminate|].
  destruct (Hret out eq_refl) as (Hplan & Hout' & entries & Hbib & Htail).
  destruct (extract_loop_ok _ Hex) as [_ Hlen].
  fold (qualifying_markers soup) in Hlen.
  destruct (plan_full _ _ Hplan) as (_ & _ & texts & Htexts & Hreps).
  fold (qualifying_markers soup) in Htexts, Hreps.
  rewrite <- Hlen, firstn_all in Htexts.
  fold (cite_replacements soup texts) in Hreps.
  rewrite Hreps in Htr, Hsoup.
  destruct (run_log json_data style cps (cite_replacements soup texts)
                    tail T1 T2 T3) as (L1 & L2 & L3 & L4).
  exists citations, cps, bib, entries, texts.
  rewrite Htr, Hout', Hsoup, Htail in *.
  repeat split; auto.
Qed.

Lemma run_extraction_raises soup style e :
  extracted soup = Raise e -> run soup style = (Raise e, fresh soup).
Proof.
  intros Hex. unfold run. rewrite pipeline_stages. cbn [fresh html_soup].
  now rewrite Hex.
Qed.

Lemma extract_loop_raises spans : forall acc,
  Exists (fun e => is_ok (extract_one (snd e)) = false) spans ->
  is_ok (extract_loop spans acc) = false.
Proof.
  induction spans as [|span rest IH]; intros acc Hex; [inversion Hex|].
  simpl. destruct (extract_one (snd span)) as [[c|]|e] eqn:Hone; simpl;
    try reflexivity;
    (inversion Hex as [? ? H|? ? H]; subst;
     [rewrite Hone in H; discriminate | now apply IH]).
Qed.

Lemma extract_one_bad span :
  payload_absent span \/ payload_undecodable span ->
  is_ok (extract_one span) = false.
Proof.
  unfold extract_one, _has_inner_json_data.
  intros [Habs|(s & e & Hsrc & Hpre & Hdec)].
  - unfold payload_absent in Habs. now rewrite Habs.
  - rewrite Hsrc. cbn [rbind]. rewrite Hpre. cbn [rbind].
    rewrite Hdec. reflexivity.
Qed.

Lemma extract_one_foreign span :
  payload_foreign span ->
  extract_one span = Ok None /\ qualifies span = false.
Proof.
  unfold extract_one, qualifies, _has_inner_json_data.
  intros (s & Hsrc & Hpre). rewrite Hsrc. cbn [rbind]. now rewrite Hpre.
Qed.

(** One citation span without a payload, or with one that does not
    decode, and the run stops at the extraction, in the state it started
    in. *)
Lemma bad_span_stops_run soup style p span :
  In (p, span) (_find_all_citation_spans soup) ->
  payload_absent span \/ payload_undecodable span ->
  exists e, run soup style = (Raise e, fresh soup).
Proof.
  intros Hin Hbad. apply extract_one_bad in Hbad.
  assert (Hraise : is_ok (extracted soup) = false).
  { apply extract_loop_raises. apply Exists_exists.
    exists (p, span). split; [exact Hin | exact Hbad]. }
  destruct (extracted soup) as [citations|e] eqn:Hex; [discriminate|].
  exists e. now apply run_extraction_raises.
Qed.

(** [add_citations] on an untouched soup, given groups that all have a
    plain citation. *)
Lemma add_citations_texts soup citations texts cps (bib : Bibliography) :
  Forall has_data (_find_all_citation_spans soup) ->
  Forall2 cited_as citations texts ->
  let tree := replace_steps (cite_replacements soup texts) (fresh soup) in
  add_citations cps citations bib (fresh soup)
  = ((if Nat.leb (length (qualifying_markers soup)) (length citations)
      then Ok (html_soup tree) else Raise IndexError),
     tree)
  /\ stdout tree = []
  /\ trace tree = map replace_event (cite_replacements soup texts).
Proof.
  intros Hdata Htexts tree. subst tree.
  rewrite add_citations_plan. cbv zeta. cbn [fresh html_soup].
  rewrite (plan_of_texts Hdata Htexts). cbn [fst snd].
  fold (qualifying_markers soup). fold (cite_replacements soup texts).
  fold (fresh soup).
  split; [|split].
  - destruct (Nat.leb _ _); reflexivity.
  - apply replace_steps_stdout.
  - apply replace_steps_trace.
Qed.

(** A run on a soup from which no group is extracted, with a style engine
    that renders no entry while nothing is registered. *)
Lemma run_without_groups soup style :
  extracted soup = Ok [] ->
  renders_nothing_unregistered ->
  html_soup (snd (run soup style)) = soup
  /\ replacements (trace (snd (run soup style))) = []
  /\ appended (trace (snd (run soup style))) = []
  /\ forall out s', run soup style = (Ok out, s') -> out = soup.
Proof.
  intros Hex Hengine.
  destruct (extract_loop_ok _ Hex) as [_ Hlen].
  fold (qualifying_markers soup) in Hlen. cbn [length] in Hlen.
  assert (Hplan : rewrite_plan (_find_all_citation_spans soup) []
                  = ([], snd (rewrite_plan (_find_all_citation_spans soup) []))).
  { destruct (plan_markers soup []) as (_ & Hk & _). cbn [length] in Hk.
    destruct (rewrite_plan (_find_all_citation_spans soup) []) as [reps r].
    cbn [fst snd] in *. destruct reps; [reflexivity | simpl in Hk; lia]. }
  unfold run. rewrite pipeline_stages. cbn [fresh html_soup].
  rewrite Hex.
  change (prepare_citations_for_citeproc []) with (@Ok (list json) []).
  change (create_citations_to_register []) with (@Ok (list CpCitation) []).
  cbv beta iota zeta.
  destruct (CiteProcJSON []) as [src|e1] eqn:Hsrc;
    [|repeat split; intros; discriminate].
  destruct (CitationStylesStyle style) as [st|e2];
    [|repeat split; intros; discriminate].
  destruct (CitationStylesBibliography st src) as [b|e3] eqn:Hnew;
    [|repeat split; intros; discriminate].
  cbn [register_all ret].
  rewrite add_citations_plan. cbv zeta.
  unfold log, fresh. cbn [html_soup detached stdout trace app].
  rewrite Hplan. cbn [fst snd replace_steps fold_left html_soup].
  destruct (snd (rewrite_plan (_find_all_citation_spans soup) []))
    as [[]|e4].
  - rewrite add_bibliography_eq, (Hengine _ _ _ Hsrc Hnew).
    cbn [fst snd html_soup trace log].
    repeat split. now intros out s' [= <- _].
  - cbn [fst snd html_soup trace].
    repeat split. intros; discriminate.
Qed.

End Runs.

(** ** The claims about markers, groups and the order of the passes *)

Section MarkersAndGroups.
Context {R : PyRuntime} {C : Codec} {E : Citeproc}.
Import Bs4Facts.

(** C1, as amended.  In a run that returns, the i-th qualifying marker in
    document order is replaced by a [cite] element whose text is the
    [plainCitation] of the i-th extracted group, as the element takes it
    when it is assigned: the [plainCitation] itself when it is a string.
    The style engine's [cite] is never called, and every replaced marker
    that lies in no other qualifying marker has its replacement at the
    marker's own position in the returned tree, so that the citations
    come in the order of the markers. *)
Theorem order_preservation soup style out (s' : state) :
  run soup style = (Ok out, s') ->
  exists citations texts,
    extracted soup = Ok citations
    /\ Forall2 cited_as citations texts
    /\ length citations = length (qualifying_markers soup)
    /\ replacements (trace s') = cite_replacements soup texts
    /\ cite_calls (trace s') = []
    /\ forall i p,
        nth_error (map fst (qualifying_markers soup)) i = Some p ->
        top_level soup p = true ->
        exists c text,
          nth_error citations i = Some c
          /\ cited_as c text
          /\ get_at p out = Some (cite_tag text).
Proof.
  intros Hrun.
  destruct (run_ok _ _ Hrun)
    as (citations & cps & bib & entries & texts & Hex & _ & _ & Htexts & Hlen
        & Hout & _ & _ & _ & Hreps & Hcite & _).
  exists citations, texts. do 5 (split; [assumption|]).
  intros i p Hp Htop.
  assert (Hi : i < length citations).
  { rewrite Hlen, <- (length_map fst). apply nth_error_Some. congruence. }
  destruct (nth_error citations i) as [c|] eqn:Hc;
    [|apply nth_error_None in Hc; lia].
  destruct (nth_error texts i) as [text|] eqn:Ht.
  2:{ apply nth_error_None in Ht.
      apply Forall2_length in Htexts. lia. }
  exists c, text. split; [reflexivity|]. split.
  - clear -Htexts Hc Ht. revert i Hc Ht.
    induction Htexts as [|c0 t0 cs ts H0 _ IH]; intros [|i] Hc Ht;
      try discriminate; simpl in *.
    + now injection Hc as <-; injection Ht as <-.
    + eapply IH; eauto.
  - rewrite Hout.
    assert (Hget : get_at p (html_soup (replace_steps
                                          (cite_replacements soup texts)
                                          (fresh soup)))
                   = Some (cite_tag text))
      by (eapply replaced_get;
          [apply cite_replacements_paths
          |eapply cite_replacements_nth; eassumption
          |exact Htop]).
    rewrite get_at_app; [exact Hget | congruence].
Qed.

(** C2.  Whenever a run replaces a marker, every group of the document
    has been registered before, in document order, and none is registered
    after; the engine is never asked to format. *)
Theorem registration_before_replacement soup style pre p new post :
  trace (snd (run soup style)) = pre ++ ReplaceWith p new :: post ->
  exists citations cps,
    extracted soup = Ok citations
    /\ create_citations_to_register citations = Ok cps
    /\ length cps = length (qualifying_markers soup)
    /\ registrations pre = cps
    /\ registrations post = []
    /\ cite_calls (pre ++ ReplaceWith p new :: post) = [].
Proof.
  intros Htr.
  destruct (run_shape soup style)
    as [_ [(_ & _ & Hnone & _)
          |(citations & json_data & cps & bib & tail & Hex & _ & Hcps & _
            & Hshape & _ & T1 & T2 & T3 & _)]].
  - rewrite Htr, replacements_app in Hnone.
    apply app_eq_nil in Hnone as [_ Hnone]. discriminate.
  - destruct (extract_loop_ok _ Hex) as [_ Hlen].
    fold (qualifying_markers soup) in Hlen.
    set (reps := fst (rewrite_plan (_find_all_citation_spans soup) citations))
      in *.
    destruct (run_log json_data style cps reps tail T1 T2 T3)
      as (_ & _ & L3 & _).
    destruct (setup_events json_data style) as (S1 & S2 & _).
    destruct (register_events cps) as (G1 & G2 & _).
    destruct (replace_events reps) as (P1 & _).
    exists citations, cps. split; [exact Hex|]. split; [exact Hcps|].
    split.
    { unfold create_citations_to_register in Hcps.
      apply for_append_length in Hcps. congruence. }
    rewrite <- Htr, Hshape. rewrite Hshape, app_assoc in Htr.
    symmetry in Htr.
    apply split_second in Htr as (mid & -> & Hback).
    2:{ intros Hin. apply replacements_In in Hin.
        rewrite replacements_app, S2, G2 in Hin. now apply Hin. }
    assert (Hreg : registrations (mid ++ ReplaceWith p new :: post) = [])
      by (rewrite <- Hback, registrations_app, P1, T1; reflexivity).
    rewrite registrations_app in Hreg.
    apply app_eq_nil in Hreg as [Hmid Hpost].
    repeat split.
    + rewrite !registrations_app, S1, G1, Hmid. simpl. now rewrite app_nil_r.
    + exact Hpost.
    + exact L3.
Qed.


(** C10, as amended.  Given the groups extracted from a soup, there are
    as many of them as the soup has qualifying markers, and the look-up of
    a group succeeds at every index below that number: whenever
    [add_citations] on the same soup raises, it has found the group of
    the marker it stopped at, and raises what the making of the element
    of that group raised.  When it returns, it has replaced as many
    markers as there are groups; when it raises, fewer. *)
Theorem markers_match_groups soup citations cps (bib : Bibliography) :
  extracted soup = Ok citations ->
  let r := add_citations cps citations bib (fresh soup) in
  let done := length (replacements (trace (snd r))) in
  length citations = length (qualifying_markers soup)
  /\ (forall i, i < length (qualifying_markers soup) ->
                is_ok (list_get citations i) = true)
  /\ (is_ok (fst r) = true -> done = length citations)
  /\ (forall e, fst r = Raise e ->
                done < length citations
                /\ exists c, list_get citations done = Ok c
                             /\ plain_cite c = Raise e).
Proof.
  intros Hex r done. subst r done.
  destruct (extract_loop_ok _ Hex) as [Hdata Hlen].
  fold (qualifying_markers soup) in Hlen.
  split; [exact Hlen|]. split.
  { intros i Hi. unfold list_get.
    destruct (nth_error citations i) eqn:Hn; [reflexivity|].
    apply nth_error_None in Hn. lia. }
  rewrite add_citations_plan. cbv zeta. cbn [fresh html_soup fst snd].
  fold (fresh soup).
  rewrite replace_steps_trace. cbn [fresh trace app].
  destruct (replace_events
              (fst (rewrite_plan (_find_all_citation_spans soup) citations)))
    as (_ & P2 & _).
  rewrite P2.
  destruct (snd (rewrite_plan (_find_all_citation_spans soup) citations))
    as [[]|e] eqn:Hplan.
  - split; [|intros e He; discriminate He]. intros _.
    destruct (plan_full _ _ Hplan) as (_ & _ & texts & Htexts & Hreps).
    fold (qualifying_markers soup) in Htexts, Hreps.
    rewrite <- Hlen, firstn_all in Htexts.
    rewrite Hreps.
    fold (cite_replacements soup texts).
    rewrite cite_replacements_length.
    apply Forall2_length in Htexts. lia.
  - split; [discriminate|]. intros e0 [= <-].
    destruct (plan_raise _ Hdata Hplan) as [Hk Hnth].
    fold (qualifying_markers soup) in Hk.
    split; [lia|]. unfold list_get.
    destruct (nth_error citations _) as [c|] eqn:Hc.
    + exists c. split; [reflexivity | exact Hnth].
    + apply nth_error_None in Hc. lia.
Qed.

End MarkersAndGroups.

(** ** Failures *)

Section Failures.
Context {R : PyRuntime} {C : Codec} {E : Citeproc}.

(** C4, as amended.  A citation span whose [data-src] is a string without
    the base64 JSON prefix is skipped without raising: no group is
    extracted for it, no run replaces it, and nothing is printed.  A
    citation span with no [data-src], or whose payload has the prefix and
    does not decode, makes every run on the soup raise before the tree is
    touched: the state the run leaves is the state it started in. *)
Theorem marker_payload_cases soup style p span :
  In (p, span) (_find_all_citation_spans soup) ->
  (payload_foreign span ->
   extract_one span = Ok None
   /\ (forall new, ~ In (p, new) (replacements (trace (snd (run soup style)))))
   /\ stdout (snd (run soup style)) = [])
  /\ (payload_absent span \/ payload_undecodable span ->
      exists e, run soup style = (Raise e, fresh soup)).
Proof.
  intros Hin. split.
  - intros Hforeign.
    destruct (extract_one_foreign Hforeign) as [Hone Hq].
    split; [exact Hone|].
    destruct (run_shape soup style)
      as [Hout [(_ & _ & Hnone & _)
               |(citations & json_data & cps & bib & tail & _ & _ & _ & _
                 & Htr & _ & T1 & T2 & T3 & _)]];
      (split; [|exact Hout]); intros new Hnew.
    + rewrite Hnone in Hnew. destruct Hnew.
    + destruct (run_log json_data style cps
                        (fst (rewrite_plan (_find_all_citation_spans soup)
                                           citations))
                        tail T1 T2 T3) as (_ & L2 & _).
      rewrite Htr, L2 in Hnew.
      apply (in_map fst) in Hnew. cbn [fst] in Hnew.
      destruct (plan_markers soup citations) as (Hpaths & _).
      rewrite Hpaths in Hnew. apply in_firstn in Hnew.
      exact (not_a_marker _ _ _ Hin Hq Hnew).
  - intros Hbad. eapply bad_span_stops_run; eassumption.
Qed.

(** C6, as amended.  When a record of some group has no [id], the run
    raises, and it does so with the tree as it was: no group is
    registered, no marker is replaced and nothing is appended.  What it
    raises is [KeyError] for the key [id] once the pool of records, all of
    them dicts, and the source, the style and the bibliography object of
    the style engine are built.  A marker whose payload does not decode is
    no different: the run raises before the tree is touched. *)
Theorem missing_identifier_aborts soup style :
  (forall citations,
      extracted soup = Ok citations ->
      Exists group_lacks_id citations ->
      exists e,
        fst (run soup style) = Raise e
        /\ html_soup (snd (run soup style)) = soup
        /\ registrations (trace (snd (run soup style))) = []
        /\ replacements (trace (snd (run soup style))) = []
        /\ appended (trace (snd (run soup style))) = []
        /\ (forall json_data bib_source bib_style bib,
               prepare_citations_for_citeproc citations = Ok json_data ->
               Forall (fun data => is_dict data = true) json_data ->
               CiteProcJSON json_data = Ok bib_source ->
               CitationStylesStyle style = Ok bib_style ->
               CitationStylesBibliography bib_style bib_source = Ok bib ->
               e = KeyError "id"))
  /\ (forall p span,
         In (p, span) (_find_all_citation_spans soup) ->
         payload_undecodable span ->
         exists e, run soup style = (Raise e, fresh soup)).
Proof.
  split.
  - intros citations Hex Hlacks.
    apply create_stops_on_missing_id in Hlacks.
    unfold run. rewrite pipeline_stages. cbn [fresh html_soup].
    rewrite Hex.
    destruct (prepare_citations_for_citeproc citations) as [json_data|e0]
      eqn:Hprep; [|exists e0; repeat split; intros; discriminate].
    cbv zeta.
    destruct (CiteProcJSON json_data) as [src|e1] eqn:Hsrc;
      [|exists e1; repeat split;
        intros jd bs bst b [= <-] _ H1 H2 H3; congruence].
    destruct (CitationStylesStyle style) as [st|e2] eqn:Hst;
      [|exists e2; repeat split;
        intros jd bs bst b [= <-] _ H1 H2 H3; congruence].
    destruct (CitationStylesBibliography st src) as [bib|e3] eqn:Hnew;
      [|exists e3; repeat split;
        intros jd bs bst b [= <-] _ H1 H2 H3; congruence].
    destruct (create_citations_to_register citations) as [cps|e4] eqn:Hcps;
      [discriminate|].
    exists e4. repeat split.
    intros jd bs bst b [= <-] Hdicts _ _ _.
    eapply create_error_is_missing_id; [exact Hprep | exact Hdicts | exact Hcps].
  - intros p span Hin Hbad.
    eapply bad_span_stops_run; [exact Hin | right; exact Hbad].
Qed.

(** C7.  With a style that the engine does not resolve, no run registers
    a citation: the run raises, the tree is as it was, and the log holds
    no registration.  The look-up of the style comes right after the
    extraction and the building of the source, so once these return the
    run raises what the look-up raised, and the look-up is the last thing
    the run did. *)
Theorem unknown_style_fails_before_registration soup style e :
  CitationStylesStyle style = Raise e ->
  exists e',
    fst (run soup style) = Raise e'
    /\ registrations (trace (snd (run soup style))) = []
    /\ html_soup (snd (run soup style)) = soup
    /\ (forall citations json_data bib_source,
           extracted soup = Ok citations ->
           prepare_citations_for_citeproc citations = Ok json_data ->
           CiteProcJSON json_data = Ok bib_source ->
           e' = e
           /\ trace (snd (run soup style))
              = [ CallCiteProcJSON json_data;
                  CallCitationStylesStyle style ]).
Proof.
  intros Hstyle.
  unfold run. rewrite pipeline_stages. cbn [fresh html_soup].
  destruct (extracted soup) as [citations|e0].
  - destruct (prepare_citations_for_citeproc citations) as [json_data|e0]
      eqn:Hprep.
    + cbv zeta. rewrite Hstyle.
      destruct (CiteProcJSON json_data) as [src|e1] eqn:Hjson.
      * exists e. do 3 (split; [reflexivity|]).
        intros c jd bs [= <-] Hp _. rewrite Hprep in Hp.
        injection Hp as <-. split; reflexivity.
      * exists e1. do 3 (split; [reflexivity|]).
        intros c jd bs [= <-] Hp Hsrc. rewrite Hprep in Hp.
        injection Hp as <-. rewrite Hsrc in Hjson. discriminate.
    + exists e0. do 3 (split; [reflexivity|]).
      intros c jd bs [= <-] Hp _. rewrite Hprep in Hp. discriminate.
  - exists e0. do 3 (split; [reflexivity|]). intros; discriminate.
Qed.

End Failures.

(** ** The bibliography *)

Section BibliographySection.
Context {R : PyRuntime} {C : Codec} {E : Citeproc}.

(** C8.  With no entry to render, [add_bibliography] returns the soup as
    it is and appends nothing.  A soup without a qualifying marker is such
    a case, given a style engine that renders no entry while nothing is
    registered: every run leaves the tree as it was, and a run that
    returns, returns that tree. *)
Theorem empty_bibliography_leaves_tree soup style (bib : Bibliography)
        (s : state) :
  (bibliography bib = Ok [] ->
   add_bibliography bib s = (Ok (html_soup s), log CallBibliography s))
  /\ (qualifying_markers soup = [] ->
      renders_nothing_unregistered ->
      html_soup (snd (run soup style)) = soup
      /\ appended (trace (snd (run soup style))) = []
      /\ forall out s', run soup style = (Ok out, s') -> out = soup).
Proof.
  split.
  - intros Hbib. rewrite add_bibliography_eq, Hbib. reflexivity.
  - intros Hnone Hengine.
    destruct (extracted soup) as [citations|e0] eqn:Hex.
    + destruct (extract_loop_ok _ Hex) as [_ Hlen].
      fold (qualifying_markers soup) in Hlen. rewrite Hnone in Hlen.
      destruct citations; [|discriminate].
      destruct (@run_without_groups R C E soup style Hex Hengine)
        as (H1 & _ & H3 & H4).
      auto.
    + erewrite run_extraction_raises by exact Hex.
      cbn [fst snd fresh html_soup trace appended].
      repeat split. intros; discriminate.
Qed.

(** When the engine renders entries, [add_bibliography] appends one
    element: a [div] holding the heading and an ordered list with one item
    for each entry, in the order of the entries. *)
Lemma add_bibliography_appends (bib : Bibliography) (s : state) e es :
  bibliography bib = Ok (e :: es) ->
  fst (add_bibliography bib s)
  = Ok (html_soup s ++ [bibliography_container (e :: es)])
  /\ appended (trace (snd (add_bibliography bib s)))
     = appended (trace s) ++ [bibliography_container (e :: es)].
Proof.
  intros Hbib. rewrite add_bibliography_eq, Hbib. cbn [fst snd trace].
  split; [reflexivity|]. now rewrite appended_app.
Qed.

(** The element that is appended has no attribute: the dict with the
    class went into the second parameter of [new_tag], the namespace. *)
Lemma bibliography_container_attrs entries :
  attrs_of (bibliography_container entries) = []
  /\ tag_matches "div" [("class", "dgtmon-bibliography")]
                 (bibliography_container entries) = false.
Proof. split; reflexivity. Qed.

End BibliographySection.

(** ** Extraction, marker by marker *)

Section ExtractionOrder.
Context {R : PyRuntime} {C : Codec} {E : Citeproc}.

Lemma startswith_drop (p s : string) :
  Str.startswith s p = true ->
  s = (p ++ Str.drop (String.length p) s)%string.
Proof.
  unfold Str.startswith. revert s.
  induction p as [|c p IH]; intros s H; [reflexivity|].
  destruct s as [|c' s]; simpl in H; [discriminate|].
  destruct (ascii_dec c c') as [<-|]; [|discriminate].
  simpl. f_equal. now apply IH.
Qed.

Lemma extract_one_some (e : path * node) (citation : json) :
  extract_one (snd e) = Ok (Some citation) -> decodes_to e citation.
Proof.
  unfold extract_one, _has_inner_json_data, decodes_to.
  destruct (dict_get "data-src" (attrs_of (snd e))) as [[s|l]|err];
    cbn [rbind]; try discriminate.
  destruct (Str.startswith s json_prefix) eqn:Hpre; cbn [rbind];
    [|discriminate].
  destruct (loads_b64decode _) as [c|err] eqn:Hdec; cbn [rbind];
    [|discriminate].
  intros [= <-].
  exists (Str.drop (String.length json_prefix) s). split; [|exact Hdec].
  f_equal. f_equal. now apply startswith_drop.
Qed.

Lemma extract_loop_decodes (spans : list (path * node)) :
  forall citations,
    extract_loop spans [] = Ok citations ->
    Forall2 decodes_to
            (List.filter (fun e => qualifies (snd e)) spans) citations.
Proof.
  induction spans as [|span rest IH]; intros citations; simpl.
  - intros [= <-]. constructor.
  - destruct (extract_one (snd span)) as [found|err] eqn:Hone;
      cbn [rbind]; [|discriminate].
    unfold qualifies at 1.
    destruct (extract_one_ok _ Hone) as [[Hhas [c ->]]|[Hhas ->]];
      rewrite Hhas.
    + rewrite extract_loop_acc.
      destruct (extract_loop rest []) as [new|]; [|discriminate].
      intros [= <-]. constructor; [|now apply IH].
      now apply extract_one_some.
    + apply IH.
Qed.

(** X4.  The groups that extraction returns are the decoded payloads of
    the qualifying markers, marker by marker in document order: the i-th
    group is what the text after the prefix in the [data-src] of the i-th
    qualifying marker decodes to. *)
Theorem extraction_follows_markers soup (citations : list json) :
  extracted soup = Ok citations ->
  Forall2 decodes_to (qualifying_markers soup) citations.
Proof. apply extract_loop_decodes. Qed.

Lemma extract_loop_first_bad good bad rest err :
  Forall (fun e => is_ok (extract_one (snd e)) = true) good ->
  extract_one (snd bad) = Raise err ->
  forall acc, extract_loop (good ++ bad :: rest) acc = Raise err.
Proof.
  intros Hgood Hbad.
  induction Hgood as [|e good He _ IH]; intros acc; simpl.
  - now rewrite Hbad.
  - destruct (extract_one (snd e)) as [[c|]|err']; cbn [rbind];
      [apply IH | apply IH | discriminate].
Qed.

(** X5.  What a run raises on a soup with a bad marker is what the first
    bad citation span in document order raises: the spans before it are
    read without error, the spans after it are not looked at, and the run
    stops in the state it started in. *)
Theorem first_bad_marker_decides soup style good bad rest err :
  _find_all_citation_spans soup = good ++ bad :: rest ->
  Forall (fun e => is_ok (extract_one (snd e)) = true) good ->
  extract_one (snd bad) = Raise err ->
  extracted soup = Raise err
  /\ run soup style = (Raise err, fresh soup).
Proof.
  intros Hspans Hgood Hbad.
  assert (Hex : extracted soup = Raise err).
  { unfold extracted. rewrite Hspans.
    now apply extract_loop_first_bad. }
  split; [exact Hex|].
  unfold run. rewrite pipeline_stages. cbn [fresh html_soup].
  now rewrite Hex.
Qed.

End ExtractionOrder.

(** ** [add_citations] on its own *)

Section AddCitations.
Context {R : PyRuntime} {C : Codec} {E : Citeproc}.
Import Bs4Facts.

(** X6.  With fewer groups than the soup has qualifying markers, each
    group with a [plainCitation] that a [cite] element takes, as it does
    every string, [add_citations] raises [IndexError], and it does so
    with the tree changed: the markers that come before the first one
    without a group are replaced already, each by the plain citation of
    its group, which stands in the tree where the marker lay in no other
    qualifying marker. *)
Theorem too_few_groups soup citations texts cps (bib : Bibliography) :
  Forall has_data (_find_all_citation_spans soup) ->
  Forall2 cited_as citations texts ->
  length citations < length (qualifying_markers soup) ->
  let r := add_citations cps citations bib (fresh soup) in
  fst r = Raise IndexError
  /\ replacements (trace (snd r)) = cite_replacements soup texts
  /\ length (replacements (trace (snd r))) = length citations
  /\ forall i p text,
      nth_error (map fst (qualifying_markers soup)) i = Some p ->
      nth_error texts i = Some text ->
      top_level soup p = true ->
      get_at p (html_soup (snd r)) = Some (cite_tag text).
Proof.
  intros Hdata Htexts Hlen r. subst r.
  destruct (add_citations_texts soup cps bib Hdata Htexts)
    as (Hadd & Hout & Htr).
  rewrite Hadd. cbn [fst snd].
  replace (Nat.leb (length (qualifying_markers soup)) (length citations))
    with false by (symmetry; apply Nat.leb_gt; lia).
  rewrite Htr.
  destruct (replace_events (cite_replacements soup texts)) as (_ & P2 & _).
  rewrite P2. pose proof (Forall2_length Htexts) as Hlen'.
  do 2 (split; [reflexivity|]).
  split; [rewrite cite_replacements_length; lia|].
  intros i p text Hp Ht Htop.
  eapply replaced_get;
    [apply cite_replacements_paths
    |eapply cite_replacements_nth; eassumption
    |exact Htop].
Qed.


(** X8.  The rewrite touches nothing but the markers: whatever groups
    [add_citations] is given and however it ends, an element at a
    position that is apart from the position of every qualifying marker
    is in the tree it leaves what it was in the soup, and the tree has as
    many top-level elements as the soup.  The same holds of such an
    element after a whole run. *)
Theorem rewrite_frame soup style citations cps (bib : Bibliography) q :
  (forall e, In e (qualifying_markers soup) -> apart (fst e) q) ->
  let s' := snd (add_citations cps citations bib (fresh soup)) in
  get_at q (html_soup s') = get_at q soup
  /\ length (html_soup s') = length soup
  /\ (get_at q soup <> None ->
      get_at q (html_soup (snd (run soup style))) = get_at q soup).
Proof.
  intros Hq s'. subst s'.
  rewrite add_citations_plan. cbv zeta. cbn [fresh html_soup snd].
  fold (fresh soup).
  split; [|split].
  - destruct (plan_markers soup citations) as (Hpaths & _).
    eapply replaced_frame; [exact Hpaths | exact Hq].
  - now rewrite replace_steps_length.
  - intros Hvalid.
    destruct (run_shape soup style)
      as [_ [(_ & Hsoup & _)
            |(citations' & json_data & cps' & bib' & tail & _ & _ & _ & _ & _
              & Hsoup & _)]];
      rewrite Hsoup; [reflexivity|].
    destruct (plan_markers soup citations') as (Hpaths & _).
    assert (Hget : get_at q (html_soup
                               (replace_steps
                                  (fst (rewrite_plan
                                          (_find_all_citation_spans soup)
                                          citations'))
                                  (fresh soup)))
                   = get_at q soup)
      by (eapply replaced_frame; [exact Hpaths | exact Hq]).
    rewrite get_at_app; [exact Hget | congruence].
Qed.

(** X9.  After the rewrite no qualifying marker is left: in the tree that
    [add_citations] returns, every citation span is one that the soup had
    and that did not qualify, so that extraction on the returned tree
    returns no group. *)
Theorem no_marker_left soup citations cps (bib : Bibliography) out
        (s' : state) :
  add_citations cps citations bib (fresh soup) = (Ok out, s') ->
  html_soup s' = out
  /\ qualifying_markers out = []
  /\ Forall has_data (_find_all_citation_spans out)
  /\ extracted out = Ok [].
Proof.
  rewrite add_citations_plan. cbv zeta. cbn [fresh html_soup].
  fold (fresh soup).
  destruct (snd (rewrite_plan (_find_all_citation_spans soup) citations))
    as [[]|e] eqn:Hplan; [|discriminate].
  destruct (plan_full _ _ Hplan) as (Hdata & Hlen & texts & Htexts & Hreps).
  fold (qualifying_markers soup) in Hlen, Htexts, Hreps.
  fold (cite_replacements soup texts) in Hreps. rewrite Hreps.
  intros [= <- <-]. split; [reflexivity|].
  apply no_marker_after; [exact Hdata|].
  apply Forall2_length in Htexts. rewrite length_firstn in Htexts. lia.
Qed.

End AddCitations.

(** ** What the bibliography adds to the tree *)

Section ContainerShape.
Context {R : PyRuntime} {C : Codec} {E : Citeproc}.
Import Bs4Facts Bs4More.

(** X14.  [add_bibliography] adds elements named [div], [h1], [ol] and
    [li] only.  A search for any other tag in the tree it leaves finds
    what it finds in the tree it was given, whatever the style engine
    answers; in particular no [small] element comes of the markup in the
    text of an entry, and no citation span. *)
Theorem bibliography_adds_no_other_tag (bib : Bibliography) (s : state)
        name filter :
  ~ In name ["div"; "h1"; "ol"; "li"] ->
  find_all (html_soup (snd (add_bibliography bib s))) name filter
  = find_all (html_soup s) name filter.
Proof.
  intros Hname. rewrite add_bibliography_eq.
  destruct (bibliography bib) as [[|entry entries]|err];
    cbn [snd log html_soup]; try reflexivity.
  exact (find_all_with_bibliography (html_soup s) (entry :: entries)
                                    filter Hname).
Qed.

Lemma nth_error_map_item entries k entry :
  nth_error entries k = Some entry ->
  nth_error (map bibliography_item entries) k
  = Some (Tag "li" None []
              [NavigableString ("<small>" ++ entry ++ "</small>")%string]).
Proof. intros H. now rewrite nth_error_map, H. Qed.

(** X13.  With entries to render, [add_bibliography] returns the soup with
    one element more, at the end: every element that was in the soup is
    where it was, the new last element is a [div] that holds a heading
    with the text "Bibliography" and an ordered list, and the k-th item
    of the list holds, as one string, the k-th entry between [<small>]
    and [</small>]. *)
Theorem bibliography_is_appended_last (bib : Bibliography) (s : state)
        entry entries :
  bibliography bib = Ok (entry :: entries) ->
  let out := html_soup (snd (add_bibliography bib s)) in
  let n := length (html_soup s) in
  fst (add_bibliography bib s) = Ok out
  /\ length out = S n
  /\ (forall q, get_at q (html_soup s) <> None ->
                get_at q out = get_at q (html_soup s))
  /\ get_at [n; 0] out = Some (Tag "h1" None [] [NavigableString "Bibliography"])
  /\ (exists items, get_at [n; 1] out = Some (Tag "ol" None [] items)
                    /\ length items = length (entry :: entries))
  /\ forall k text,
      nth_error (entry :: entries) k = Some text ->
      get_at [n; 1; k; 0] out
      = Some (NavigableString ("<small>" ++ text ++ "</small>")%string).
Proof.
  intros Hbib out n. subst out n.
  rewrite add_bibliography_eq, Hbib. cbn [fst snd html_soup].
  set (soup := html_soup s).
  assert (Hlast : nth_error (soup ++ [bibliography_container (entry :: entries)])
                            (length soup)
                  = Some (bibliography_container (entry :: entries))).
  { rewrite nth_error_app2 by lia. now rewrite Nat.sub_diag. }
  split; [reflexivity|]. split; [rewrite length_app; simpl; lia|].
  split; [intros q Hq; now apply get_at_app|].
  split; [|split].
  - rewrite get_at_cons, Hlast. reflexivity.
  - exists (map bibliography_item (entry :: entries)).
    rewrite get_at_cons, Hlast. split; [reflexivity|]. apply length_map.
  - intros k text Hk.
    rewrite get_at_cons, Hlast.
    change (contents_of (bibliography_container (entry :: entries)))
      with [Tag "h1" None [] [NavigableString "Bibliography"];
            Tag "ol" None [] (map bibliography_item (entry :: entries))].
    rewrite get_at_cons. cbn [nth_error contents_of].
    rewrite get_at_cons, (nth_error_map_item _ _ Hk). reflexivity.
Qed.

End ContainerShape.

(** ** Runs that fail, and runs on what a run returned *)

Section FailuresAndReruns.
Context {R : PyRuntime} {C : Codec} {E : Citeproc}.
Import Bs4Facts.

(** X12.  When anything up to the registration raises, be it the
    extraction, the building of the item pool, of the source, of the
    style or of the bibliography object, the building of the citations to
    register, or a call of [register], the run raises the same exception
    and the tree is as it was: nothing is replaced and nothing is
    appended. *)
Theorem failure_before_rewrite soup style e :
  registered soup style = Raise e ->
  fst (run soup style) = Raise e
  /\ html_soup (snd (run soup style)) = soup
  /\ replacements (trace (snd (run soup style))) = []
  /\ appended (trace (snd (run soup style))) = []
  /\ stdout (snd (run soup style)) = [].
Proof.
  intros Hreg.
  destruct (@run_unregistered R C E soup style e Hreg)
    as (H1 & H2 & H3 & H4 & H5 & _).
  auto.
Qed.

(** X11.  Once every group is registered the tree is rewritten, whatever
    comes of the bibliography.  With a [plainCitation] in every group
    that a [cite] element takes, as it does every string: every
    qualifying marker is replaced by the [cite]
    element of its group, which stands in the tree where the marker lay
    in no other qualifying marker, and the tree holds no qualifying
    marker any more; when [bib.bibliography()] raises, the run raises the
    same and nothing is appended; when it returns, the run returns the
    tree, with the bibliography, if there is one, appended. *)
Theorem rewrite_before_bibliography soup style citations texts
        (bib : Bibliography) cps :
  extracted soup = Ok citations ->
  Forall2 cited_as citations texts ->
  registered soup style = Ok (bib, cps) ->
  let r := run soup style in
  replacements (trace (snd r)) = cite_replacements soup texts
  /\ length (replacements (trace (snd r)))
     = length (qualifying_markers soup)
  /\ qualifying_markers (html_soup (snd r)) = []
  /\ (forall i p text,
         nth_error (map fst (qualifying_markers soup)) i = Some p ->
         nth_error texts i = Some text ->
         top_level soup p = true ->
         get_at p (html_soup (snd r)) = Some (cite_tag text))
  /\ match bibliography bib with
     | Ok entries =>
         fst r = Ok (html_soup (snd r))
         /\ appended (trace (snd r)) = bibliography_nodes entries
     | Raise e =>
         fst r = Raise e
         /\ appended (trace (snd r)) = []
     end.
Proof.
  intros Hex Htexts Hreg r. subst r.
  destruct (extract_loop_ok _ Hex) as [Hdata Hlen].
  fold (qualifying_markers soup) in Hlen.
  pose proof (Forall2_length Htexts) as Hlen'.
  destruct (@registered_ok R C E soup style bib cps Hreg)
    as (citations' & json_data & Hex' & Hprep & Hcps).
  rewrite Hex in Hex'. injection Hex' as <-.
  rewrite (@run_registered R C E soup style citations json_data bib cps
                           Hex Hprep Hreg).
  pose proof (add_citations_ready soup json_data style cps citations bib)
    as Hadd.
  cbv zeta in Hadd. rewrite Hadd. clear Hadd.
  rewrite (plan_of_texts Hdata Htexts). cbn [fst snd].
  fold (qualifying_markers soup). fold (cite_replacements soup texts).
  rewrite <- Hlen, Nat.leb_refl.
  set (tree := replace_steps (cite_replacements soup texts) (fresh soup)).
  match goal with |- context [add_bibliography bib ?s] => set (s5 := s) end.
  destruct (add_bibliography_state bib s5)
    as (tail & Htr & Hsoup & _ & T1 & T2 & T3 & Hret).
  pose proof (add_bibliography_eq bib s5) as Heq.
  destruct (run_log json_data style cps (cite_replacements soup texts)
                    tail T1 T2 T3) as (_ & L2 & _ & L4).
  assert (Htrace : trace (snd (add_bibliography bib s5))
                   = setup_calls json_data style ++ map CallRegister cps
                     ++ map replace_event (cite_replacements soup texts)
                     ++ tail).
  { rewrite Htr. subst s5. cbn [trace]. now rewrite <- !app_assoc. }
  assert (Htree : qualifying_markers (html_soup tree) = []
                  /\ forall i p text,
                      nth_error (map fst (qualifying_markers soup)) i = Some p ->
                      nth_error texts i = Some text ->
                      top_level soup p = true ->
                      get_at p (html_soup tree) = Some (cite_tag text)).
  { split.
    - apply no_marker_after; [exact Hdata | lia].
    - intros i p text Hp Ht Htop.
      eapply replaced_get;
        [apply cite_replacements_paths
        |eapply cite_replacements_nth; eassumption
        |exact Htop]. }
  destruct Htree as [Hnone Hget].
  assert (Hentries : exists entries,
             appended tail = bibliography_nodes entries
             /\ match bibliography bib with
                | Ok entries' =>
                    entries' = entries
                    /\ fst (add_bibliography bib s5)
                       = Ok (html_soup (snd (add_bibliography bib s5)))
                | Raise e =>
                    entries = []
                    /\ fst (add_bibliography bib s5) = Raise e
                end).
  { rewrite Heq in Hsoup. rewrite Heq.
    destruct (bibliography bib) as [[|entry entries]|err];
      cbn [fst snd html_soup log] in *.
    - exists []. split; [|now split].
      apply app_inv_head with (l := html_soup s5).
      rewrite <- Hsoup. cbn [bibliography_nodes]. now rewrite app_nil_r.
    - exists (entry :: entries). split; [|now split].
      apply app_inv_head with (l := html_soup s5). now rewrite <- Hsoup.
    - exists []. split; [|now split].
      apply app_inv_head with (l := html_soup s5).
      rewrite <- Hsoup. cbn [bibliography_nodes]. now rewrite app_nil_r. }
  destruct Hentries as (entries & Happ & Hcases).
  rewrite Htrace, L2, L4, Hsoup, Happ.
  change (html_soup s5) with (html_soup tree).
  split; [reflexivity|].
  split; [rewrite cite_replacements_length; lia|].
  split.
  { unfold qualifying_markers in *.
    now rewrite spans_with_bibliography. }
  split.
  { intros i p text Hp Ht Htop.
    rewrite get_at_app; [now apply (Hget i) | rewrite (Hget i p text); auto].
    discriminate. }
  destruct (bibliography bib) as [entries'|err].
  - destruct Hcases as [-> Hfst]. split; [|reflexivity].
    rewrite Hfst, Hsoup, Happ. reflexivity.
  - destruct Hcases as [-> Hfst]. split; [exact Hfst | reflexivity].
Qed.

(** X10.  A run on the tree that a run returned changes nothing, given a
    style engine that renders no entry while nothing is registered: the
    returned tree holds no qualifying marker, extraction on it returns no
    group, nothing is replaced, no second bibliography is appended, and
    the tree is left, and returned, as it is. *)
Theorem second_run_changes_nothing soup style out (s' : state) :
  renders_nothing_unregistered ->
  run soup style = (Ok out, s') ->
  extracted out = Ok []
  /\ html_soup (snd (run out style)) = out
  /\ replacements (trace (snd (run out style))) = []
  /\ appended (trace (snd (run out style))) = []
  /\ forall out' s'', run out style = (Ok out', s'') -> out' = out.
Proof.
  intros Hengine Hrun.
  destruct (run_ok _ _ Hrun)
    as (citations & cps & bib & entries & texts & Hex & _ & _ & Htexts & Hlen
        & -> & _).
  destruct (extract_loop_ok _ Hex) as [Hdata _].
  assert (Hlen' : length texts = length (qualifying_markers soup))
    by (apply Forall2_length in Htexts; lia).
  destruct (no_marker_after soup texts Hdata Hlen') as (_ & _ & Hnone).
  assert (Hex' : extracted
                   (html_soup (replace_steps (cite_replacements soup texts)
                                             (fresh soup))
                    ++ bibliography_nodes entries) = Ok []).
  { unfold extracted in *. now rewrite spans_with_bibliography. }
  split; [exact Hex'|]. now apply run_without_groups.
Qed.

(** X19.  [register] is called on the citations in the order of the
    groups, on each at most once and on none out of turn: whatever way a
    run ends, the citations it has registered are a first part of the
    citations built for the groups, and all of them when the run
    returns. *)
Theorem registrations_are_a_prefix soup style citations cps :
  extracted soup = Ok citations ->
  create_citations_to_register citations = Ok cps ->
  exists k,
    registrations (trace (snd (run soup style))) = firstn k cps
    /\ (is_ok (fst (run soup style)) = true ->
        registrations (trace (snd (run soup style))) = cps).
Proof.
  intros Hex Hcps.
  unfold run. rewrite pipeline_stages. cbn [fresh html_soup].
  rewrite Hex, Hcps.
  destruct (prepare_citations_for_citeproc citations) as [json_data|e0];
    [|exists 0; split; [reflexivity | discriminate]].
  cbv zeta.
  destruct (CiteProcJSON _) as [src|e1];
    [|exists 0; split; [reflexivity | discriminate]].
  destruct (CitationStylesStyle _) as [st|e2];
    [|exists 0; split; [reflexivity | discriminate]].
  destruct (CitationStylesBibliography _ _) as [bib|e3];
    [|exists 0; split; [reflexivity | discriminate]].
  match goal with |- context [register_all cps bib ?s] => set (s3 := s) end.
  destruct (register_all_spec cps bib s3) as (k & Hs4 & Hk).
  destruct (register_events (firstn k cps)) as (G1 & _).
  destruct (register_all cps bib s3) as [[bib'|e5] s4];
    cbn [fst snd is_ok] in *; subst s4 s3;
    unfold fresh; cbn [log html_soup detached stdout trace app].
  - rewrite (Hk eq_refl) in *.
    rewrite add_citations_plan. cbv zeta. cbn [html_soup].
    set (reps := fst (rewrite_plan (_find_all_citation_spans soup) citations)).
    match goal with |- context [replace_steps reps ?s] => set (s4 := s) end.
    pose proof (replace_steps_trace reps s4) as Htr.
    destruct (replace_events reps) as (P1 & _).
    assert (Hregs : registrations (trace (replace_steps reps s4)) = cps).
    { rewrite Htr. subst s4. cbn [trace].
      rewrite !registrations_app, P1, app_nil_r.
      cbn [registrations]. exact G1. }
    exists (length cps). rewrite firstn_all.
    destruct (snd (rewrite_plan (_find_all_citation_spans soup) citations))
      as [[]|e6]; cbv beta iota.
    + destruct (add_bibliography_state bib' (replace_steps reps s4))
        as (tail & Htr' & _ & _ & T1 & _).
      rewrite Htr', registrations_app, T1, app_nil_r.
      split; [|intros _]; exact Hregs.
    + cbn [fst snd]. split; [exact Hregs | discriminate].
  - exists k. split; [|discriminate].
    cbn [registrations]. exact G1.
Qed.

End FailuresAndReruns.
(** * Properties of [docx2md.py] *)

Module Docx2mdFacts.
Import Docx2md.

Lemma contains_unfold (sub s : string) :
  contains sub s
  = String.prefix sub s
    || match s with
       | EmptyString => false
       | String _ s' => contains sub s'
       end.
Proof. destruct s; reflexivity. Qed.

Lemma contains_app (sub a b : string) :
  contains sub (a ++ sub ++ b)%string = true.
Proof.
  induction a as [|c a IH].
  - assert (H : String.prefix sub (sub ++ b)%string = true)
      by apply (startswith_append sub b).
    change ("" ++ sub ++ b)%string with (sub ++ b)%string.
    now rewrite contains_unfold, H.
  - change (String c a ++ sub ++ b)%string
      with (String c (a ++ sub ++ b)%string).
    rewrite contains_unfold, IH. apply orb_true_r.
Qed.

Lemma contains_skip (sub a s : string) :
  contains sub s = true -> contains sub (a ++ s)%string = true.
Proof.
  intros H. induction a as [|c a IH]; [exact H|].
  change (String c a ++ s)%string with (String c (a ++ s)%string).
  rewrite contains_unfold, IH. apply orb_true_r.
Qed.

Lemma zipball_link_contains owner repo ref :
  contains "zipball" (zipball_link owner repo ref) = true.
Proof.
  unfold zipball_link.
  do 5 apply contains_skip.
  exact (contains_app "zipball" "/" ("/" ++ ref)).
Qed.

(** X15.  The link that the error message of [is_on_github] names as
    valid is accepted whatever owner, repository and reference it holds.
    A source that does not start with the address of the GitHub API is
    never refused, and is answered with [False]; one that does is
    answered with [True] when "zipball" occurs anywhere in it, and refused
    otherwise. *)
Theorem github_link_check :
  (forall owner repo ref,
      is_on_github (zipball_link owner repo ref) = Ok true)
  /\ (forall source,
         Str.startswith source github_api = false ->
         is_on_github source = Ok false)
  /\ (forall rest,
         is_on_github (github_api ++ rest)%string
         = if contains "zipball" rest
           then Ok true else Raise invalid_link).
Proof.
  split; [|split].
  - intros owner repo ref. unfold is_on_github.
    rewrite zipball_link_contains.
    unfold zipball_link. now rewrite startswith_append.
  - intros source H. unfold is_on_github. now rewrite H.
  - intros rest. unfold is_on_github.
    rewrite startswith_append.
    assert (H : contains "zipball" (github_api ++ rest)%string
                = contains "zipball" rest) by reflexivity.
    rewrite H. now destruct (contains "zipball" rest).
Qed.

Lemma next_dir_some (filelist : list ZipInfo) zi :
  next_dir filelist = Some zi ->
  exists before after,
    filelist = before ++ zi :: after
    /\ Forall (fun z => is_dir z = false) before
    /\ is_dir zi = true.
Proof.
  induction filelist as [|z rest IH]; [discriminate|].
  simpl. destruct (is_dir z) eqn:Hz.
  - intros [= <-]. exists [], rest. auto.
  - intros H. destruct (IH H) as (before & after & -> & Hb & Hzi).
    exists (z :: before), after. auto.
Qed.

Lemma next_dir_none (filelist : list ZipInfo) :
  next_dir filelist = None -> Forall (fun z => is_dir z = false) filelist.
Proof.
  induction filelist as [|z rest IH]; [constructor|].
  simpl. destruct (is_dir z) eqn:Hz; [discriminate|]. auto.
Qed.


Section CopyingFacts.
Context {F : Files} {U : Utils}.

Lemma numbering_app (l l' : list action) :
  numbering (l ++ l') = numbering l ++ numbering l'.
Proof.
  induction l as [|a l IH]; [reflexivity|].
  destruct a; simpl; now rewrite ?IH.
Qed.

Lemma copied_app (l l' : list action) :
  copied (l ++ l') = copied l ++ copied l'.
Proof.
  induction l as [|a l IH]; [reflexivity|].
  destruct a; simpl; now rewrite ?IH.
Qed.

Lemma infos_app (l l' : list action) :
  infos (l ++ l') = infos l ++ infos l'.
Proof.
  induction l as [|a l IH]; [reflexivity|].
  destruct a; simpl; now rewrite ?IH.
Qed.

(** [_copy] tries the copy whether or not the source exists, and raises
    what [shutil.copy] raises. *)
Lemma copy_spec src dst (w : world) :
  let r := _copy src dst w in
  numbering (actions (snd r)) = numbering (actions w)
  /\ copied (actions (snd r)) = copied (actions w) ++ [src]
  /\ infos (actions (snd r)) = infos (actions w)
  /\ forall e, fst r = Raise e -> shutil_copy (files w) src dst = Raise e.
Proof.
  unfold _copy, act. cbn [snd].
  destruct (path_exists (files w) src); cbn [files actions];
    (destruct (shutil_copy (files w) src dst) as [fs'|e] eqn:Hcopy;
     [|destruct (is_file_not_found e)]);
    cbn [fst snd files actions];
    rewrite ?numbering_app, ?copied_app, ?infos_app; simpl;
    rewrite ?app_nil_r;
    repeat split; try reflexivity;
    intros e' He'; try discriminate; now injection He' as <-.
Qed.

(** One numbered copy: the number is asked for, the copy is tried, and
    what is raised is what [shutil.copy] raised. *)
Lemma ordered_copy_spec idx src total slug (w : world) :
  let r := ordered_copy idx src total slug w in
  numbering (actions (snd r)) = numbering (actions w) ++ [(idx, src, total)]
  /\ copied (actions (snd r)) = copied (actions w) ++ [src]
  /\ infos (actions (snd r)) = infos (actions w)
  /\ forall e, fst r = Raise e ->
               exists fs dst, shutil_copy fs src dst = Raise e.
Proof.
  unfold ordered_copy, wbind. cbn [act].
  set (w0 := MkWorld (files w) (actions w ++ [OrderedFilename idx src total])).
  set (dst := destination _ _ _ _).
  destruct (copy_spec src dst w0) as (Hn & Hc & Hi & Hraise).
  cbv zeta. rewrite Hn, Hc, Hi. subst w0. cbn [actions files] in *.
  rewrite numbering_app, copied_app, infos_app. simpl.
  rewrite !app_nil_r. repeat split.
  intros e He. exists (files w), dst. now apply Hraise.
Qed.

Lemma numbered_from_length idx total srcs :
  length (numbered_from idx total srcs) = length srcs.
Proof.
  revert idx. induction srcs as [|s srcs IH]; intros idx; simpl; auto.
Qed.

(** The loop over the chapters: it numbers and copies a first part of
    them, all of them when it returns. *)
Lemma copy_chapters_loop_spec chs : forall idx pp total slug (w : world),
  let r := copy_chapters_loop chs idx pp total slug w in
  let srcs := map (fun ch => joinpath pp (file ch)) chs in
  exists k,
    k <= length chs
    /\ numbering (actions (snd r))
       = numbering (actions w) ++ firstn k (numbered_from idx total srcs)
    /\ copied (actions (snd r)) = copied (actions w) ++ firstn k srcs
    /\ infos (actions (snd r)) = infos (actions w)
    /\ (fst r = Ok tt -> k = length chs)
    /\ forall e, fst r = Raise e ->
                 0 < k /\ exists fs src dst, shutil_copy fs src dst = Raise e.
Proof.
  induction chs as [|ch chs IH]; intros idx pp total slug w.
  - exists 0. simpl. rewrite !app_nil_r.
    do 5 (split; [reflexivity|]). intros e He. discriminate He.
  - cbn [copy_chapters_loop]. unfold wbind.
    destruct (ordered_copy_spec idx (joinpath pp (file ch)) total slug w)
      as (Hn & Hc & Hi & Hraise).
    destruct (ordered_copy idx (joinpath pp (file ch)) total slug w)
      as [[[]|e] w1]; cbn [fst snd] in *.
    + destruct (IH (idx + 1)%Z pp total slug w1)
        as (k & Hk & Hn' & Hc' & Hi' & Hok & Hraise').
      exists (S k). cbn zeta. cbn [map numbered_from firstn length].
      rewrite Hn', Hc', Hi', Hn, Hc, Hi, <- !app_assoc.
      split; [lia|]. do 3 (split; [reflexivity|]).
      split; [intros H; f_equal; now apply Hok|].
      intros e He. destruct (Hraise' e He) as [_ H].
      split; [lia | exact H].
    + exists 1. cbn zeta. cbn [map numbered_from firstn length].
      rewrite Hn, Hc, Hi.
      split; [lia|]. do 3 (split; [reflexivity|]).
      split; [discriminate|].
      intros e' [= <-]. destruct (Hraise e eq_refl) as (fs & dst & H).
      split; [lia | eauto].
Qed.

Lemma count_is_number_of_sources pp (jb_toc : TableOfContents) :
  _count_files_to_copy jb_toc = Z.of_nat (length (sources pp jb_toc)).
Proof.
  unfold _count_files_to_copy, sources.
  rewrite length_app, length_map.
  destruct (is_root_in_chapters jb_toc); simpl length; lia.
Qed.


(** One numbered copy ends as [shutil.copy] ends: it returns with the
    files that [shutil.copy] left, or raises what [shutil.copy] raised
    with the files as they were. *)
Lemma ordered_copy_files idx src total slug (w : world) :
  let r := ordered_copy idx src total slug w in
  match shutil_copy (files w) src (destination idx src total slug) with
  | Ok fs' => fst r = Ok tt /\ files (snd r) = fs'
  | Raise e => fst r = Raise e /\ files (snd r) = files w
  end.
Proof.
  unfold ordered_copy, wbind, _copy, act. cbn [snd files actions].
  destruct (path_exists (files w) src); cbn [files actions];
    (destruct (shutil_copy (files w) src (destination idx src total slug))
       as [fs'|e]; [|destruct (is_file_not_found e)]);
    cbn [fst snd files]; auto.
Qed.

(** The loop over the chapters is one numbered copy after the other. *)
Lemma copy_chapters_loop_numbered chs : forall idx pp total slug (w : world),
  copy_chapters_loop chs idx pp total slug w
  = copy_numbered
      (numbered_from idx total (map (fun ch => joinpath pp (file ch)) chs))
      slug w.
Proof.
  induction chs as [|ch chs IH]; intros idx pp total slug w; [reflexivity|].
  cbn [copy_chapters_loop map numbered_from copy_numbered]. unfold wbind.
  destruct (ordered_copy idx (joinpath pp (file ch)) total slug w)
    as [[[]|e] w1]; [apply IH | reflexivity].
Qed.

(** [_copy_content_files] copies the sources one after the other, each
    with its number, and then logs the success. *)
Lemma copy_content_files_numbered project_path jb_toc (w : world) :
  let srcs := sources project_path jb_toc in
  _copy_content_files project_path jb_toc w
  = wbind (copy_numbered
             (numbered_from 0 (Z.of_nat (length srcs)) srcs)
             (path_name project_path))
          (fun _ => act (LogInfo no_errors)) w.
Proof.
  intros srcs. subst srcs.
  unfold _copy_content_files. cbv zeta.
  rewrite (count_is_number_of_sources project_path).
  set (total := Z.of_nat (length (sources project_path jb_toc))).
  unfold _copy_root_file, _copy_chapters.
  assert (Hstart : (total - Z.of_nat (length (get_chapters jb_toc)))%Z
                   = if is_root_in_chapters jb_toc then 0%Z else 1%Z).
  { subst total. unfold sources. rewrite length_app, length_map.
    destruct (is_root_in_chapters jb_toc); simpl length; lia. }
  rewrite Hstart. unfold sources.
  destruct (is_root_in_chapters jb_toc);
    cbn [negb app numbered_from copy_numbered]; unfold wbind, wret.
  - now rewrite copy_chapters_loop_numbered.
  - destruct (ordered_copy 0%Z _ total _ w) as [[[]|e] w0]; [|reflexivity].
    now rewrite copy_chapters_loop_numbered.
Qed.

(** The numbered copies of a list of files: when one fails, the ones
    before it were made, one after the other, the one that failed was
    tried on the files that they left, and none after it was tried. *)
Lemma copy_numbered_raises srcs : forall idx total slug (w w' : world) e,
  copy_numbered (numbered_from idx total srcs) slug w = (Raise e, w') ->
  infos (actions w') = infos (actions w)
  /\ exists k src,
      nth_error srcs k = Some src
      /\ copied (actions w') = copied (actions w) ++ firstn k srcs ++ [src]
      /\ numbering (actions w')
         = numbering (actions w)
           ++ firstn (S k) (numbered_from idx total srcs)
      /\ copy_all (firstn k (numbered_from idx total srcs)) slug (files w)
         = Ok (files w')
      /\ shutil_copy (files w') src
                     (destination (idx + Z.of_nat k) src total slug)
         = Raise e.
Proof.
  induction srcs as [|src srcs IH]; intros idx total slug w w' e;
    [discriminate|].
  cbn [numbered_from copy_numbered]. unfold wbind.
  destruct (ordered_copy_spec idx src total slug w) as (Hn & Hc & Hi & _).
  pose proof (ordered_copy_files idx src total slug w) as Hfiles.
  cbv zeta in Hfiles.
  destruct (ordered_copy idx src total slug w) as [[[]|e0] w1];
    cbn [fst snd] in *.
  - intros Hrest.
    destruct (shutil_copy (files w) src (destination idx src total slug))
      as [fs'|e1] eqn:Hcopy; [|destruct Hfiles; discriminate].
    destruct Hfiles as [_ <-].
    destruct (IH _ _ _ _ _ _ Hrest)
      as (Hi' & k & src' & Hk & Hc' & Hn' & Hall & Hfail).
    split; [congruence|].
    exists (S k), src'. cbn [nth_error firstn copy_all app].
    rewrite Hcopy. cbn [rbind].
    rewrite Hc', Hn', Hc, Hn, <- !app_assoc.
    repeat split; try assumption.
    replace (idx + Z.of_nat (S k))%Z with (idx + 1 + Z.of_nat k)%Z by lia.
    exact Hfail.
  - intros [= <- <-].
    destruct (shutil_copy (files w) src (destination idx src total slug))
      as [fs'|e1] eqn:Hcopy; [destruct Hfiles; discriminate|].
    destruct Hfiles as [[= ->] Hsame].
    split; [exact Hi|].
    exists 0, src. cbn [nth_error firstn copy_all app].
    rewrite Hc, Hn, Hsame, Z.add_0_r. auto.
Qed.


End CopyingFacts.

End Docx2mdFacts.

(** * The model at work *)

#[local] Existing Instance Sample.runtime.
#[local] Existing Instance Sample.codec.
#[local] Existing Instance Sample.engine.

Import Sample.

Example two_markers_run :
  fst (run two_markers "harvard1") = Ok two_markers_out.
Proof. vm_compute. reflexivity. Qed.

(** The marker inside a marker uses up the second group and is gone with
    the marker around it; the marker after them gets the third group. *)
Example nested_markers_run :
  extracted nested_markers = Ok [smith; jones; jones]
  /\ map fst (replacements (trace (snd (run nested_markers "harvard1"))))
     = [[0; 0]; [0; 0; 0]; [0; 1]]
  /\ fst (run nested_markers "harvard1")
     = Ok [ p [cite_tag "Smith 2020"; cite_tag "Jones 1999"];
            bibliography_container ["smith2020"; "jones1999"] ].
Proof. repeat split; vm_compute; reflexivity. Qed.

Example other_payload_run :
  fst (run other_payload "harvard1")
  = Ok [ p [foreign_span; cite_tag "Smith 2020"];
         bibliography_container ["smith2020"] ].
Proof. vm_compute. reflexivity. Qed.

Example no_key_run :
  run no_key "harvard1"
  = (Raise (KeyError "id"),
     MkState no_key [] []
             (setup_calls
                [ record [("id", "Smith2020"); ("type", "book");
                          ("title", "On Trees")];
                  record [("type", "book"); ("title", "No key")] ]
                "harvard1")).
Proof. vm_compute. reflexivity. Qed.

Example unknown_style_run :
  fst (run two_markers "apa") = Raise (ValueError "not a known style")
  /\ html_soup (snd (run two_markers "apa")) = two_markers.
Proof. split; vm_compute; reflexivity. Qed.

(** A group without [properties] stops the rewrite at its marker: the
    marker before it is replaced, the run raises [KeyError], and the
    marker after it is left. *)
Example no_properties_run :
  fst (run no_properties "harvard1") = Raise (KeyError "properties")
  /\ html_soup (snd (run no_properties "harvard1"))
     = [ p [cite_tag "Smith 2020"; marker bare_b64 []; marker jones_b64 []] ]
  /\ registrations (trace (snd (run no_properties "harvard1")))
     = [smith_cp; MkCpCitation [MkCpCitationItem "bare2001"]; jones_cp].
Proof. repeat split; vm_compute; reflexivity. Qed.

(** A number for the [plainCitation] is refused by the setter of
    [Tag.string], after the registration. *)
Example number_for_text_run :
  fst (run number_for_text "harvard1") = Raise (AttributeError "parent")
  /\ html_soup (snd (run number_for_text "harvard1")) = number_for_text
  /\ registrations (trace (snd (run number_for_text "harvard1")))
     = [MkCpCitation [MkCpCitationItem "num5"]].
Proof. repeat split; vm_compute; reflexivity. Qed.

(** A payload that decodes to a string is extracted as it is, and the
    building of the item pool raises on it. *)
Example text_for_group_run :
  extracted text_for_group = Ok [JStr "Smith 2020"]
  /\ run text_for_group "harvard1" = (Raise TypeError, fresh text_for_group).
Proof. split; vm_compute; reflexivity. Qed.

(** C1, at a soup with two markers. *)
Lemma order_preservation_witness :
  run two_markers "harvard1"
  = (Ok two_markers_out, snd (run two_markers "harvard1"))
  /\ exists citations texts,
      extracted two_markers = Ok citations
      /\ Forall2 cited_as citations texts
      /\ length citations = length (qualifying_markers two_markers)
      /\ replacements (trace (snd (run two_markers "harvard1")))
         = cite_replacements two_markers texts
      /\ cite_calls (trace (snd (run two_markers "harvard1"))) = []
      /\ forall i p,
          nth_error (map fst (qualifying_markers two_markers)) i = Some p ->
          top_level two_markers p = true ->
          exists c text,
            nth_error citations i = Some c
            /\ cited_as c text
            /\ get_at p two_markers_out = Some (cite_tag text).
Proof.
  assert (H : run two_markers "harvard1"
              = (Ok two_markers_out, snd (run two_markers "harvard1")))
    by (vm_compute; reflexivity).
  split; [exact H | exact (order_preservation _ _ H)].
Defined.

(** C1: the claim as the specification states it fails on two markers:
    the engine's [cite] returns "(smith2020)" and "(jones1999)" for the
    registered groups, and the markers are replaced by "Smith 2020" and
    "Jones 1999". *)
Lemma cite_result_unused : ~ replaced_by_cite two_markers "harvard1".
Proof.
  intros H.
  specialize (H two_markers_out (snd (run two_markers "harvard1"))
                (MkBib ["smith2020"; "jones1999"] ["smith2020"; "jones1999"])
                [smith_cp; jones_cp]
                ["(smith2020)"; "(jones1999)"]).
  vm_compute in H.
  specialize (H eq_refl eq_refl eq_refl). discriminate H.
Qed.

(** C2, at the first replacement of a run on two markers. *)
Lemma registration_before_replacement_witness :
  let t := trace (snd (run two_markers "harvard1")) in
  t = firstn 5 t ++ ReplaceWith [0; 1] (cite_tag "Smith 2020") :: skipn 6 t
  /\ exists citations cps,
      extracted two_markers = Ok citations
      /\ create_citations_to_register citations = Ok cps
      /\ length cps = length (qualifying_markers two_markers)
      /\ registrations (firstn 5 t) = cps
      /\ registrations (skipn 6 t) = []
      /\ cite_calls (firstn 5 t
                     ++ ReplaceWith [0; 1] (cite_tag "Smith 2020")
                     :: skipn 6 t) = [].
Proof.
  intros t.
  assert (H : t = firstn 5 t
                  ++ ReplaceWith [0; 1] (cite_tag "Smith 2020") :: skipn 6 t)
    by (vm_compute; reflexivity).
  split; [exact H | exact (registration_before_replacement _ _ _ _ _ _ H)].
Defined.

(** C4: the claim as the specification states it fails on a citation span
    without [data-src] and on one whose payload does not decode:
    extraction raises on both, the marker before the undecodable one is
    not replaced either, and no warning is printed. *)
Lemma bad_marker_raises :
  fst (extract_citations (fresh no_payload)) = Raise (KeyError "data-src")
  /\ fst (extract_citations (fresh bad_payload))
     = Raise (ValueError "Expecting value")
  /\ run bad_payload "harvard1"
     = (Raise (ValueError "Expecting value"), fresh bad_payload).
Proof. repeat split; vm_compute; reflexivity. Qed.

(** C4, as amended, at a span with a foreign payload, at one with none
    and at one with an undecodable one. *)
Lemma marker_payload_cases_witness :
  (In ([0; 0], foreign_span) (_find_all_citation_spans other_payload)
   /\ payload_foreign foreign_span
   /\ extract_one foreign_span = Ok None
   /\ (forall new,
          ~ In ([0; 0], new)
               (replacements (trace (snd (run other_payload "harvard1")))))
   /\ stdout (snd (run other_payload "harvard1")) = [])
  /\ (In ([0; 0], bare_span) (_find_all_citation_spans no_payload)
      /\ payload_absent bare_span
      /\ exists e, run no_payload "harvard1" = (Raise e, fresh no_payload))
  /\ (In ([0; 1], marker "%%%" []) (_find_all_citation_spans bad_payload)
      /\ payload_undecodable (marker "%%%" [])
      /\ exists e, run bad_payload "harvard1" = (Raise e, fresh bad_payload)).
Proof.
  assert (Hin1 : In ([0; 0], foreign_span)
                    (_find_all_citation_spans other_payload))
    by (vm_compute; left; reflexivity).
  assert (Hin2 : In ([0; 0], bare_span) (_find_all_citation_spans no_payload))
    by (vm_compute; left; reflexivity).
  assert (Hin3 : In ([0; 1], marker "%%%" [])
                    (_find_all_citation_spans bad_payload))
    by (vm_compute; right; left; reflexivity).
  assert (Hforeign : payload_foreign foreign_span)
    by (exists "refs.bib"; split; reflexivity).
  assert (Habsent : payload_absent bare_span) by reflexivity.
  assert (Hbad : payload_undecodable (marker "%%%" []))
    by (exists (json_prefix ++ "%%%")%string, (ValueError "Expecting value");
        repeat split; reflexivity).
  split; [|split].
  - split; [exact Hin1|]. split; [exact Hforeign|].
    exact (proj1 (marker_payload_cases _ "harvard1" _ _ Hin1) Hforeign).
  - split; [exact Hin2|]. split; [exact Habsent|].
    exact (proj2 (marker_payload_cases _ "harvard1" _ _ Hin2)
                 (or_introl Habsent)).
  - split; [exact Hin3|]. split; [exact Hbad|].
    exact (proj2 (marker_payload_cases _ "harvard1" _ _ Hin3)
                 (or_intror Hbad)).
Defined.



(** C6: the claim as the specification states it fails on a marker whose
    payload does not decode: the run raises, as it does for a record
    without [id]. *)
Lemma undecodable_marker_is_fatal :
  ~ survives_undecodable bad_payload_first "harvard1".
Proof.
  intros H.
  assert (Hin : In ([0; 0], marker "%%%" [])
                   (_find_all_citation_spans bad_payload_first))
    by (vm_compute; left; reflexivity).
  assert (Hbad : payload_undecodable (marker "%%%" []))
    by (exists (json_prefix ++ "%%%")%string, (ValueError "Expecting value");
        repeat split; reflexivity).
  specialize (H _ _ Hin Hbad). vm_compute in H. discriminate H.
Qed.

(** C6, as amended, at a soup whose second group has a record without
    [id], and at one whose first marker does not decode. *)
Lemma missing_identifier_aborts_witness :
  (extracted no_key = Ok [smith; anon]
   /\ Exists group_lacks_id [smith; anon]
   /\ prepare_citations_for_citeproc [smith; anon]
      = Ok [ record [("id", "Smith2020"); ("type", "book");
                     ("title", "On Trees")];
             record [("type", "book"); ("title", "No key")] ]
   /\ fst (run no_key "harvard1") = Raise (KeyError "id")
   /\ html_soup (snd (run no_key "harvard1")) = no_key
   /\ registrations (trace (snd (run no_key "harvard1"))) = []
   /\ replacements (trace (snd (run no_key "harvard1"))) = []
   /\ appended (trace (snd (run no_key "harvard1"))) = [])
  /\ (In ([0; 0], marker "%%%" [])
         (_find_all_citation_spans bad_payload_first)
      /\ payload_undecodable (marker "%%%" [])
      /\ exists e,
          run bad_payload_first "harvard1"
          = (Raise e, fresh bad_payload_first)).
Proof.
  assert (H : extracted no_key = Ok [smith; anon])
    by (vm_compute; reflexivity).
  assert (Hlacks : Exists group_lacks_id [smith; anon]).
  { right; left. eexists. split; [reflexivity|].
    left. eexists. split; reflexivity. }
  assert (Hprep : prepare_citations_for_citeproc [smith; anon]
                  = Ok [ record [("id", "Smith2020"); ("type", "book");
                                 ("title", "On Trees")];
                         record [("type", "book"); ("title", "No key")] ])
    by reflexivity.
  assert (Hin : In ([0; 0], marker "%%%" [])
                   (_find_all_citation_spans bad_payload_first))
    by (vm_compute; left; reflexivity).
  assert (Hbad : payload_undecodable (marker "%%%" []))
    by (exists (json_prefix ++ "%%%")%string, (ValueError "Expecting value");
        repeat split; reflexivity).
  split.
  - destruct (proj1 (missing_identifier_aborts no_key "harvard1") _ H Hlacks)
      as (e & He & Hsoup & Hregs & Hreps & Happ & Hkey).
    assert (Hid : e = KeyError "id").
    { eapply Hkey;
        [exact Hprep | repeat constructor | reflexivity | reflexivity
        |reflexivity]. }
    rewrite Hid in He. auto 10.
  - split; [exact Hin|]. split; [exact Hbad|].
    exact (proj2 (missing_identifier_aborts bad_payload_first "harvard1")
                 _ _ Hin Hbad).
Defined.

(** C7, at a style that the engine does not know. *)
Lemma unknown_style_fails_before_registration_witness :
  CitationStylesStyle "apa" = Raise (ValueError "not a known style")
  /\ exists e',
      fst (run two_markers "apa") = Raise e'
      /\ registrations (trace (snd (run two_markers "apa"))) = []
      /\ html_soup (snd (run two_markers "apa")) = two_markers
      /\ (forall citations json_data bib_source,
             extracted two_markers = Ok citations ->
             prepare_citations_for_citeproc citations = Ok json_data ->
             CiteProcJSON json_data = Ok bib_source ->
             e' = ValueError "not a known style"
             /\ trace (snd (run two_markers "apa"))
                = [ CallCiteProcJSON json_data;
                    CallCitationStylesStyle "apa" ]).
Proof.
  assert (H : CitationStylesStyle "apa"
              = Raise (ValueError "not a known style")) by reflexivity.
  split; [exact H|].
  exact (unknown_style_fails_before_registration two_markers _ H).
Defined.

(** C8, at an empty bibliography object and at a soup without markers. *)
Lemma empty_bibliography_leaves_tree_witness :
  bibliography no_records = Ok []
  /\ add_bibliography no_records (fresh no_markers)
     = (Ok no_markers, log CallBibliography (fresh no_markers))
  /\ qualifying_markers no_markers = []
  /\ renders_nothing_unregistered
  /\ html_soup (snd (run no_markers "harvard1")) = no_markers
  /\ appended (trace (snd (run no_markers "harvard1"))) = []
  /\ forall out s', run no_markers "harvard1" = (Ok out, s') ->
                    out = no_markers.
Proof.
  assert (Hbib : bibliography no_records = Ok []) by reflexivity.
  assert (Hnone : qualifying_markers no_markers = []) by reflexivity.
  assert (Hengine : renders_nothing_unregistered).
  { intros src st b Hsrc Hnew.
    injection Hsrc as <-. injection Hnew as <-. reflexivity. }
  pose proof (empty_bibliography_leaves_tree
                no_markers "harvard1" no_records (fresh no_markers))
    as [Hadd Hrun].
  split; [exact Hbib|]. split; [exact (Hadd Hbib)|].
  split; [exact Hnone|]. split; [exact Hengine|].
  exact (Hrun Hnone Hengine).
Defined.

(** C9: a run on two markers appends one element, the [div] with the
    heading and one list item for each of the two entries in their order,
    and the element carries no class: it has no attribute at all, and a
    search for a [div] of the class [dgtmon-bibliography] in the returned
    tree finds nothing. *)
Theorem bibliography_container_lacks_class :
  fst (run two_markers "harvard1") = Ok two_markers_out
  /\ appended (trace (snd (run two_markers "harvard1")))
     = [bibliography_container ["smith2020"; "jones1999"]]
  /\ bibliography_container ["smith2020"; "jones1999"]
     = Tag "div" (Some (PyDict [("class", AttrStr "dgtmon-bibliography")])) []
           [ Tag "h1" None [] [NavigableString "Bibliography"];
             Tag "ol" None []
                 [ Tag "li" None []
                       [NavigableString "<small>smith2020</small>"];
                   Tag "li" None []
                       [NavigableString "<small>jones1999</small>"] ] ]
  /\ dict_get "class"
              (attrs_of (bibliography_container ["smith2020"; "jones1999"]))
     = Raise (KeyError "class")
  /\ find_all two_markers_out "div" [("class", "dgtmon-bibliography")] = [].
Proof. repeat split; vm_compute; reflexivity. Qed.

(** C10: the claim as the specification states it fails on three markers
    the second of which has a group without [properties]: three groups
    are extracted, and one marker is rewritten. *)
Lemma missing_properties_stops_rewrite :
  ~ rewrites_every_group no_properties [] no_records.
Proof.
  intros H.
  assert (Hex : extracted no_properties = Ok [smith; bare; jones])
    by (vm_compute; reflexivity).
  specialize (H _ Hex). vm_compute in H. discriminate H.
Qed.

(** C10, as amended, at a soup with two markers. *)
Lemma markers_match_groups_witness :
  extracted two_markers = Ok [smith; jones]
  /\ let r := add_citations [] [smith; jones] no_records
                            (fresh two_markers) in
     let done := length (replacements (trace (snd r))) in
     length [smith; jones] = length (qualifying_markers two_markers)
     /\ (forall i, i < length (qualifying_markers two_markers) ->
                   is_ok (list_get [smith; jones] i) = true)
     /\ (is_ok (fst r) = true -> done = length [smith; jones])
     /\ (forall e, fst r = Raise e ->
                   done < length [smith; jones]
                   /\ exists c, list_get [smith; jones] done = Ok c
                                /\ plain_cite c = Raise e).
Proof.
  assert (H : extracted two_markers = Ok [smith; jones])
    by (vm_compute; reflexivity).
  split; [exact H|].
  exact (markers_match_groups two_markers [] no_records H).
Defined.

(** ** More of the model at work *)

(** X3, at two groups. *)
Lemma keys_match_item_pool_witness :
  create_citations_to_register [smith; jones] = Ok [smith_cp; jones_cp]
  /\ exists pool,
      prepare_citations_for_citeproc [smith; jones] = Ok pool
      /\ Forall2 keyed pool (flat_map cites [smith_cp; jones_cp]).
Proof.
  assert (H : create_citations_to_register [smith; jones]
              = Ok [smith_cp; jones_cp]) by reflexivity.
  split; [exact H | exact (keys_match_item_pool _ H)].
Defined.

(** X4, at a soup with two markers. *)
Lemma extraction_follows_markers_witness :
  extracted two_markers = Ok [smith; jones]
  /\ Forall2 decodes_to (qualifying_markers two_markers) [smith; jones].
Proof.
  assert (H : extracted two_markers = Ok [smith; jones])
    by (vm_compute; reflexivity).
  split; [exact H | exact (extraction_follows_markers _ H)].
Defined.

(** X5, at a soup whose second marker does not decode. *)
Lemma first_bad_marker_decides_witness :
  _find_all_citation_spans bad_payload
  = [([0; 0], marker smith_b64 [])] ++ ([0; 1], marker "%%%" []) :: []
  /\ Forall (fun e => is_ok (extract_one (snd e)) = true)
            [([0; 0], marker smith_b64 [])]
  /\ extract_one (marker "%%%" []) = Raise (ValueError "Expecting value")
  /\ extracted bad_payload = Raise (ValueError "Expecting value")
  /\ run bad_payload "harvard1"
     = (Raise (ValueError "Expecting value"), fresh bad_payload).
Proof.
  assert (H1 : _find_all_citation_spans bad_payload
               = [([0; 0], marker smith_b64 [])]
                   ++ ([0; 1], marker "%%%" []) :: [])
    by (vm_compute; reflexivity).
  assert (H2 : Forall (fun e => is_ok (extract_one (snd e)) = true)
                      [([0; 0], marker smith_b64 [])])
    by (constructor; [vm_compute; reflexivity | constructor]).
  assert (H3 : extract_one (snd ([0; 1], marker "%%%" []))
               = Raise (ValueError "Expecting value"))
    by (vm_compute; reflexivity).
  split; [exact H1|]. split; [exact H2|]. split; [exact H3|].
  exact (first_bad_marker_decides bad_payload "harvard1" _ _ H1 H2 H3).
Defined.

(** X6, at two markers and one group. *)
Lemma too_few_groups_witness :
  Forall has_data (_find_all_citation_spans two_markers)
  /\ Forall2 cited_as [smith] ["Smith 2020"]
  /\ length [smith] < length (qualifying_markers two_markers)
  /\ let r := add_citations [] [smith] no_records (fresh two_markers) in
     fst r = Raise IndexError
     /\ replacements (trace (snd r))
        = cite_replacements two_markers ["Smith 2020"]
     /\ length (replacements (trace (snd r))) = length [smith]
     /\ forall i p text,
         nth_error (map fst (qualifying_markers two_markers)) i = Some p ->
         nth_error ["Smith 2020"] i = Some text ->
         top_level two_markers p = true ->
         get_at p (html_soup (snd r)) = Some (cite_tag text).
Proof.
  assert (H1 : Forall has_data (_find_all_citation_spans two_markers))
    by (repeat constructor).
  assert (H2 : Forall2 cited_as [smith] ["Smith 2020"])
    by (constructor; [reflexivity | constructor]).
  assert (H3 : length [smith] < length (qualifying_markers two_markers))
    by (vm_compute; lia).
  split; [exact H1|]. split; [exact H2|]. split; [exact H3|].
  exact (too_few_groups two_markers [] no_records H1 H2 H3).
Defined.


(** X8, at the text before the first of two markers. *)
Lemma rewrite_frame_witness :
  (forall e, In e (qualifying_markers two_markers) -> apart (fst e) [0; 0])
  /\ get_at [0; 0] two_markers <> None
  /\ let s' := snd (add_citations [] [smith; jones] no_records
                                  (fresh two_markers)) in
     get_at [0; 0] (html_soup s') = get_at [0; 0] two_markers
     /\ length (html_soup s') = length two_markers
     /\ get_at [0; 0] (html_soup (snd (run two_markers "harvard1")))
        = get_at [0; 0] two_markers.
Proof.
  assert (H : forall e, In e (qualifying_markers two_markers) ->
                        apart (fst e) [0; 0]).
  { intros e He. vm_compute in He.
    destruct He as [<-|[<-|[]]]; (split; [discriminate | split; reflexivity]). }
  assert (Hvalid : get_at [0; 0] two_markers <> None) by discriminate.
  split; [exact H|]. split; [exact Hvalid|].
  destruct (rewrite_frame (E := engine) two_markers "harvard1"
                          [smith; jones] [] no_records H)
    as (H1 & H2 & H3).
  split; [exact H1|]. split; [exact H2 | exact (H3 Hvalid)].
Defined.

(** X9, at a soup with a marker and a span that does not qualify. *)
Lemma no_marker_left_witness :
  let r := add_citations [] [smith] no_records (fresh other_payload) in
  r = (Ok [p [foreign_span; cite_tag "Smith 2020"]], snd r)
  /\ html_soup (snd r) = [p [foreign_span; cite_tag "Smith 2020"]]
  /\ qualifying_markers [p [foreign_span; cite_tag "Smith 2020"]] = []
  /\ Forall has_data
            (_find_all_citation_spans
               [p [foreign_span; cite_tag "Smith 2020"]])
  /\ extracted [p [foreign_span; cite_tag "Smith 2020"]] = Ok [].
Proof.
  intros r.
  assert (H : r = (Ok [p [foreign_span; cite_tag "Smith 2020"]], snd r))
    by (vm_compute; reflexivity).
  split; [exact H|].
  exact (no_marker_left (E := engine) other_payload [smith] [] no_records H).
Defined.

(** X10, at a soup with two markers. *)
Lemma second_run_changes_nothing_witness :
  renders_nothing_unregistered
  /\ run two_markers "harvard1"
     = (Ok two_markers_out, snd (run two_markers "harvard1"))
  /\ extracted two_markers_out = Ok []
  /\ html_soup (snd (run two_markers_out "harvard1")) = two_markers_out
  /\ replacements (trace (snd (run two_markers_out "harvard1"))) = []
  /\ appended (trace (snd (run two_markers_out "harvard1"))) = []
  /\ forall out' s'',
      run two_markers_out "harvard1" = (Ok out', s'') ->
      out' = two_markers_out.
Proof.
  assert (Hengine : renders_nothing_unregistered).
  { intros src st b Hsrc Hnew.
    injection Hsrc as <-. injection Hnew as <-. reflexivity. }
  assert (Hrun : run two_markers "harvard1"
                 = (Ok two_markers_out, snd (run two_markers "harvard1")))
    by (vm_compute; reflexivity).
  split; [exact Hengine|]. split; [exact Hrun|].
  exact (second_run_changes_nothing _ _ Hengine Hrun).
Defined.

(** X11, at one marker and an engine whose bibliography is never
    rendered. *)
Lemma rewrite_before_bibliography_witness :
  extracted one_marker = Ok [smith]
  /\ Forall2 cited_as [smith] ["Smith 2020"]
  /\ registered (E := Faulty.engine) one_marker "harvard1"
     = Ok (MkBib ["smith2020"] ["smith2020"], [smith_cp])
  /\ let r := run (E := Faulty.engine) one_marker "harvard1" in
     replacements (trace (snd r))
     = cite_replacements one_marker ["Smith 2020"]
     /\ length (replacements (trace (snd r)))
        = length (qualifying_markers one_marker)
     /\ qualifying_markers (html_soup (snd r)) = []
     /\ (forall i p text,
            nth_error (map fst (qualifying_markers one_marker)) i = Some p ->
            nth_error ["Smith 2020"] i = Some text ->
            top_level one_marker p = true ->
            get_at p (html_soup (snd r)) = Some (cite_tag text))
     /\ fst r = Raise (OtherError "RuntimeError" "no layout")
     /\ appended (trace (snd r)) = [].
Proof.
  assert (H1 : extracted one_marker = Ok [smith])
    by (vm_compute; reflexivity).
  assert (H2 : Forall2 cited_as [smith] ["Smith 2020"])
    by (constructor; [reflexivity | constructor]).
  assert (H3 : registered (E := Faulty.engine) one_marker "harvard1"
               = Ok (MkBib ["smith2020"] ["smith2020"], [smith_cp]))
    by (vm_compute; reflexivity).
  split; [exact H1|]. split; [exact H2|]. split; [exact H3|].
  exact (rewrite_before_bibliography (E := Faulty.engine) _ _ H1 H2 H3).
Defined.

(** X12, at a style that the engine does not know. *)
Lemma failure_before_rewrite_witness :
  registered two_markers "apa" = Raise (ValueError "not a known style")
  /\ fst (run two_markers "apa") = Raise (ValueError "not a known style")
  /\ html_soup (snd (run two_markers "apa")) = two_markers
  /\ replacements (trace (snd (run two_markers "apa"))) = []
  /\ appended (trace (snd (run two_markers "apa"))) = []
  /\ stdout (snd (run two_markers "apa")) = [].
Proof.
  assert (H : registered two_markers "apa"
              = Raise (ValueError "not a known style"))
    by (vm_compute; reflexivity).
  split; [exact H | exact (failure_before_rewrite _ _ H)].
Defined.

(** X13, at a bibliography of two entries and a soup of one paragraph. *)
Lemma bibliography_is_appended_last_witness :
  bibliography (MkBib ["a"; "b"] ["a"; "b"]) = Ok ["a"; "b"]
  /\ let s := fresh no_markers in
     let out := html_soup (snd (add_bibliography (MkBib ["a"; "b"] ["a"; "b"])
                                                 s)) in
     let n := length (html_soup s) in
     fst (add_bibliography (MkBib ["a"; "b"] ["a"; "b"]) s) = Ok out
     /\ length out = S n
     /\ (forall q, get_at q (html_soup s) <> None ->
                   get_at q out = get_at q (html_soup s))
     /\ get_at [n; 0] out
        = Some (Tag "h1" None [] [NavigableString "Bibliography"])
     /\ (exists items, get_at [n; 1] out = Some (Tag "ol" None [] items)
                       /\ length items = length ["a"; "b"])
     /\ forall k text,
         nth_error ["a"; "b"] k = Some text ->
         get_at [n; 1; k; 0] out
         = Some (NavigableString ("<small>" ++ text ++ "</small>")%string).
Proof.
  assert (H : bibliography (MkBib ["a"; "b"] ["a"; "b"]) = Ok ["a"; "b"])
    by reflexivity.
  split; [exact H|].
  exact (bibliography_is_appended_last (MkBib ["a"; "b"] ["a"; "b"])
                                       (fresh no_markers) H).
Defined.

(** X14, at the search for citation spans after a bibliography of one
    entry is appended. *)
Lemma bibliography_adds_no_other_tag_witness :
  ~ In "span" ["div"; "h1"; "ol"; "li"]
  /\ html_soup (snd (add_bibliography (MkBib ["a"] ["a"]) (fresh no_markers)))
     = no_markers ++ [bibliography_container ["a"]]
  /\ find_all (html_soup (snd (add_bibliography (MkBib ["a"] ["a"])
                                                (fresh no_markers))))
              "span" [("class", "citation")]
     = find_all no_markers "span" [("class", "citation")].
Proof.
  assert (H : ~ In "span" ["div"; "h1"; "ol"; "li"])
    by (simpl; intros [H|[H|[H|[H|[]]]]]; discriminate H).
  split; [exact H|]. split; [reflexivity|].
  exact (bibliography_adds_no_other_tag (MkBib ["a"] ["a"]) (fresh no_markers)
                                        [("class", "citation")] H).
Defined.



(** X19, at a soup with two markers. *)
Lemma registrations_are_a_prefix_witness :
  extracted two_markers = Ok [smith; jones]
  /\ create_citations_to_register [smith; jones] = Ok [smith_cp; jones_cp]
  /\ exists k,
      registrations (trace (snd (run two_markers "harvard1")))
      = firstn k [smith_cp; jones_cp]
      /\ (is_ok (fst (run two_markers "harvard1")) = true ->
          registrations (trace (snd (run two_markers "harvard1")))
          = [smith_cp; jones_cp]).
Proof.
  assert (H1 : extracted two_markers = Ok [smith; jones])
    by (vm_compute; reflexivity).
  assert (H2 : create_citations_to_register [smith; jones]
               = Ok [smith_cp; jones_cp]) by reflexivity.
  split; [exact H1|]. split; [exact H2|].
  exact (registrations_are_a_prefix two_markers "harvard1" H1 H2).
Defined.
